(** * ChronoChat Prime: the chat orchestrator, the point shop and the chat client

    A shallow embedding of the three pieces of the repository that carry its
    logic, and the properties of the specification proved over them:

    - the edge function [chat-with-gemini] (the [serve] handler): history
      read, user turn, prompt, provider call, reward and streak computation,
      ledger update, assistant turn;
    - [PointsDisplay]: the client cache of the ledger row and [purchaseItem];
    - [ChatInterface]: [sendMessage] with the automatic title, and
      [regenerateResponse];
    - [ChatLayout]: the list of conversations and the active one.

    Conventions.  Numbers that the code keeps in integer columns
    ([total_points], [points_spent], [current_streak], token counts,
    milliseconds) are [Z].  JavaScript strings whose length matters (message
    text, titles) are lists of UTF-16 code units; identifiers, dates, roles
    and error messages are [string].  Everything the handler obtains from
    outside (the identity provider, the failure or success of each store
    operation, the provider's answer, every reading of the clock) is an
    explicit input, so a run is a function of the request, those inputs and
    the store.  Store operations are applied one after the other; what a run
    did is kept in a trace. *)

From Stdlib Require Import ZArith List String Ascii Bool Lia.
From stdpp Require Import base option gmap strings list fin_maps.
Import ListNotations.
Local Open Scope string_scope.
Local Open Scope list_scope.
Local Open Scope Z_scope.

(** ** JavaScript values used by the code *)

Module JS.

(** A JavaScript string as its sequence of UTF-16 code units. *)
Abbreviation jsstring := (list N).

(** The code units of an ASCII literal. *)
Fixpoint utf16 (s : string) : jsstring :=
  match s with
  | EmptyString => []
  | String c r => N_of_ascii c :: utf16 r
  end.

(** [s.length] *)
Definition length (s : jsstring) : Z := Z.of_nat (List.length s).

(** [s.substring(a, b)]: both indices are clamped to [0, s.length] and
    swapped when out of order. *)
Definition clamp (s : jsstring) (i : Z) : Z := Z.min (Z.max i 0) (length s).

Definition substring (s : jsstring) (a b : Z) : jsstring :=
  let from := Z.min (clamp s a) (clamp s b) in
  let to := Z.max (clamp s a) (clamp s b) in
  firstn (Z.to_nat (to - from)) (skipn (Z.to_nat from) s).

(** White space and line terminators removed by [String.prototype.trim]. *)
Definition isWhiteSpace (c : N) : bool :=
  let z := Z.of_N c in
  ((9 <=? z) && (z <=? 13)) || (z =? 32) || (z =? 160) || (z =? 5760)
  || ((8192 <=? z) && (z <=? 8202)) || (z =? 8232) || (z =? 8233)
  || (z =? 8239) || (z =? 8287) || (z =? 12288) || (z =? 65279).

Fixpoint trimStart (s : jsstring) : jsstring :=
  match s with
  | c :: r => if isWhiteSpace c then trimStart r else s
  | [] => []
  end.

Definition trim (s : jsstring) : jsstring :=
  rev (trimStart (rev (trimStart s))).

(** [hay.replace(pat, "")] for a string pattern: the first occurrence of
    [pat] is removed, and [hay] is returned as it is when there is none. *)
Fixpoint dropPrefix (pat s : string) : option string :=
  match pat, s with
  | EmptyString, _ => Some s
  | String p pat', String c s' =>
      if Ascii.eqb p c then dropPrefix pat' s' else None
  | String _ _, EmptyString => None
  end.

Fixpoint removeFirst (pat hay : string) : string :=
  match dropPrefix pat hay with
  | Some rest => rest
  | None =>
      match hay with
      | EmptyString => EmptyString
      | String c r => String c (removeFirst pat r)
      end
  end.

(** [s.split(sep)[0]] for a one-character separator. *)
Fixpoint splitHead (sep : ascii) (s : string) : string :=
  match s with
  | EmptyString => EmptyString
  | String c r => if Ascii.eqb c sep then EmptyString else String c (splitHead sep r)
  end.

(** *** Date: a time value is the number of milliseconds since the epoch.
    The edge runtime runs in UTC, so local time is UTC. *)

Definition msPerDay : Z := 86400000.
Definition Day (t : Z) : Z := t / msPerDay.
Definition TimeWithinDay (t : Z) : Z := t mod msPerDay.

(** Year, month (1..12) and day of the month (1..31) of a day number, in the
    proleptic Gregorian calendar. *)
Definition civilFromDays (z : Z) : Z * Z * Z :=
  let z := z + 719468 in
  let era := z / 146097 in
  let doe := z - era * 146097 in
  let yoe := (doe - doe / 1460 + doe / 36524 - doe / 146096) / 365 in
  let doy := doe - (365 * yoe + yoe / 4 - yoe / 100) in
  let mp := (5 * doy + 2) / 153 in
  let d := doy - (153 * mp + 2) / 5 + 1 in
  let m := if mp <? 10 then mp + 3 else mp - 9 in
  let y := yoe + era * 400 in
  (if m <=? 2 then y + 1 else y, m, d).

(** The day number of a year, month (1..12) and day of the month. *)
Definition daysFromCivil (y m d : Z) : Z :=
  let y := if m <=? 2 then y - 1 else y in
  let era := y / 400 in
  let yoe := y - era * 400 in
  let doy := (153 * (if 2 <? m then m - 3 else m + 9) + 2) / 5 + d - 1 in
  let doe := yoe * 365 + yoe / 4 - yoe / 100 + doy in
  era * 146097 + doe - 719468.

(** [date.getDate()] *)
Definition getDate (t : Z) : Z := snd (civilFromDays (Day t)).

(** [date.setDate(dt)]: the day [dt] of the month of [t], counted from the
    first of that month also when [dt] is out of the month; the time within
    the day is kept. *)
Definition setDate (t dt : Z) : Z :=
  let '(y, m, _) := civilFromDays (Day t) in
  (daysFromCivil y m 1 + dt - 1) * msPerDay + TimeWithinDay t.

(** The last [width] decimal digits of [n], most significant first. *)
Fixpoint digits (width : nat) (n : Z) : string :=
  match width with
  | O => EmptyString
  | S w =>
      digits w (n / 10) +:+ String (ascii_of_N (48 + Z.to_N (n mod 10))) EmptyString
  end.

Definition isoYear (y : Z) : string :=
  if (0 <=? y) && (y <=? 9999) then digits 4 y
  else if y <? 0 then "-" +:+ digits 6 (- y)
  else "+" +:+ digits 6 y.

(** The two halves of [date.toISOString()]: the date of a day number, and
    the time of the milliseconds within a day. *)
Definition isoDate (day : Z) : string :=
  let '(y, m, d) := civilFromDays day in
  isoYear y +:+ "-" +:+ digits 2 m +:+ "-" +:+ digits 2 d.

Definition isoTime (ms : Z) : string :=
  digits 2 (ms / 3600000) +:+ ":" +:+ digits 2 (ms / 60000 mod 60) +:+ ":"
  +:+ digits 2 (ms / 1000 mod 60) +:+ "." +:+ digits 3 (ms mod 1000).

(** [date.toISOString()] *)
Definition toISOString (t : Z) : string :=
  isoDate (Day t) +:+ "T" +:+ isoTime (TimeWithinDay t) +:+ "Z".

(** The time values a [Date] can hold. *)
Definition validTime (t : Z) : Prop := -8640000000000000 <= t <= 8640000000000000.

End JS.

(** ** The persistent store: the four tables the code reads and writes *)

Module Message.
Inductive Role := user | assistant.
(** A row of [messages].  Rows are kept in insertion order, which is the
    order of [created_at]. *)
Record t := {
  id : string;
  conversation_id : string;
  user_id : string;
  content : JS.jsstring;
  role : Role;
  tokens_used : option Z;
  response_time_ms : option Z;
  points_awarded : option Z
}.
End Message.

Module UserPoints.
(** The row of [user_points] of one user; [last_activity_date] is [None]
    when the column is null. *)
Record t := {
  total_points : Z;
  points_spent : Z;
  current_streak : Z;
  last_activity_date : option string
}.
End UserPoints.

Module Purchase.
Record t := {
  user_id : string;
  item_type : string;
  item_name : string;
  points_cost : Z
}.
End Purchase.

Module Conversation.
Record t := { user_id : string; title : JS.jsstring }.
End Conversation.

Module Store.
(** [user_points] has one row per user and is keyed by [user_id];
    [conversations] is keyed by [id]. *)
Record t := {
  messages : list Message.t;
  user_points : gmap string UserPoints.t;
  purchases : list Purchase.t;
  conversations : gmap string Conversation.t
}.

Definition insertMessage (m : Message.t) (s : t) : t :=
  {| messages := messages s ++ [m]; user_points := user_points s;
     purchases := purchases s; conversations := conversations s |}.

Definition insertPurchase (p : Purchase.t) (s : t) : t :=
  {| messages := messages s; user_points := user_points s;
     purchases := purchases s ++ [p]; conversations := conversations s |}.

(** [update(...).eq('user_id', uid)]: the row of [uid] is rewritten when
    there is one, and nothing happens otherwise. *)
Definition updateUserPoints (uid : string) (f : UserPoints.t -> UserPoints.t)
    (s : t) : t :=
  {| messages := messages s; user_points := alter f uid (user_points s);
     purchases := purchases s; conversations := conversations s |}.

Definition updateTitle (cid : string) (title : JS.jsstring) (s : t) : t :=
  {| messages := messages s; user_points := user_points s;
     purchases := purchases s;
     conversations :=
       alter (fun c => {| Conversation.user_id := Conversation.user_id c;
                          Conversation.title := title |}) cid (conversations s) |}.

(** [select(...).eq('conversation_id', cid).order('created_at')] *)
Definition selectMessages (cid : string) (s : t) : list Message.t :=
  List.filter (fun m => bool_decide (Message.conversation_id m = cid)) (messages s).
End Store.

(** ** The edge function [chat-with-gemini] *)

Module Edge.

(** *** What the handler receives *)

Record ChatRequest := {
  message : option JS.jsstring;
  conversationId : option string;
  style : option string;
  boost : option bool
}.

(** [body] is [None] when [req.json()] throws. *)
Record Request := {
  method : string;
  authorization : option string;
  body : option ChatRequest
}.

(** One candidate of the provider's answer: its text, or no content at all,
    in which case reading [content.parts] throws. *)
Inductive Candidate := Text (text : JS.jsstring) | NoContent.

Record GeminiData := {
  candidates : option (list Candidate);
  totalTokenCount : option Z
}.

(** The outcome of [fetch]: the call itself fails, or a response arrives
    with its [ok] flag and its body ([None] when the body is not JSON). *)
Inductive Fetch :=
| FetchError (message : string)
| FetchResponse (ok : bool) (data : option GeminiData).

(** Everything the run takes from outside.  The clock is read four times:
    [Date.now()] before the history read and after the provider's answer,
    [new Date()] for [today], and [new Date()] again, after the ledger row
    was read, for [yesterday]. *)
Record Env := {
  getUser : string -> option string;
  messagesError : bool;
  saveUserMessageError : bool;
  userMessageId : string;
  gemini : Fetch;
  userPointsError : bool;
  updateUserPointsError : bool;
  saveAssistantMessageError : bool;
  assistantMessageId : string;
  clockStart : Z;
  clockResponse : Z;
  clockToday : Z;
  clockYesterday : Z
}.

(** *** What the handler produces *)

Inductive Body :=
| BodyNull
| BodyOk (response : JS.jsstring) (tokensUsed responseTime pointsAwarded : Z)
| BodyError (error : string).

Record Response := { status : Z; payload : Body }.

(** The operations a run asked of the outside, in order. *)
Inductive Event :=
| AuthGetUser (token : string)
| SelectMessages (cid : string)
| InsertMessage (m : Message.t)
| FetchGemini (contents : list (string * JS.jsstring)) (maxOutputTokens : Z)
| SelectUserPoints (uid : string)
| UpdateUserPoints (uid : string) (row : UserPoints.t)
| ConsoleError (label : string).

Record World := { store : Store.t; trace : list Event }.

(** *** Store and exception monad.  A thrown error keeps the store as it is
    at the throw: nothing is rolled back. *)

Inductive Result (A : Type) := Return (a : A) | Throw (message : string).
Arguments Return {A} a.
Arguments Throw {A} message.

Definition M (A : Type) : Type := World -> Result A * World.

Definition ret {A} (a : A) : M A := fun w => (Return a, w).

Definition bind {A B} (m : M A) (k : A -> M B) : M B :=
  fun w =>
    match m w with
    | (Return a, w') => k a w'
    | (Throw e, w') => (Throw e, w')
    end.

Definition throw {A} (message : string) : M A := fun w => (Throw message, w).

Definition emit (e : Event) : M unit :=
  fun w => (Return tt, {| store := store w; trace := trace w ++ [e] |}).

Definition getStore : M Store.t := fun w => (Return (store w), w).

Definition modifyStore (f : Store.t -> Store.t) : M unit :=
  fun w => (Return tt, {| store := f (store w); trace := trace w |}).

Declare Scope edge_scope.
Delimit Scope edge_scope with edge.
Notation "x <- m ;; k" := (bind m (fun x => k))
  (at level 100, m at next level, right associativity) : edge_scope.
Notation "m ;;; k" := (bind m (fun _ => k))
  (at level 100, right associativity) : edge_scope.

Definition when (b : bool) (m : M unit) : M unit := if b then m else ret tt.

(** *** Store operations as the handler performs them *)

(** [insert(row)] into [messages]; the result is [true] when the store
    reported an error, and then no row was written. *)
Definition insertMessage (failed : bool) (m : Message.t) : M bool :=
  (emit (InsertMessage m) ;;;
   when (negb failed) (modifyStore (Store.insertMessage m)) ;;;
   ret failed)%edge.

(** [select('*').eq('user_id', uid).single()]: the row, or null when there
    is none or the read failed. *)
Definition selectUserPoints (failed : bool) (uid : string) : M (option UserPoints.t) :=
  (emit (SelectUserPoints uid) ;;;
   s <- getStore ;;
   ret (if failed then None else Store.user_points s !! uid))%edge.

(** [update(row).eq('user_id', uid)]; the result is not looked at. *)
Definition updateUserPoints (failed : bool) (uid : string) (row : UserPoints.t) : M unit :=
  (emit (UpdateUserPoints uid row) ;;;
   when (negb failed) (modifyStore (Store.updateUserPoints uid (fun _ => row))))%edge.

(** *** The prompt *)

Definition systemPromptOf (style : string) : string :=
  if bool_decide (style = "creative") then
    "You are a creative and imaginative AI assistant. Respond with flair, creativity, and engaging storytelling elements."
  else if bool_decide (style = "professional") then
    "You are a professional AI assistant. Provide formal, structured, and business-appropriate responses."
  else if bool_decide (style = "casual") then
    "You are a casual and friendly AI assistant. Use a relaxed, conversational tone with occasional humor."
  else if bool_decide (style = "technical") then
    "You are a technical expert AI assistant. Provide detailed, precise, and technically accurate responses."
  else
    "You are a helpful AI assistant powered by Gemini 2.5 Flash. Provide accurate, helpful, and engaging responses.".

Definition systemPrompt (style : string) (boost : bool) : string :=
  if boost then
    systemPromptOf style +:+ " This is a boosted request - provide an especially detailed and comprehensive response."
  else systemPromptOf style.

Definition geminiRole (r : Message.Role) : string :=
  match r with Message.user => "user" | Message.assistant => "model" end.

Definition geminiMessages (style : string) (boost : bool)
    (conversationHistory : list (Message.Role * JS.jsstring)) : list (string * JS.jsstring) :=
  ("user", JS.utf16 (systemPrompt style boost))
  :: List.map (fun msg => (geminiRole (fst msg), snd msg)) conversationHistory.

(** *** Points and streak *)

Definition today (env : Env) : string :=
  JS.splitHead "T" (JS.toISOString (clockToday env)).

Definition yesterdayStr (env : Env) : string :=
  let yesterday := clockYesterday env in
  let yesterday := JS.setDate yesterday (JS.getDate yesterday - 1) in
  JS.splitHead "T" (JS.toISOString yesterday).

(** [lastActivityDate === str] *)
Definition sameDate (lastActivityDate : option string) (str : string) : bool :=
  bool_decide (lastActivityDate = Some str).

(** The streak branches: from [newStreak = 1] and the [pointsAwarded] so
    far, the pair [(newStreak, pointsAwarded)] after them. *)
Definition streakBonus (userPoints : UserPoints.t) (today yesterdayStr : string)
    (pointsAwarded : Z) : Z * Z :=
  let lastActivityDate := UserPoints.last_activity_date userPoints in
  if sameDate lastActivityDate yesterdayStr then
    (UserPoints.current_streak userPoints + 1, pointsAwarded + 5)
  else if sameDate lastActivityDate today then
    (UserPoints.current_streak userPoints, 1)
  else (1, pointsAwarded).

Definition pointsCost (boost : bool) : Z := if boost then 10 else 0.

Definition newTotalPoints (userPoints : UserPoints.t) (pointsAwarded pointsCost : Z) : Z :=
  Z.max 0 (UserPoints.total_points userPoints + pointsAwarded - pointsCost).

Definition newPointsSpent (userPoints : UserPoints.t) (pointsCost : Z) : Z :=
  UserPoints.points_spent userPoints + pointsCost.

(** The computation between the read of the ledger row and its update:
    [pointsAwarded] and the row to write. *)
Definition computeReward (userPoints : UserPoints.t) (today yesterdayStr : string)
    (boost : bool) : Z * UserPoints.t :=
  let pointsAwarded := 1 in
  let '(newStreak, pointsAwarded) :=
    streakBonus userPoints today yesterdayStr pointsAwarded in
  let pointsCost := pointsCost boost in
  let newTotalPoints := newTotalPoints userPoints pointsAwarded pointsCost in
  let newPointsSpent := newPointsSpent userPoints pointsCost in
  (pointsAwarded,
   {| UserPoints.total_points := newTotalPoints;
      UserPoints.points_spent := newPointsSpent;
      UserPoints.current_streak := newStreak;
      UserPoints.last_activity_date := Some today |}).

(** The block "Calculate points awarded": the ledger row is read, and only
    when there is one are the streak, the cost and the new totals computed
    and written.  The result is [pointsAwarded]. *)
Definition reward (env : Env) (uid : string) (boost : bool) : M Z :=
  (let pointsAwarded := 1 in
   let today := today env in
   userPoints <- selectUserPoints (userPointsError env) uid ;;
   match userPoints with
   | Some userPoints =>
       let yesterdayStr := yesterdayStr env in
       let '(pointsAwarded, row) := computeReward userPoints today yesterdayStr boost in
       updateUserPoints (updateUserPointsError env) uid row ;;;
       ret pointsAwarded
   | None => ret pointsAwarded
   end)%edge.

(** *** The handler *)

(** JavaScript truthiness of an optional string. *)
Definition truthyText (s : option JS.jsstring) : bool :=
  match s with Some (_ :: _) => true | _ => false end.

Definition truthyId (s : option string) : bool :=
  match s with Some (String _ _) => true | _ => false end.

Record Reply := {
  response : JS.jsstring;
  tokensUsed : Z;
  responseTime : Z;
  replyPointsAwarded : Z
}.

(** The rows the handler inserts into [messages]. *)
Definition userTurn (env : Env) (user conversationId : string)
    (message : JS.jsstring) : Message.t :=
  {| Message.id := userMessageId env;
     Message.conversation_id := conversationId;
     Message.user_id := user;
     Message.content := message;
     Message.role := Message.user;
     Message.tokens_used := None;
     Message.response_time_ms := None;
     Message.points_awarded := None |}.

Definition assistantTurn (env : Env) (user conversationId : string)
    (aiResponse : JS.jsstring) (tokensUsed responseTime pointsAwarded : Z) : Message.t :=
  {| Message.id := assistantMessageId env;
     Message.conversation_id := conversationId;
     Message.user_id := user;
     Message.content := aiResponse;
     Message.role := Message.assistant;
     Message.tokens_used := Some tokensUsed;
     Message.response_time_ms := Some responseTime;
     Message.points_awarded := Some pointsAwarded |}.

(** "Get the user from the JWT token" *)
Definition authenticate (env : Env) (req : Request) : M string :=
  (authHeader <-
     match authorization req with
     | Some h => ret h
     | None => throw "Cannot read properties of null (reading 'replace')"
     end ;;
   let token := JS.removeFirst "Bearer " authHeader in
   emit (AuthGetUser token) ;;;
   match getUser env token with
   | Some user => ret user
   | None => throw "Unauthorized"
   end)%edge.

(** The request body with its defaults, and the test that [message] and
    [conversationId] are there. *)
Definition readRequest (req : Request) : M (JS.jsstring * string * string * bool) :=
  (chat <-
     match body req with
     | Some chat => ret chat
     | None => throw "Unexpected end of JSON input"
     end ;;
   let style := default "default" (style chat) in
   let boost := default false (boost chat) in
   if negb (truthyText (message chat)) || negb (truthyId (conversationId chat))
   then throw "Message and conversation ID are required"
   else ret (default [] (message chat), default "" (conversationId chat), style, boost))%edge.

(** "Get conversation history" *)
Definition getHistory (env : Env) (conversationId : string) : M (list Message.t) :=
  (emit (SelectMessages conversationId) ;;;
   s <- getStore ;;
   if messagesError env then
     emit (ConsoleError "Error fetching messages:") ;;;
     throw "Failed to fetch conversation history"
   else ret (Store.selectMessages conversationId s))%edge.

(** "Save user message": a failed write is logged and the run goes on. *)
Definition saveUserMessage (env : Env) (user conversationId : string)
    (message : JS.jsstring) : M unit :=
  (saveUserMessageError <-
     insertMessage (saveUserMessageError env) (userTurn env user conversationId message) ;;
   when saveUserMessageError (emit (ConsoleError "Error saving user message:")))%edge.

(** "Call Gemini API", up to the text of the first candidate and the token
    count. *)
Definition callGemini (env : Env) (style : string) (boost : bool)
    (conversationHistory : list (Message.Role * JS.jsstring)) : M (JS.jsstring * Z) :=
  (emit (FetchGemini (geminiMessages style boost conversationHistory)
           (if boost then 4096 else 2048)) ;;;
   geminiData <-
     match gemini env with
     | FetchError msg => throw msg
     | FetchResponse false _ =>
         emit (ConsoleError "Gemini API error:") ;;;
         throw "Failed to get response from Gemini"
     | FetchResponse true None => throw "Unexpected token in JSON"
     | FetchResponse true (Some geminiData) => ret geminiData
     end ;;
   match candidates geminiData with
   | None | Some [] => throw "No response generated from Gemini"
   | Some (NoContent :: _) =>
       throw "Cannot read properties of undefined (reading 'parts')"
   | Some (Text aiResponse :: _) =>
       ret (aiResponse, default 0 (totalTokenCount geminiData))
   end)%edge.

(** "Save assistant message" *)
Definition saveAssistantMessage (env : Env) (m : Message.t) : M unit :=
  (saveAssistantMessageError <- insertMessage (saveAssistantMessageError env) m ;;
   when saveAssistantMessageError
     (emit (ConsoleError "Error saving assistant message:")))%edge.

(** The body of the [try] block. *)
Definition handle (env : Env) (req : Request) : M Reply :=
  (user <- authenticate env req ;;
   chat <- readRequest req ;;
   let '(message, conversationId, style, boost) := chat in
   let startTime := clockStart env in
   messages <- getHistory env conversationId ;;
   saveUserMessage env user conversationId message ;;;
   let conversationHistory :=
     List.map (fun m => (Message.role m, Message.content m)) messages
     ++ [(Message.user, message)] in
   answer <- callGemini env style boost conversationHistory ;;
   let '(aiResponse, tokensUsed) := answer in
   let responseTime := clockResponse env - startTime in
   pointsAwarded <- reward env user boost ;;
   saveAssistantMessage env
     (assistantTurn env user conversationId aiResponse tokensUsed responseTime
        pointsAwarded) ;;;
   ret {| response := aiResponse; tokensUsed := tokensUsed;
          responseTime := responseTime; replyPointsAwarded := pointsAwarded |})%edge.

(** [error.message || 'An error occurred ...'] *)
Definition errorMessage (message : string) : string :=
  match message with
  | EmptyString => "An error occurred while processing your request"
  | _ => message
  end.

(** The handler passed to [serve]: the CORS preflight, then the [try] block
    and its [catch]. *)
Definition serve (env : Env) (req : Request) : World -> Response * World :=
  fun w =>
    if bool_decide (method req = "OPTIONS") then
      ({| status := 200; payload := BodyNull |}, w)
    else
      match handle env req w with
      | (Return r, w') =>
          ({| status := 200;
              payload := BodyOk (response r) (tokensUsed r) (responseTime r)
                           (replyPointsAwarded r) |}, w')
      | (Throw e, w') =>
          ({| status := 500; payload := BodyError (errorMessage e) |},
           {| store := store w';
              trace := trace w' ++ [ConsoleError "Error in chat-with-gemini function:"] |})
      end.

End Edge.

(** ** The client *)

(** [supabase.functions.invoke('chat-with-gemini', { body })]: a POST to the
    edge function with the session's bearer token; [data] on a 2xx status,
    and an error otherwise. *)
Definition invoke (env : Edge.Env) (token : string) (chat : Edge.ChatRequest)
    (w : Edge.World) : option Edge.Body * Edge.World :=
  let '(r, w') :=
    Edge.serve env
      {| Edge.method := "POST";
         Edge.authorization := Some ("Bearer " +:+ token);
         Edge.body := Some chat |} w in
  (if bool_decide (Edge.status r = 200) then Some (Edge.payload r) else None, w').

Module PointsDisplay.

(** The component's state: the signed-in user and the cached ledger row. *)
Record State := {
  user : option string;
  userPoints : option UserPoints.t;
  loading : bool
}.

Inductive Toast :=
| InsufficientPoints (cost total_points : Z)
| PurchaseSuccessful (itemName : string) (cost : Z)
| PurchaseFailed.

(** [loadUserPoints]: runs once the user is known; [.single()] reports an
    error when the read fails or the user has no row, and the cache is then
    left as it is. *)
Definition loadUserPoints (error : bool) (st : State) (s : Store.t) : State :=
  match user st with
  | None => st
  | Some uid =>
      match (if error then None else Store.user_points s !! uid) with
      | Some data => {| user := user st; userPoints := Some data; loading := false |}
      | None => {| user := user st; userPoints := userPoints st; loading := false |}
      end
  end.

(** [purchaseItem(itemType, itemName, cost)].  [purchaseError] and
    [updateError] say whether the store refuses the insert and the update. *)
Definition purchaseItem (purchaseError updateError : bool)
    (itemType itemName : string) (cost : Z) (st : State) (s : Store.t)
    : State * Store.t * list Toast :=
  match user st, userPoints st with
  | Some uid, Some userPoints =>
      if UserPoints.total_points userPoints <? cost then
        (st, s, [InsufficientPoints cost (UserPoints.total_points userPoints)])
      else if purchaseError then (st, s, [PurchaseFailed])
      else
        (* Record the purchase *)
        let s :=
          Store.insertPurchase
            {| Purchase.user_id := uid; Purchase.item_type := itemType;
               Purchase.item_name := itemName; Purchase.points_cost := cost |} s in
        (* Update user points *)
        let newTotalPoints := UserPoints.total_points userPoints - cost in
        let newPointsSpent := UserPoints.points_spent userPoints + cost in
        if updateError then (st, s, [PurchaseFailed])
        else
          let s :=
            Store.updateUserPoints uid
              (fun row =>
                 {| UserPoints.total_points := newTotalPoints;
                    UserPoints.points_spent := newPointsSpent;
                    UserPoints.current_streak := UserPoints.current_streak row;
                    UserPoints.last_activity_date := UserPoints.last_activity_date row |})
              s in
          ({| user := user st;
              userPoints :=
                Some {| UserPoints.total_points := newTotalPoints;
                        UserPoints.points_spent := newPointsSpent;
                        UserPoints.current_streak := UserPoints.current_streak userPoints;
                        UserPoints.last_activity_date :=
                          UserPoints.last_activity_date userPoints |};
              loading := loading st |},
           s, [PurchaseSuccessful itemName cost])
  | _, _ => (st, s, [])
  end.

End PointsDisplay.

Module ChatInterface.

(** A message as the component holds it. *)
Record Message := {
  id : string;
  content : JS.jsstring;
  role : Message.Role;
  tokens_used : option Z;
  response_time_ms : option Z;
  points_awarded : option Z
}.

Definition ofRow (m : Message.t) : Message :=
  {| id := Message.id m; content := Message.content m; role := Message.role m;
     tokens_used := Message.tokens_used m;
     response_time_ms := Message.response_time_ms m;
     points_awarded := Message.points_awarded m |}.

Record State := {
  messages : list Message;
  inputMessage : JS.jsstring;
  loading : bool;
  boost : bool;
  style : string
}.

(** The component's surroundings: the signed-in user and the session token,
    the conversation it shows, and the outcome of its own store calls. *)
Record Props := {
  user : option string;
  token : string;
  conversationId : string;
  loadMessagesError : bool;
  updateTitleError : bool
}.

Inductive Toast := StreakBonus (pointsAwarded : Z) | SendFailed | RegenerateFailed.

(** What a call did besides changing the component and the store. *)
Inductive Effect := OnUpdateTitle (title : JS.jsstring) | ShowToast (t : Toast).

Definition setMessages (ms : list Message) (st : State) : State :=
  {| messages := ms; inputMessage := inputMessage st; loading := loading st;
     boost := boost st; style := style st |}.

Definition setLoading (b : bool) (st : State) : State :=
  {| messages := messages st; inputMessage := inputMessage st; loading := b;
     boost := boost st; style := style st |}.

Definition setBoost (b : bool) (st : State) : State :=
  {| messages := messages st; inputMessage := inputMessage st; loading := loading st;
     boost := b; style := style st |}.

Definition setInputMessage (s : JS.jsstring) (st : State) : State :=
  {| messages := messages st; inputMessage := s; loading := loading st;
     boost := boost st; style := style st |}.

Definition loadMessages (p : Props) (s : Store.t) (st : State) : State :=
  if loadMessagesError p then st
  else setMessages (List.map ofRow (Store.selectMessages (conversationId p) s)) st.

(** The title set from the first message. *)
Definition titleOf (userMessage : JS.jsstring) : JS.jsstring :=
  if 50 <? JS.length userMessage
  then JS.substring userMessage 0 47 ++ JS.utf16 "..."
  else userMessage.

(** [onUpdateTitle(title)], which is [updateConversationTitle] of the
    layout for the active conversation. *)
Definition updateConversationTitle (p : Props) (title : JS.jsstring)
    (w : Edge.World) : Edge.World :=
  if updateTitleError p then w
  else {| Edge.store := Store.updateTitle (conversationId p) title (Edge.store w);
          Edge.trace := Edge.trace w |}.

Definition isTemp (m : Message) : bool := bool_decide (id m = "temp").

(** The body both calls send to the edge function. *)
Definition chatRequest (p : Props) (st : State) (message : JS.jsstring) : Edge.ChatRequest :=
  {| Edge.message := Some message;
     Edge.conversationId := Some (conversationId p);
     Edge.style := Some (style st);
     Edge.boost := Some (boost st) |}.

(** [sendMessage]: [messages] in the title test is the list the component
    held when the call started. *)
Definition sendMessage (env : Edge.Env) (p : Props) (st : State) (w : Edge.World)
    : State * Edge.World * list Effect :=
  let userMessage := JS.trim (inputMessage st) in
  match userMessage, loading st, user p with
  | _ :: _, false, Some _ =>
      let messages0 := messages st in
      let st := setLoading true (setInputMessage [] st) in
      (* Add user message immediately to UI *)
      let tempMessage :=
        {| id := "temp"; content := userMessage; role := Message.user;
           tokens_used := None; response_time_ms := None; points_awarded := None |} in
      let st := setMessages (messages st ++ [tempMessage]) st in
      match invoke env (token p) (chatRequest p st userMessage) w with
      | (Some data, w) =>
          (* Reload messages to get the latest from the database *)
          let st := loadMessages p (Edge.store w) st in
          (* Update conversation title if it's the first message *)
          let '(w, titled) :=
            match messages0 with
            | [] =>
                let title := titleOf userMessage in
                (updateConversationTitle p title w, [OnUpdateTitle title])
            | _ :: _ => (w, [])
            end in
          (* Reset boost after use *)
          let st := setBoost false st in
          let toasts :=
            match data with
            | Edge.BodyOk _ _ _ pointsAwarded =>
                if 1 <? pointsAwarded then [ShowToast (StreakBonus pointsAwarded)] else []
            | _ => []
            end in
          (setLoading false st, w, titled ++ toasts)
      | (None, w) =>
          (* Remove the temporary message on error *)
          let st := setMessages (List.filter (fun m => negb (isTemp m)) (messages st)) st in
          (setLoading false st, w, [ShowToast SendFailed])
      end
  | _, _, _ => (st, w, [])
  end.

(** [regenerateResponse(messageIndex)].  Reading [role] of a message that is
    not there throws before anything is done; the call then changes
    nothing. *)
Definition regenerateResponse (env : Edge.Env) (p : Props) (messageIndex : nat)
    (st : State) (w : Edge.World) : State * Edge.World * list Effect :=
  match messageIndex, loading st with
  | S i, false =>
      match List.nth_error (messages st) i with
      | Some userMessage =>
          match role userMessage with
          | Message.user =>
              let st := setLoading true st in
              match invoke env (token p) (chatRequest p st (content userMessage)) w with
              | (Some _, w) =>
                  let st := loadMessages p (Edge.store w) st in
                  let st := setBoost false st in
                  (setLoading false st, w, [])
              | (None, w) => (setLoading false st, w, [ShowToast RegenerateFailed])
              end
          | Message.assistant => (st, w, [])
          end
      | None => (st, w, [])
      end
  | _, _ => (st, w, [])
  end.

End ChatInterface.

(** ** The layout: the list of conversations and the active one *)

Module ChatLayout.

(** A conversation as the component holds it. *)
Record Conversation := {
  id : string;
  title : JS.jsstring;
  created_at : string;
  updated_at : string
}.

Record State := {
  conversations : list Conversation;
  activeConversationId : option string;
  loading : bool;
  sidebarOpen : bool
}.

(** The columns the store fills in when a conversation is inserted. *)
Record Inserted := {
  newId : string;
  newCreatedAt : string;
  newUpdatedAt : string
}.

Definition setConversations (cs : list Conversation) (st : State) : State :=
  {| conversations := cs; activeConversationId := activeConversationId st;
     loading := loading st; sidebarOpen := sidebarOpen st |}.

Definition setActiveConversationId (a : option string) (st : State) : State :=
  {| conversations := conversations st; activeConversationId := a;
     loading := loading st; sidebarOpen := sidebarOpen st |}.

Definition setLoading (b : bool) (st : State) : State :=
  {| conversations := conversations st; activeConversationId := activeConversationId st;
     loading := b; sidebarOpen := sidebarOpen st |}.

Definition setSidebarOpen (b : bool) (st : State) : State :=
  {| conversations := conversations st; activeConversationId := activeConversationId st;
     loading := loading st; sidebarOpen := b |}.

(** [insert({ user_id, title })] into [conversations] *)
Definition insertConversation (uid : string) (c : Conversation) (s : Store.t) : Store.t :=
  {| Store.messages := Store.messages s; Store.user_points := Store.user_points s;
     Store.purchases := Store.purchases s;
     Store.conversations :=
       <[id c := {| Conversation.user_id := uid; Conversation.title := title c |}]>
         (Store.conversations s) |}.

(** [delete().eq('id', cid)] on [conversations] *)
Definition deleteConversationRow (cid : string) (s : Store.t) : Store.t :=
  {| Store.messages := Store.messages s; Store.user_points := Store.user_points s;
     Store.purchases := Store.purchases s;
     Store.conversations := delete cid (Store.conversations s) |}.

(** [createNewConversation(title = 'New Conversation')].  [inserted] is what
    the store answers to the insert: the new row's columns, or [None] for an
    error, which is logged.  The result is the new conversation, if any. *)
Definition createNewConversation (user : option string) (title : option JS.jsstring)
    (inserted : option Inserted) (st : State) (s : Store.t)
    : State * Store.t * option Conversation :=
  match user with
  | None => (st, s, None)
  | Some uid =>
      let title := default (JS.utf16 "New Conversation") title in
      match inserted with
      | None => (st, s, None)
      | Some i =>
          let data :=
            {| id := newId i; title := title; created_at := newCreatedAt i;
               updated_at := newUpdatedAt i |} in
          let st := setConversations (data :: conversations st) st in
          let st := setActiveConversationId (Some (id data)) st in
          (st, insertConversation uid data s, Some data)
      end
  end.

(** [loadConversations].  [selected] is what the store answers to the read
    of the user's conversations, latest update first, or [None] for an
    error. *)
Definition loadConversations (user : option string)
    (selected : option (list Conversation)) (inserted : option Inserted)
    (st : State) (s : Store.t) : State * Store.t :=
  match user with
  | None => (st, s)
  | Some _ =>
      match selected with
      | None => (setLoading false st, s)
      | Some data =>
          let st := setConversations data st in
          match data with
          | c :: _ => (setLoading false (setActiveConversationId (Some (id c)) st), s)
          | [] =>
              let '(st, s, _) := createNewConversation user None inserted st s in
              (setLoading false st, s)
          end
      end
  end.

Definition retitle (cid : string) (title : JS.jsstring) (conv : Conversation)
    : Conversation :=
  if bool_decide (id conv = cid) then
    {| id := id conv; title := title; created_at := created_at conv;
       updated_at := updated_at conv |}
  else conv.

(** [updateConversationTitle(id, title)] *)
Definition updateConversationTitle (cid : string) (title : JS.jsstring) (error : bool)
    (st : State) (s : Store.t) : State * Store.t :=
  if error then (st, s)
  else (setConversations (List.map (retitle cid title) (conversations st)) st,
        Store.updateTitle cid title s).

Definition isNot (cid : string) (conv : Conversation) : bool :=
  negb (bool_decide (id conv = cid)).

(** [deleteConversation(id)].  [conversations] and [activeConversationId]
    in the body are the values the component held when the call started. *)
Definition deleteConversation (user : option string) (cid : string) (error : bool)
    (inserted : option Inserted) (st : State) (s : Store.t) : State * Store.t :=
  if error then (st, s)
  else
    let s := deleteConversationRow cid s in
    let st1 := setConversations (List.filter (isNot cid) (conversations st)) st in
    if bool_decide (activeConversationId st = Some cid) then
      (* If we deleted the active conversation, switch to another one or create new *)
      let remaining := List.filter (isNot cid) (conversations st) in
      match remaining with
      | c :: _ => (setActiveConversationId (Some (id c)) st1, s)
      | [] =>
          let '(st2, s, _) := createNewConversation user None inserted st1 s in
          (st2, s)
      end
    else (st1, s).

(** [onSelectConversation]: the conversation becomes the active one and the
    drawer closes. *)
Definition selectConversation (cid : string) (st : State) : State :=
  setSidebarOpen false (setActiveConversationId (Some cid) st).

End ChatLayout.

(** ** The whole system: the store, the edge function and the shop sessions *)

Module System.

Record t := {
  world : Edge.World;
  displays : gmap nat PointsDisplay.State
}.

(** What can happen: a request reaches the edge function; a [PointsDisplay]
    is mounted for a signed-in user and loads the ledger row; a mounted
    [PointsDisplay] runs [purchaseItem]. *)
Inductive Action :=
| Request (env : Edge.Env) (req : Edge.Request)
| Mount (session : nat) (user : string) (error : bool)
| Purchase (session : nat) (purchaseError updateError : bool)
    (itemType itemName : string) (cost : Z).

Definition step (a : Action) (sys : t) : t :=
  match a with
  | Request env req =>
      {| world := snd (Edge.serve env req (world sys)); displays := displays sys |}
  | Mount session user error =>
      let st :=
        {| PointsDisplay.user := Some user; PointsDisplay.userPoints := None;
           PointsDisplay.loading := true |} in
      {| world := world sys;
         displays :=
           <[session := PointsDisplay.loadUserPoints error st (Edge.store (world sys))]>
             (displays sys) |}
  | Purchase session purchaseError updateError itemType itemName cost =>
      match displays sys !! session with
      | Some st =>
          let '(st', s', _) :=
            PointsDisplay.purchaseItem purchaseError updateError itemType itemName cost
              st (Edge.store (world sys)) in
          {| world := {| Edge.store := s'; Edge.trace := Edge.trace (world sys) |};
             displays := <[session := st']> (displays sys) |}
      | None => sys
      end
  end.

Definition run (actions : list Action) (sys : t) : t :=
  fold_left (fun sys a => step a sys) actions sys.

End System.

(** ** Observations used in the statements *)

(** Every ledger row has a balance of at least zero. *)
Definition ledgerNonNegative (s : Store.t) : Prop :=
  map_Forall (fun _ row => 0 <= UserPoints.total_points row) (Store.user_points s).

Definition isLedgerUpdate (e : Edge.Event) : bool :=
  match e with Edge.UpdateUserPoints _ _ => true | _ => false end.

Definition isAssistantInsert (e : Edge.Event) : bool :=
  match e with
  | Edge.InsertMessage m =>
      match Message.role m with Message.assistant => true | _ => false end
  | _ => false
  end.

Definition isProviderCall (e : Edge.Event) : bool :=
  match e with Edge.FetchGemini _ _ => true | _ => false end.

Definition isUserTurn (m : Message.t) : bool :=
  match Message.role m with Message.user => true | _ => false end.

(** The user a request is authenticated as, if any. *)
Definition userOf (env : Edge.Env) (req : Edge.Request) : option string :=
  match Edge.authorization req with
  | Some h => Edge.getUser env (JS.removeFirst "Bearer " h)
  | None => None
  end.

(** The message, conversation, style and boost flag of a request whose body
    passes the handler's test. *)
Definition chatOf (req : Edge.Request) : option (JS.jsstring * string * string * bool) :=
  match Edge.body req with
  | Some chat =>
      match Edge.message chat, Edge.conversationId chat with
      | Some (c :: message), Some (String a cid) =>
          Some (c :: message, String a cid, default "default" (Edge.style chat),
                default false (Edge.boost chat))
      | _, _ => None
      end
  | None => None
  end.

(** The world once an accepted request has saved its user turn: the
    events so far, and the row when the store took it. *)
Definition afterUserTurn (env : Edge.Env) (req : Edge.Request)
    (user conversationId : string) (message : JS.jsstring) (w : Edge.World) : Edge.World :=
  let turn := Edge.userTurn env user conversationId message in
  {| Edge.store :=
       if Edge.saveUserMessageError env then Edge.store w
       else Store.insertMessage turn (Edge.store w);
     Edge.trace :=
       Edge.trace w
       ++ [Edge.AuthGetUser
             (JS.removeFirst "Bearer " (default "" (Edge.authorization req)));
           Edge.SelectMessages conversationId;
           Edge.InsertMessage turn]
       ++ (if Edge.saveUserMessageError env
           then [Edge.ConsoleError "Error saving user message:"] else []) |}.

(** The turns sent to the provider by an accepted request. *)
Definition conversationHistory (conversationId : string) (message : JS.jsstring)
    (w : Edge.World) : list (Message.Role * JS.jsstring) :=
  List.map (fun m => (Message.role m, Message.content m))
    (Store.selectMessages conversationId (Edge.store w))
  ++ [(Message.user, message)].

(** The call to the provider made by an accepted request. *)
Definition providerCall (conversationId : string) (message : JS.jsstring)
    (style : string) (boost : bool) (w : Edge.World) : Edge.Event :=
  Edge.FetchGemini
    (Edge.geminiMessages style boost (conversationHistory conversationId message w))
    (if boost then 4096 else 2048).

(** The world once the assistant turn [m] has been saved. *)
Definition afterAssistantTurn (env : Edge.Env) (m : Message.t) (w : Edge.World)
    : Edge.World :=
  {| Edge.store :=
       if Edge.saveAssistantMessageError env then Edge.store w
       else Store.insertMessage m (Edge.store w);
     Edge.trace :=
       Edge.trace w
       ++ Edge.InsertMessage m
          :: (if Edge.saveAssistantMessageError env
              then [Edge.ConsoleError "Error saving assistant message:"] else []) |}.

(** [w] with more events in its trace. *)
Definition logged (evs : list Edge.Event) (w : Edge.World) : Edge.World :=
  {| Edge.store := Edge.store w; Edge.trace := Edge.trace w ++ evs |}.

(** A write to the store: an insert into [messages] or a ledger update. *)
Definition isWrite (e : Edge.Event) : bool :=
  match e with
  | Edge.InsertMessage _ | Edge.UpdateUserPoints _ _ => true
  | _ => false
  end.

(** Events of a run that neither wrote nor called the provider. *)
Definition idle (evs : list Edge.Event) : Prop :=
  forallb (fun e => negb (isWrite e) && negb (isProviderCall e)) evs = true.

(** The reply of a run that went through. *)
Definition reply (env : Edge.Env) (d : Edge.GeminiData) (aiResponse : JS.jsstring)
    (pointsAwarded : Z) : Edge.Response :=
  {| Edge.status := 200;
     Edge.payload :=
       Edge.BodyOk aiResponse (default 0 (Edge.totalTokenCount d))
         (Edge.clockResponse env - Edge.clockStart env) pointsAwarded |}.

(** The user turns of the store. *)
Definition userTurns (s : Store.t) : list Message.t :=
  List.filter isUserTurn (Store.messages s).

(** A regeneration leaves the user turns of the store as they are. *)
Definition regenerationAddsNoUserTurn (env : Edge.Env) (p : ChatInterface.Props)
    (messageIndex : nat) (st : ChatInterface.State) (w : Edge.World) : Prop :=
  userTurns (Edge.store (snd (fst (ChatInterface.regenerateResponse env p messageIndex st w))))
  = userTurns (Edge.store w).

(** The two errors the handler throws about the provider's answer. *)
Definition ProviderError (error : string) : Prop :=
  error = "Failed to get response from Gemini"
  \/ error = "No response generated from Gemini".

(** The provider answered with a non-success status, or with no candidate. *)
Definition providerFailed (f : Edge.Fetch) : Prop :=
  match f with
  | Edge.FetchResponse false _ => True
  | Edge.FetchResponse true (Some d) =>
      Edge.candidates d = None \/ Edge.candidates d = Some []
  | _ => False
  end.

(** ** Observations used in the further properties *)

(** [env] with other answers of the store to the handler's three writes. *)
Definition withWrites (env : Edge.Env)
    (saveUserMessageError updateUserPointsError saveAssistantMessageError : bool)
    : Edge.Env :=
  {| Edge.getUser := Edge.getUser env;
     Edge.messagesError := Edge.messagesError env;
     Edge.saveUserMessageError := saveUserMessageError;
     Edge.userMessageId := Edge.userMessageId env;
     Edge.gemini := Edge.gemini env;
     Edge.userPointsError := Edge.userPointsError env;
     Edge.updateUserPointsError := updateUserPointsError;
     Edge.saveAssistantMessageError := saveAssistantMessageError;
     Edge.assistantMessageId := Edge.assistantMessageId env;
     Edge.clockStart := Edge.clockStart env;
     Edge.clockResponse := Edge.clockResponse env;
     Edge.clockToday := Edge.clockToday env;
     Edge.clockYesterday := Edge.clockYesterday env |}.

(** The active conversation, when there is one, is in the list. *)
Definition activeListed (st : ChatLayout.State) : Prop :=
  match ChatLayout.activeConversationId st with
  | Some a => In a (List.map ChatLayout.id (ChatLayout.conversations st))
  | None => True
  end.

(** The points an accepted request reports, from the ledger row it finds. *)
Definition pointsFor (env : Edge.Env) (row : option UserPoints.t) (boost : bool) : Z :=
  match (if Edge.userPointsError env then None else row) with
  | None => 1
  | Some r => fst (Edge.computeReward r (Edge.today env) (Edge.yesterdayStr env) boost)
  end.

(** What the [try] block of an accepted request returns, from the answer of
    the provider and the ledger row. *)
Definition resultOf (env : Edge.Env) (row : option UserPoints.t) (boost : bool)
    : Edge.Result Edge.Reply :=
  match Edge.gemini env with
  | Edge.FetchError m => Edge.Throw m
  | Edge.FetchResponse false _ => Edge.Throw "Failed to get response from Gemini"
  | Edge.FetchResponse true None => Edge.Throw "Unexpected token in JSON"
  | Edge.FetchResponse true (Some d) =>
      match Edge.candidates d with
      | None | Some [] => Edge.Throw "No response generated from Gemini"
      | Some (Edge.NoContent :: _) =>
          Edge.Throw "Cannot read properties of undefined (reading 'parts')"
      | Some (Edge.Text aiResponse :: _) =>
          Edge.Return
            {| Edge.response := aiResponse;
               Edge.tokensUsed := default 0 (Edge.totalTokenCount d);
               Edge.responseTime := Edge.clockResponse env - Edge.clockStart env;
               Edge.replyPointsAwarded := pointsFor env row boost |}
      end
  end.

(** The ledger row of the user after a request that got a response. *)
Definition rowAfter (env : Edge.Env) (r : UserPoints.t) (boost : bool) : UserPoints.t :=
  if Edge.userPointsError env || Edge.updateUserPointsError env then r
  else snd (Edge.computeReward r (Edge.today env) (Edge.yesterdayStr env) boost).

(** The request [invoke] sends. *)
Definition post (token : string) (chat : Edge.ChatRequest) : Edge.Request :=
  {| Edge.method := "POST";
     Edge.authorization := Some ("Bearer " +:+ token);
     Edge.body := Some chat |}.

(** The ledger row the shop has cached is the one in the store. *)
Definition cacheInStep (st : PointsDisplay.State) (s : Store.t) : Prop :=
  match PointsDisplay.user st, PointsDisplay.userPoints st with
  | Some uid, Some cached => Store.user_points s !! uid = Some cached
  | _, _ => True
  end.

(** The row a purchase writes from the cached one. *)
Definition charged (cached : UserPoints.t) (cost : Z) : UserPoints.t :=
  {| UserPoints.total_points := UserPoints.total_points cached - cost;
     UserPoints.points_spent := UserPoints.points_spent cached + cost;
     UserPoints.current_streak := UserPoints.current_streak cached;
     UserPoints.last_activity_date := UserPoints.last_activity_date cached |}.

(** Every ledger row with a date of last activity has a streak of at least
    one day. *)
Definition streakStarted (s : Store.t) : Prop :=
  map_Forall
    (fun _ row =>
       UserPoints.last_activity_date row <> None -> 1 <= UserPoints.current_streak row)
    (Store.user_points s).

(** ** Concrete inputs *)

Module Sample.

Definition answer (text : string) : Edge.Fetch :=
  Edge.FetchResponse true
    (Some {| Edge.candidates := Some [Edge.Text (JS.utf16 text)];
             Edge.totalTokenCount := Some 12 |}).

Definition noCandidates : Edge.Fetch :=
  Edge.FetchResponse true
    (Some {| Edge.candidates := Some []; Edge.totalTokenCount := None |}).

(** The token [tok] belongs to user [u1]; every store operation succeeds;
    [today] is read at [clockToday] and [yesterday] at [clockYesterday]. *)
Definition env (gemini : Edge.Fetch) (clockToday clockYesterday : Z) : Edge.Env :=
  {| Edge.getUser := fun token => if bool_decide (token = "tok") then Some "u1" else None;
     Edge.messagesError := false;
     Edge.saveUserMessageError := false;
     Edge.userMessageId := "m3";
     Edge.gemini := gemini;
     Edge.userPointsError := false;
     Edge.updateUserPointsError := false;
     Edge.saveAssistantMessageError := false;
     Edge.assistantMessageId := "m4";
     Edge.clockStart := clockToday - 900;
     Edge.clockResponse := clockToday - 50;
     Edge.clockToday := clockToday;
     Edge.clockYesterday := clockYesterday |}.

(** 2024-03-11T10:00:00.000Z and 20 ms later. *)
Definition morning : Edge.Env := env (answer "hello") 1710151200000 1710151200020.

(** The same morning, with a provider that answers with no candidate. *)
Definition silent : Edge.Env := env noCandidates 1710151200000 1710151200020.

(** 2024-03-10T23:59:59.950Z for [today], and 2024-03-11T00:00:00.020Z,
    70 ms later, for [yesterday]. *)
Definition midnight : Edge.Env := env (answer "hello") 1710115199950 1710115200020.

Definition row (total_points current_streak : Z) (last_activity_date : option string)
    : UserPoints.t :=
  {| UserPoints.total_points := total_points; UserPoints.points_spent := 0;
     UserPoints.current_streak := current_streak;
     UserPoints.last_activity_date := last_activity_date |}.

Definition turn (id : string) (role : Message.Role) (content : string) : Message.t :=
  {| Message.id := id; Message.conversation_id := "c1"; Message.user_id := "u1";
     Message.content := JS.utf16 content; Message.role := role;
     Message.tokens_used := None; Message.response_time_ms := None;
     Message.points_awarded := None |}.

(** A store with the given stored turns of conversation [c1] and the given
    ledger rows. *)
Definition world (messages : list Message.t) (user_points : gmap string UserPoints.t)
    : Edge.World :=
  {| Edge.store :=
       {| Store.messages := messages; Store.user_points := user_points;
          Store.purchases := [];
          Store.conversations :=
            {[ "c1" := {| Conversation.user_id := "u1";
                          Conversation.title := JS.utf16 "New Conversation" |} ]} |};
     Edge.trace := [] |}.

(** A ledger with the row of [u1]: 7 points, streak 4, last active on
    2024-03-10. *)
Definition streakWorld : Edge.World :=
  world [] {[ "u1" := row 7 4 (Some "2024-03-10") ]}.

(** No ledger row at all. *)
Definition freshWorld : Edge.World := world [] ∅.

(** The same ledger, last active on 2024-03-08. *)
Definition idleWorld : Edge.World :=
  world [] {[ "u1" := row 7 4 (Some "2024-03-08") ]}.

(** The same ledger with a balance of 3 points. *)
Definition poorWorld : Edge.World :=
  world [] {[ "u1" := row 3 4 (Some "2024-03-10") ]}.

Definition request (message : string) (boost : bool) : Edge.Request :=
  {| Edge.method := "POST";
     Edge.authorization := Some "Bearer tok";
     Edge.body :=
       Some {| Edge.message := Some (JS.utf16 message);
               Edge.conversationId := Some "c1";
               Edge.style := Some "technical";
               Edge.boost := Some boost |} |}.

(** Conversation [c1] with one exchange stored. *)
Definition exchange : list Message.t :=
  [turn "m1" Message.user "Hi"; turn "m2" Message.assistant "hello"].

Definition talkedWorld : Edge.World :=
  world exchange {[ "u1" := row 7 4 (Some "2024-03-10") ]}.

Definition props : ChatInterface.Props :=
  {| ChatInterface.user := Some "u1"; ChatInterface.token := "tok";
     ChatInterface.conversationId := "c1";
     ChatInterface.loadMessagesError := false;
     ChatInterface.updateTitleError := false |}.

Definition chat (messages : list Message.t) (inputMessage : string) : ChatInterface.State :=
  {| ChatInterface.messages := List.map ChatInterface.ofRow messages;
     ChatInterface.inputMessage := JS.utf16 inputMessage;
     ChatInterface.loading := false;
     ChatInterface.boost := false;
     ChatInterface.style := "default" |}.

End Sample.

(** Later requests, and a request that is turned away. *)
Module Scenario.

(** 2024-03-11T15:00:00.000Z, the afternoon of [Sample.morning]. *)
Definition afternoon : Edge.Env :=
  Sample.env (Sample.answer "again") 1710169200000 1710169200020.

(** 2024-03-12T10:00:00.000Z, the day after [Sample.morning]. *)
Definition nextMorning : Edge.Env :=
  Sample.env (Sample.answer "again") 1710237600000 1710237600020.

(** 2024-03-18T10:00:00.000Z, a week after [Sample.morning]. *)
Definition nextWeek : Edge.Env :=
  Sample.env (Sample.answer "again") 1710756000000 1710756000020.

(** The ledger of [Sample.streakWorld], last active on 2024-03-09. *)
Definition dayBeforeWorld : Edge.World :=
  Sample.world [] {[ "u1" := Sample.row 7 4 (Some "2024-03-09") ]}.

(** A request whose token belongs to no user. *)
Definition stranger : Edge.Request :=
  {| Edge.method := "POST";
     Edge.authorization := Some "Bearer nobody";
     Edge.body :=
       Some {| Edge.message := Some (JS.utf16 "Hi");
               Edge.conversationId := Some "c1";
               Edge.style := None;
               Edge.boost := None |} |}.

End Scenario.

(** The shop. *)
Module Shop.

(** A shop session of [u1] that has loaded the row of [Sample.streakWorld]. *)
Definition loaded : PointsDisplay.State :=
  PointsDisplay.loadUserPoints false
    {| PointsDisplay.user := Some "u1"; PointsDisplay.userPoints := None;
       PointsDisplay.loading := true |}
    (Edge.store Sample.streakWorld).

Definition start : System.t :=
  {| System.world := Sample.streakWorld; System.displays := ∅ |}.

End Shop.

(** The layout. *)
Module Layout.

Definition conv (id title : string) : ChatLayout.Conversation :=
  {| ChatLayout.id := id; ChatLayout.title := JS.utf16 title;
     ChatLayout.created_at := "2024-03-10T09:00:00.000Z";
     ChatLayout.updated_at := "2024-03-10T09:00:00.000Z" |}.

(** The layout showing conversation [c1], the only one. *)
Definition single : ChatLayout.State :=
  {| ChatLayout.conversations := [conv "c1" "New Conversation"];
     ChatLayout.activeConversationId := Some "c1";
     ChatLayout.loading := false;
     ChatLayout.sidebarOpen := false |}.

(** The layout showing [c1], with an older conversation [c0] below it. *)
Definition pair : ChatLayout.State :=
  {| ChatLayout.conversations := [conv "c1" "New Conversation"; conv "c0" "Old"];
     ChatLayout.activeConversationId := Some "c1";
     ChatLayout.loading := false;
     ChatLayout.sidebarOpen := false |}.

Definition inserted : ChatLayout.Inserted :=
  {| ChatLayout.newId := "c2";
     ChatLayout.newCreatedAt := "2024-03-11T10:00:00.000Z";
     ChatLayout.newUpdatedAt := "2024-03-11T10:00:00.000Z" |}.

End Layout.

(** * Properties *)

(** ** JavaScript values *)

Example toISOString_epoch : JS.toISOString 0 = "1970-01-01T00:00:00.000Z".
Proof. reflexivity. Qed.

Example toISOString_2024 :
  JS.toISOString 1709251199999 = "2024-02-29T23:59:59.999Z".
Proof. vm_compute. reflexivity. Qed.

Example setDate_first_of_month :
  JS.toISOString (JS.setDate 1709287200000 (JS.getDate 1709287200000 - 1))
  = "2024-02-29T10:00:00.000Z".
Proof. vm_compute. reflexivity. Qed.

Example substring_first_four :
  JS.substring (JS.utf16 "abcdef") 0 4 = JS.utf16 "abcd".
Proof. reflexivity. Qed.

Example trim_spaces : JS.trim (JS.utf16 "  hi there ") = JS.utf16 "hi there".
Proof. reflexivity. Qed.

Example removeFirst_bearer : JS.removeFirst "Bearer " "Bearer abc" = "abc".
Proof. reflexivity. Qed.

(** ** The calendar *)

Lemma yoe_bounds doe :
  0 <= doe < 146097 ->
  let yoe := (doe - doe / 1460 + doe / 36524 - doe / 146096) / 365 in
  0 <= yoe <= 399 /\ 0 <= doe - (365 * yoe + yoe / 4 - yoe / 100) <= 365.
Proof. intros H yoe. subst yoe. Z.div_mod_to_equations. lia. Qed.

Lemma mp_bounds doy :
  0 <= doy <= 365 ->
  let mp := (5 * doy + 2) / 153 in
  0 <= mp <= 11 /\ 1 <= doy - (153 * mp + 2) / 5 + 1 <= 31.
Proof. intros H mp. subst mp. Z.div_mod_to_equations. lia. Qed.

(** The month and the day of the month are in range. *)
Lemma civilFromDays_range z :
  1 <= snd (fst (JS.civilFromDays z)) <= 12 /\ 1 <= snd (JS.civilFromDays z) <= 31.
Proof.
  unfold JS.civilFromDays. cbv zeta. cbn [fst snd].
  set (z' := z + 719468). set (era := z' / 146097).
  set (doe := z' - era * 146097).
  assert (Hdoe : 0 <= doe < 146097) by (subst doe era; Z.div_mod_to_equations; lia).
  destruct (yoe_bounds doe Hdoe) as [Hy Hdoy]. cbv zeta in Hy, Hdoy.
  set (yoe := (doe - doe / 1460 + doe / 36524 - doe / 146096) / 365) in *.
  set (doy := doe - (365 * yoe + yoe / 4 - yoe / 100)) in *.
  destruct (mp_bounds doy Hdoy) as [Hmp Hd]. cbv zeta in Hmp, Hd.
  set (mp := (5 * doy + 2) / 153) in *.
  split; [|exact Hd].
  destruct (mp <? 10) eqn:E; [apply Z.ltb_lt in E | apply Z.ltb_ge in E]; lia.
Qed.

(** [daysFromCivil] undoes [civilFromDays]. *)
Lemma daysFromCivil_civilFromDays z :
  let '(y, m, d) := JS.civilFromDays z in JS.daysFromCivil y m d = z.
Proof.
  unfold JS.civilFromDays. cbv zeta.
  set (z' := z + 719468). set (era := z' / 146097).
  set (doe := z' - era * 146097).
  assert (Hdoe : 0 <= doe < 146097) by (subst doe era; Z.div_mod_to_equations; lia).
  destruct (yoe_bounds doe Hdoe) as [Hy Hdoy]. cbv zeta in Hy, Hdoy.
  set (yoe := (doe - doe / 1460 + doe / 36524 - doe / 146096) / 365) in *.
  set (doy := doe - (365 * yoe + yoe / 4 - yoe / 100)) in *.
  destruct (mp_bounds doy Hdoy) as [Hmp Hd]. cbv zeta in Hmp, Hd.
  set (mp := (5 * doy + 2) / 153) in *.
  set (d := doy - (153 * mp + 2) / 5 + 1) in *.
  unfold JS.daysFromCivil.
  destruct (mp <? 10) eqn:E; [apply Z.ltb_lt in E | apply Z.ltb_ge in E].
  - replace (mp + 3 <=? 2) with false by (symmetry; apply Z.leb_gt; lia).
    replace (2 <? mp + 3) with true by (symmetry; apply Z.ltb_lt; lia).
    cbv beta iota zeta.
    replace ((yoe + era * 400) / 400) with era by (Z.div_mod_to_equations; lia).
    replace (mp + 3 - 3) with mp by lia.
    replace (yoe + era * 400 - era * 400) with yoe by lia.
    subst d doy doe z'. lia.
  - replace (mp - 9 <=? 2) with true by (symmetry; apply Z.leb_le; lia).
    replace (2 <? mp - 9) with false by (symmetry; apply Z.ltb_ge; lia).
    cbv beta iota zeta.
    replace (yoe + era * 400 + 1 - 1) with (yoe + era * 400) by lia.
    replace ((yoe + era * 400) / 400) with era by (Z.div_mod_to_equations; lia).
    replace (mp - 9 + 9) with mp by lia.
    replace (yoe + era * 400 - era * 400) with yoe by lia.
    subst d doy doe z'. lia.
Qed.

(** Different days have different dates. *)
Lemma civilFromDays_inj z1 z2 : JS.civilFromDays z1 = JS.civilFromDays z2 -> z1 = z2.
Proof.
  intros H.
  pose proof (daysFromCivil_civilFromDays z1) as H1.
  pose proof (daysFromCivil_civilFromDays z2) as H2.
  rewrite H in H1. destruct (JS.civilFromDays z2) as [[y m] d]. congruence.
Qed.

(** [setDate(getDate() - 1)] is the same time on the day before. *)
Lemma setDate_yesterday t :
  JS.setDate t (JS.getDate t - 1) = t - JS.msPerDay.
Proof.
  unfold JS.setDate, JS.getDate.
  pose proof (daysFromCivil_civilFromDays (JS.Day t)) as H.
  destruct (JS.civilFromDays (JS.Day t)) as [[y m] d]. cbn [snd].
  assert (Hlin : JS.daysFromCivil y m 1 + (d - 1) - 1 = JS.daysFromCivil y m d - 1).
  { unfold JS.daysFromCivil. cbv zeta. lia. }
  rewrite Hlin, H. unfold JS.Day, JS.TimeWithinDay, JS.msPerDay.
  Z.div_mod_to_equations. lia.
Qed.

Lemma Day_yesterday t : JS.Day (t - JS.msPerDay) = JS.Day t - 1.
Proof. unfold JS.Day, JS.msPerDay. Z.div_mod_to_equations. lia. Qed.

(** ** Dates as strings *)

Lemma digit_code k :
  N_of_ascii (ascii_of_N (48 + Z.to_N (k mod 10))) = (48 + Z.to_N (k mod 10))%N.
Proof.
  apply N_ascii_embedding.
  assert (0 <= k mod 10 < 10) by (apply Z.mod_pos_bound; lia). lia.
Qed.

Lemma digit_inj a b :
  ascii_of_N (48 + Z.to_N (a mod 10)) = ascii_of_N (48 + Z.to_N (b mod 10)) ->
  a mod 10 = b mod 10.
Proof.
  intros H. apply (f_equal N_of_ascii) in H. rewrite !digit_code in H.
  assert (0 <= a mod 10 < 10) by (apply Z.mod_pos_bound; lia).
  assert (0 <= b mod 10 < 10) by (apply Z.mod_pos_bound; lia). lia.
Qed.

Lemma digit_not c k :
  (N_of_ascii c < 48 \/ 57 < N_of_ascii c)%N ->
  ascii_of_N (48 + Z.to_N (k mod 10)) <> c.
Proof.
  intros Hc H. apply (f_equal N_of_ascii) in H. rewrite digit_code in H.
  assert (0 <= k mod 10 < 10) by (apply Z.mod_pos_bound; lia). lia.
Qed.

Lemma digit_eqb_T k : Ascii.eqb (ascii_of_N (48 + Z.to_N (k mod 10))) "T" = false.
Proof. apply Ascii.eqb_neq, digit_not. right. reflexivity. Qed.

(** The part of [toISOString] before the first T is the date. *)
Lemma splitHead_toISOString t :
  JS.splitHead "T" (JS.toISOString t) = JS.isoDate (JS.Day t).
Proof.
  unfold JS.toISOString, JS.isoDate.
  destruct (JS.civilFromDays (JS.Day t)) as [[y m] d].
  generalize (JS.isoTime (JS.TimeWithinDay t) +:+ "Z"). intros rest.
  unfold JS.isoYear.
  destruct ((0 <=? y) && (y <=? 9999)); [|destruct (y <? 0)];
    cbv beta iota zeta delta [JS.digits String.append JS.splitHead];
    rewrite ?digit_eqb_T; reflexivity.
Qed.

(** Within the years that [isoYear] writes in full, the date tells the day. *)
Lemma isoYear_digits_inj y1 m1 d1 y2 m2 d2 :
  -999999 <= y1 <= 999999 -> -999999 <= y2 <= 999999 ->
  1 <= m1 <= 12 -> 1 <= m2 <= 12 -> 1 <= d1 <= 31 -> 1 <= d2 <= 31 ->
  JS.isoYear y1 +:+ "-" +:+ JS.digits 2 m1 +:+ "-" +:+ JS.digits 2 d1
  = JS.isoYear y2 +:+ "-" +:+ JS.digits 2 m2 +:+ "-" +:+ JS.digits 2 d2 ->
  (y1, m1, d1) = (y2, m2, d2).
Proof.
  intros Hy1 Hy2 Hm1 Hm2 Hd1 Hd2. unfold JS.isoYear.
  destruct ((0 <=? y1) && (y1 <=? 9999)) eqn:A1;
    [apply andb_true_iff in A1 as [A1 A1']; apply Z.leb_le in A1, A1'
    |apply andb_false_iff in A1;
     destruct (y1 <? 0) eqn:B1; [apply Z.ltb_lt in B1 | apply Z.ltb_ge in B1]];
  (destruct ((0 <=? y2) && (y2 <=? 9999)) eqn:A2;
    [apply andb_true_iff in A2 as [A2 A2']; apply Z.leb_le in A2, A2'
    |apply andb_false_iff in A2;
     destruct (y2 <? 0) eqn:B2; [apply Z.ltb_lt in B2 | apply Z.ltb_ge in B2]]);
  cbv beta iota zeta delta [JS.digits String.append]; intros H;
  injection H; clear H; intros;
  repeat match goal with
         | H : ascii_of_N _ = ascii_of_N _ |- _ => apply digit_inj in H
         | H : ascii_of_N _ = "-"%char |- _ =>
             exfalso; revert H; apply digit_not; left; reflexivity
         | H : "-"%char = ascii_of_N _ |- _ =>
             exfalso; symmetry in H; revert H; apply digit_not; left; reflexivity
         | H : ascii_of_N _ = "+"%char |- _ =>
             exfalso; revert H; apply digit_not; left; reflexivity
         | H : "+"%char = ascii_of_N _ |- _ =>
             exfalso; symmetry in H; revert H; apply digit_not; left; reflexivity
         end;
  try discriminate.
  all: assert (y1 = y2 /\ m1 = m2 /\ d1 = d2) as (-> & -> & ->);
    [|reflexivity].
  all: try (destruct A1 as [A1|A1]; [apply Z.leb_gt in A1|apply Z.leb_gt in A1]; try lia).
  all: try (destruct A2 as [A2|A2]; [apply Z.leb_gt in A2|apply Z.leb_gt in A2]; try lia).
  all: Z.div_mod_to_equations; lia.
Qed.

(** Every day a [Date] can hold falls in a year of at most six digits. *)
Lemma civilFromDays_year z :
  -100000001 <= z <= 100000000 ->
  -999999 <= fst (fst (JS.civilFromDays z)) <= 999999.
Proof.
  intros Hz. unfold JS.civilFromDays. cbv zeta. cbn [fst].
  set (z' := z + 719468). set (era := z' / 146097).
  set (doe := z' - era * 146097).
  assert (Hdoe : 0 <= doe < 146097) by (subst doe era; Z.div_mod_to_equations; lia).
  destruct (yoe_bounds doe Hdoe) as [Hy _]. cbv zeta in Hy.
  set (yoe := (doe - doe / 1460 + doe / 36524 - doe / 146096) / 365) in *.
  assert (He : -700 <= era <= 700) by (subst era z'; Z.div_mod_to_equations; lia).
  destruct (_ <=? 2); lia.
Qed.

Lemma isoDate_inj z1 z2 :
  -100000001 <= z1 <= 100000000 -> -100000001 <= z2 <= 100000000 ->
  JS.isoDate z1 = JS.isoDate z2 -> z1 = z2.
Proof.
  intros H1 H2 H. apply civilFromDays_inj.
  pose proof (civilFromDays_year z1 H1) as Hy1.
  pose proof (civilFromDays_year z2 H2) as Hy2.
  pose proof (civilFromDays_range z1) as [Hm1 Hd1].
  pose proof (civilFromDays_range z2) as [Hm2 Hd2].
  unfold JS.isoDate in H.
  destruct (JS.civilFromDays z1) as [[y1 m1] d1], (JS.civilFromDays z2) as [[y2 m2] d2].
  cbn [fst snd] in *.
  exact (isoYear_digits_inj y1 m1 d1 y2 m2 d2 Hy1 Hy2 Hm1 Hm2 Hd1 Hd2 H).
Qed.

(** When [today] and [yesterday] are taken on the same UTC day, the two
    strings differ. *)
Lemma yesterdayStr_not_today (env : Edge.Env) :
  JS.validTime (Edge.clockToday env) -> JS.validTime (Edge.clockYesterday env) ->
  JS.Day (Edge.clockToday env) = JS.Day (Edge.clockYesterday env) ->
  Edge.yesterdayStr env <> Edge.today env.
Proof.
  unfold JS.validTime, Edge.yesterdayStr, Edge.today. intros Ht Hy Hsame.
  rewrite !splitHead_toISOString, setDate_yesterday, Day_yesterday, <- Hsame.
  intros H. apply isoDate_inj in H; [lia | |];
    unfold JS.Day, JS.msPerDay in *; Z.div_mod_to_equations; lia.
Qed.

(** ** The monad *)

Section Monad.
Import Edge.
Context {A B : Type}.

Lemma bind_run (m : M A) (k : A -> M B) w a w1 :
  m w = (Return a, w1) -> bind m k w = k a w1.
Proof. unfold bind. intros ->. reflexivity. Qed.
End Monad.

(** ** The reward block *)

Section Reward.
Import Edge.
Variables (env : Env) (uid : string) (boost : bool) (w : World).

(** Without a ledger row nothing is computed and nothing is written. *)
Lemma reward_no_row :
  (if userPointsError env then None else Store.user_points (store w) !! uid) = None ->
  reward env uid boost w
  = (Return 1, {| store := store w; trace := trace w ++ [SelectUserPoints uid] |}).
Proof.
  intros H. unfold reward, selectUserPoints, bind, emit, getStore, ret. simpl.
  rewrite H. reflexivity.
Qed.

(** With a row, the row of [computeReward] is written (when the store
    accepts the update) and its points are the result. *)
Lemma reward_row userPoints :
  userPointsError env = false ->
  Store.user_points (store w) !! uid = Some userPoints ->
  let '(pointsAwarded, row) :=
    computeReward userPoints (today env) (yesterdayStr env) boost in
  reward env uid boost w
  = (Return pointsAwarded,
     {| store :=
          if updateUserPointsError env then store w
          else Store.updateUserPoints uid (fun _ => row) (store w);
        trace := trace w ++ [SelectUserPoints uid; UpdateUserPoints uid row] |}).
Proof.
  intros He Hrow.
  destruct (computeReward userPoints (today env) (yesterdayStr env) boost)
    as [pointsAwarded row] eqn:Hc.
  unfold reward, selectUserPoints, updateUserPoints, bind, emit, getStore, ret,
    when, modifyStore.
  simpl. rewrite He, Hrow, Hc. simpl.
  rewrite <- app_assoc. simpl.
  destruct (updateUserPointsError env); reflexivity.
Qed.

(** The block always returns. *)
Lemma reward_returns : exists p w', reward env uid boost w = (Return p, w').
Proof.
  destruct (if userPointsError env then None else Store.user_points (store w) !! uid)
    as [r|] eqn:H.
  - destruct (userPointsError env) eqn:He; [discriminate|].
    pose proof (reward_row r He H) as Hr.
    destruct (computeReward r (today env) (yesterdayStr env) boost). eauto.
  - rewrite (reward_no_row H). eauto.
Qed.
End Reward.

Lemma sameDate_true lastActivityDate str :
  Edge.sameDate lastActivityDate str = true <-> lastActivityDate = Some str.
Proof. unfold Edge.sameDate. apply bool_decide_eq_true. Qed.

Lemma sameDate_false lastActivityDate str :
  Edge.sameDate lastActivityDate str = false <-> lastActivityDate <> Some str.
Proof. unfold Edge.sameDate. apply bool_decide_eq_false. Qed.

(** The points of [computeReward] are 1 or 6. *)
Lemma computeReward_points userPoints today yesterdayStr boost :
  fst (Edge.computeReward userPoints today yesterdayStr boost) = 1
  \/ fst (Edge.computeReward userPoints today yesterdayStr boost) = 6.
Proof.
  unfold Edge.computeReward, Edge.streakBonus.
  repeat case_match; simplify_eq; simpl; auto.
Qed.

(** The balance written by [computeReward] is the clamped sum. *)
Lemma computeReward_total userPoints today yesterdayStr boost :
  UserPoints.total_points (snd (Edge.computeReward userPoints today yesterdayStr boost))
  = Z.max 0 (UserPoints.total_points userPoints
             + fst (Edge.computeReward userPoints today yesterdayStr boost)
             - Edge.pointsCost boost).
Proof.
  unfold Edge.computeReward.
  destruct (Edge.streakBonus userPoints today yesterdayStr 1). reflexivity.
Qed.

Lemma computeReward_spent userPoints today yesterdayStr boost :
  UserPoints.points_spent (snd (Edge.computeReward userPoints today yesterdayStr boost))
  = UserPoints.points_spent userPoints + Edge.pointsCost boost.
Proof.
  unfold Edge.computeReward.
  destruct (Edge.streakBonus userPoints today yesterdayStr 1). reflexivity.
Qed.

(** ** Streak and points *)

(** What the two strings of the reward block are: the date of the UTC day
    on which [today] is taken, and the date of the day before the UTC day on
    which [yesterday] is taken. *)
Lemma today_isoDate (env : Edge.Env) :
  Edge.today env = JS.isoDate (JS.Day (Edge.clockToday env)).
Proof. unfold Edge.today. apply splitHead_toISOString. Qed.

Lemma yesterdayStr_isoDate (env : Edge.Env) :
  Edge.yesterdayStr env = JS.isoDate (JS.Day (Edge.clockYesterday env) - 1).
Proof.
  unfold Edge.yesterdayStr.
  rewrite splitHead_toISOString, setDate_yesterday, Day_yesterday. reflexivity.
Qed.

(** The streak branch.  Whenever the reward block reads a ledger row whose
    [last_activity_date] is the string the block computes for yesterday, the
    date of the day before the UTC day on which it takes [yesterday], it
    awards 6 points, the base point and the streak bonus of 5, and writes a
    streak one above the old one. *)
Lemma yesterday_branch (env : Edge.Env) (uid : string)
    (boost : bool) (w : Edge.World) (userPoints : UserPoints.t) :
  Edge.userPointsError env = false ->
  Store.user_points (Edge.store w) !! uid = Some userPoints ->
  UserPoints.last_activity_date userPoints
  = Some (JS.isoDate (JS.Day (Edge.clockYesterday env) - 1)) ->
  exists row,
    Edge.reward env uid boost w
    = (Edge.Return 6,
       {| Edge.store :=
            if Edge.updateUserPointsError env then Edge.store w
            else Store.updateUserPoints uid (fun _ => row) (Edge.store w);
          Edge.trace :=
            Edge.trace w ++ [Edge.SelectUserPoints uid; Edge.UpdateUserPoints uid row] |})
    /\ UserPoints.current_streak row = UserPoints.current_streak userPoints + 1.
Proof.
  intros He Hrow Hlast. rewrite <- yesterdayStr_isoDate in Hlast.
  pose proof (reward_row env uid boost w userPoints He Hrow) as Hr.
  unfold Edge.computeReward, Edge.streakBonus in Hr.
  apply sameDate_true in Hlast. rewrite Hlast in Hr.
  eexists. split; [exact Hr | reflexivity].
Qed.

(** When both readings of the clock fall on one UTC day, a row whose
    [last_activity_date] is the date of the day before today earns the
    bonus. *)
Lemma bonus_within_one_day (env : Edge.Env) (uid : string) (boost : bool)
    (w : Edge.World) (userPoints : UserPoints.t) :
  JS.Day (Edge.clockToday env) = JS.Day (Edge.clockYesterday env) ->
  Edge.userPointsError env = false ->
  Store.user_points (Edge.store w) !! uid = Some userPoints ->
  UserPoints.last_activity_date userPoints
  = Some (JS.isoDate (JS.Day (Edge.clockToday env) - 1)) ->
  exists row,
    Edge.reward env uid boost w
    = (Edge.Return 6,
       {| Edge.store :=
            if Edge.updateUserPointsError env then Edge.store w
            else Store.updateUserPoints uid (fun _ => row) (Edge.store w);
          Edge.trace :=
            Edge.trace w ++ [Edge.SelectUserPoints uid; Edge.UpdateUserPoints uid row] |})
    /\ UserPoints.current_streak row = UserPoints.current_streak userPoints + 1.
Proof.
  intros Hsame He Hrow Hlast. rewrite Hsame in Hlast.
  exact (yesterday_branch env uid boost w userPoints He Hrow Hlast).
Qed.

Example bonus_the_morning_after :
  exists row,
    Edge.reward Sample.morning "u1" false Sample.streakWorld
    = (Edge.Return 6,
       {| Edge.store :=
            Store.updateUserPoints "u1" (fun _ => row) (Edge.store Sample.streakWorld);
          Edge.trace := [Edge.SelectUserPoints "u1"; Edge.UpdateUserPoints "u1" row] |})
    /\ UserPoints.current_streak row = 5.
Proof.
  apply (bonus_within_one_day Sample.morning "u1" false Sample.streakWorld
           (Sample.row 7 4 (Some "2024-03-10"))).
  - vm_compute. reflexivity.
  - reflexivity.
  - vm_compute. reflexivity.
  - vm_compute. reflexivity.
Qed.

(** C3, at a request that crosses midnight.  [today] is read at
    2024-03-10T23:59:59.950Z and [yesterday] 70 ms later, on 2024-03-11:
    today's date is 2024-03-10, the day before it is 2024-03-09, and the
    string the block computes for yesterday is 2024-03-10.  A row with
    [last_activity_date] 2024-03-09, that is yesterday's date, and streak 4
    takes neither branch: the request is answered with 1 point, and streak 1
    is written. *)
Theorem streak_lost_across_midnight :
  Edge.today Sample.midnight = "2024-03-10"
  /\ JS.isoDate (JS.Day (Edge.clockToday Sample.midnight) - 1) = "2024-03-09"
  /\ Edge.yesterdayStr Sample.midnight = "2024-03-10"
  /\ Store.user_points (Edge.store Scenario.dayBeforeWorld) !! "u1"
     = Some {| UserPoints.total_points := 7; UserPoints.points_spent := 0;
               UserPoints.current_streak := 4;
               UserPoints.last_activity_date := Some "2024-03-09" |}
  /\ fst (Edge.reward Sample.midnight "u1" false Scenario.dayBeforeWorld) = Edge.Return 1
  /\ Store.user_points
       (Edge.store (snd (Edge.reward Sample.midnight "u1" false Scenario.dayBeforeWorld)))
       !! "u1"
     = Some {| UserPoints.total_points := 8; UserPoints.points_spent := 0;
               UserPoints.current_streak := 1;
               UserPoints.last_activity_date := Some "2024-03-10" |}
  /\ Edge.payload
       (fst (Edge.serve Sample.midnight (Sample.request "Hi" false)
               Scenario.dayBeforeWorld))
     = Edge.BodyOk (JS.utf16 "hello") 12 850 1.
Proof. vm_compute. repeat split; reflexivity. Qed.

(** When the two readings of the clock give different strings for [today]
    and for yesterday, a row whose [last_activity_date] is today's date
    keeps its streak and earns the base point only. *)
Lemma same_day_no_bonus (env : Edge.Env) (uid : string) (boost : bool)
    (w : Edge.World) (userPoints : UserPoints.t) :
  Edge.userPointsError env = false ->
  Store.user_points (Edge.store w) !! uid = Some userPoints ->
  Edge.yesterdayStr env <> Edge.today env ->
  UserPoints.last_activity_date userPoints = Some (Edge.today env) ->
  exists row,
    Edge.reward env uid boost w
    = (Edge.Return 1,
       {| Edge.store :=
            if Edge.updateUserPointsError env then Edge.store w
            else Store.updateUserPoints uid (fun _ => row) (Edge.store w);
          Edge.trace :=
            Edge.trace w ++ [Edge.SelectUserPoints uid; Edge.UpdateUserPoints uid row] |})
    /\ UserPoints.current_streak row = UserPoints.current_streak userPoints.
Proof.
  intros He Hrow Hne Hlast.
  pose proof (reward_row env uid boost w userPoints He Hrow) as Hr.
  unfold Edge.computeReward, Edge.streakBonus in Hr.
  assert (Hy : Edge.sameDate (UserPoints.last_activity_date userPoints)
                 (Edge.yesterdayStr env) = false).
  { apply sameDate_false. rewrite Hlast. congruence. }
  apply sameDate_true in Hlast. rewrite Hy, Hlast in Hr.
  eexists. split; [exact Hr | reflexivity].
Qed.

(** In particular, when both readings fall on one UTC day. *)
Lemma no_bonus_within_one_day (env : Edge.Env) (uid : string) (boost : bool)
    (w : Edge.World) (userPoints : UserPoints.t) :
  JS.validTime (Edge.clockToday env) -> JS.validTime (Edge.clockYesterday env) ->
  JS.Day (Edge.clockToday env) = JS.Day (Edge.clockYesterday env) ->
  Edge.userPointsError env = false ->
  Store.user_points (Edge.store w) !! uid = Some userPoints ->
  UserPoints.last_activity_date userPoints = Some (Edge.today env) ->
  exists row,
    Edge.reward env uid boost w
    = (Edge.Return 1,
       {| Edge.store :=
            if Edge.updateUserPointsError env then Edge.store w
            else Store.updateUserPoints uid (fun _ => row) (Edge.store w);
          Edge.trace :=
            Edge.trace w ++ [Edge.SelectUserPoints uid; Edge.UpdateUserPoints uid row] |})
    /\ UserPoints.current_streak row = UserPoints.current_streak userPoints.
Proof.
  intros Ht Hy Hsame He Hrow Hlast.
  apply same_day_no_bonus; auto using yesterdayStr_not_today.
Qed.

(** C4, at a request that crosses midnight.  [today] is read at
    2024-03-10T23:59:59.950Z and [yesterday] 70 ms later, on 2024-03-11: both
    strings are 2024-03-10.  A row with [last_activity_date] 2024-03-10, that
    is today's date, and streak 4 takes the streak branch: the request is
    answered with 6 points, and streak 5 is written. *)
Theorem same_day_bonus_across_midnight :
  Edge.today Sample.midnight = "2024-03-10"
  /\ Edge.yesterdayStr Sample.midnight = "2024-03-10"
  /\ Store.user_points (Edge.store Sample.streakWorld) !! "u1"
     = Some {| UserPoints.total_points := 7; UserPoints.points_spent := 0;
               UserPoints.current_streak := 4;
               UserPoints.last_activity_date := Some (Edge.today Sample.midnight) |}
  /\ fst (Edge.reward Sample.midnight "u1" false Sample.streakWorld) = Edge.Return 6
  /\ Store.user_points
       (Edge.store (snd (Edge.reward Sample.midnight "u1" false Sample.streakWorld)))
       !! "u1"
     = Some {| UserPoints.total_points := 13; UserPoints.points_spent := 0;
               UserPoints.current_streak := 5;
               UserPoints.last_activity_date := Some "2024-03-10" |}
  /\ Edge.payload
       (fst (Edge.serve Sample.midnight (Sample.request "Hi" false) Sample.streakWorld))
     = Edge.BodyOk (JS.utf16 "hello") 12 850 6.
Proof. vm_compute. repeat split; reflexivity. Qed.

(** C5.  Whenever the reward block reads a ledger row whose
    [last_activity_date] is null, or is a string that is neither today's
    date nor yesterday's (a date two or more days back, a later date, or a
    date written in another format), it awards the base point 1 and writes
    the streak 1. *)
Theorem streak_resets_after_gap (env : Edge.Env) (uid : string) (boost : bool)
    (w : Edge.World) (userPoints : UserPoints.t) :
  Edge.userPointsError env = false ->
  Store.user_points (Edge.store w) !! uid = Some userPoints ->
  UserPoints.last_activity_date userPoints = None
  \/ (UserPoints.last_activity_date userPoints
       <> Some (JS.isoDate (JS.Day (Edge.clockToday env)))
      /\ UserPoints.last_activity_date userPoints
         <> Some (JS.isoDate (JS.Day (Edge.clockYesterday env) - 1))) ->
  exists row,
    Edge.reward env uid boost w
    = (Edge.Return 1,
       {| Edge.store :=
            if Edge.updateUserPointsError env then Edge.store w
            else Store.updateUserPoints uid (fun _ => row) (Edge.store w);
          Edge.trace :=
            Edge.trace w ++ [Edge.SelectUserPoints uid; Edge.UpdateUserPoints uid row] |})
    /\ UserPoints.current_streak row = 1.
Proof.
  intros He Hrow Hgap. rewrite <- today_isoDate, <- yesterdayStr_isoDate in Hgap.
  assert (Hn : UserPoints.last_activity_date userPoints <> Some (Edge.today env)
               /\ UserPoints.last_activity_date userPoints <> Some (Edge.yesterdayStr env)).
  { destruct Hgap as [Hnone | Hne]; [rewrite Hnone; split; discriminate | exact Hne]. }
  destruct Hn as [Ht Hy].
  pose proof (reward_row env uid boost w userPoints He Hrow) as Hr.
  unfold Edge.computeReward, Edge.streakBonus in Hr.
  apply sameDate_false in Ht, Hy. rewrite Hy, Ht in Hr.
  eexists. split; [exact Hr | reflexivity].
Qed.

(** A date two or more days before the day of [today] is neither of the two
    strings, as long as the clock does not run backwards between the two
    readings. *)
Lemma gap_of_two_days (env : Edge.Env) (day : Z) :
  JS.validTime (Edge.clockToday env) -> JS.validTime (Edge.clockYesterday env) ->
  Edge.clockToday env <= Edge.clockYesterday env ->
  -100000001 <= day <= JS.Day (Edge.clockToday env) - 2 ->
  Some (JS.isoDate day) <> Some (JS.isoDate (JS.Day (Edge.clockToday env)))
  /\ Some (JS.isoDate day) <> Some (JS.isoDate (JS.Day (Edge.clockYesterday env) - 1)).
Proof.
  unfold JS.validTime. intros Ht Hy Hle Hd.
  assert (Hdays : JS.Day (Edge.clockToday env) <= JS.Day (Edge.clockYesterday env)
                  /\ -100000000 <= JS.Day (Edge.clockToday env)
                  /\ JS.Day (Edge.clockYesterday env) <= 100000000).
  { unfold JS.Day, JS.msPerDay. Z.div_mod_to_equations. lia. }
  split; intros [= H]; apply isoDate_inj in H; lia.
Qed.

Lemma streak_resets_after_gap_witness :
  exists row,
    Edge.reward Sample.morning "u1" false Sample.idleWorld
    = (Edge.Return 1,
       {| Edge.store :=
            Store.updateUserPoints "u1" (fun _ => row) (Edge.store Sample.idleWorld);
          Edge.trace := [Edge.SelectUserPoints "u1"; Edge.UpdateUserPoints "u1" row] |})
    /\ UserPoints.current_streak row = 1.
Proof.
  apply (streak_resets_after_gap Sample.morning "u1" false Sample.idleWorld
           (Sample.row 7 4 (Some "2024-03-08"))).
  - reflexivity.
  - vm_compute. reflexivity.
  - right. vm_compute. split; discriminate.
Defined.

(** ** The phases of the handler *)

Section Phases.
Import Edge.
Variables (env : Env) (req : Request) (w : World).

Lemma logged_logged evs1 evs2 (w0 : World) :
  logged evs2 (logged evs1 w0) = logged (evs1 ++ evs2) w0.
Proof. unfold logged. simpl. rewrite app_assoc. reflexivity. Qed.

(** A request with no user fails before anything is read or written. *)
Lemma authenticate_rejected :
  userOf env req = None ->
  exists e evs, authenticate env req w = (Throw e, logged evs w)
    /\ Forall (fun ev => exists token, ev = AuthGetUser token) evs.
Proof.
  unfold userOf, authenticate, bind, emit, ret, throw. intros H.
  destruct (authorization req) as [h|]; simpl.
  - rewrite H. exists "Unauthorized", [AuthGetUser (JS.removeFirst "Bearer " h)].
    split; [reflexivity|]. repeat constructor. eauto.
  - eexists _, []. split; [|constructor].
    unfold logged. rewrite app_nil_r. destruct w; reflexivity.
Qed.

Lemma authenticate_accepted user :
  userOf env req = Some user ->
  authenticate env req w
  = (Return user,
     logged [AuthGetUser (JS.removeFirst "Bearer " (default "" (authorization req)))] w).
Proof.
  unfold userOf, authenticate, bind, emit, ret, throw. intros H.
  destruct (authorization req) as [h|]; [|discriminate]. simpl. rewrite H. reflexivity.
Qed.

Lemma readRequest_rejected :
  chatOf req = None -> exists e, readRequest req w = (Throw e, w).
Proof.
  unfold chatOf, readRequest, bind, ret, throw. intros H.
  destruct (body req) as [chat|]; simpl; [|eauto].
  destruct (message chat) as [[|c m]|]; simpl; eauto.
  destruct (conversationId chat) as [[|a cid]|]; simpl; eauto. discriminate.
Qed.

Lemma readRequest_accepted chat :
  chatOf req = Some chat -> readRequest req w = (Return chat, w).
Proof.
  unfold chatOf, readRequest, bind, ret, throw. intros H.
  destruct (body req) as [c|]; simpl; [|discriminate].
  destruct (message c) as [[|x m]|]; simpl; try discriminate.
  destruct (conversationId c) as [[|a cid]|]; simpl; try discriminate.
  injection H as <-. reflexivity.
Qed.

Lemma getHistory_rejected cid :
  messagesError env = true ->
  getHistory env cid w
  = (Throw "Failed to fetch conversation history",
     logged [SelectMessages cid; ConsoleError "Error fetching messages:"] w).
Proof.
  unfold getHistory, bind, emit, getStore, ret, throw, logged. intros ->. simpl.
  rewrite <- app_assoc. reflexivity.
Qed.

Lemma getHistory_accepted cid :
  messagesError env = false ->
  getHistory env cid w
  = (Return (Store.selectMessages cid (store w)), logged [SelectMessages cid] w).
Proof.
  unfold getHistory, bind, emit, getStore, ret, throw, logged. intros ->. reflexivity.
Qed.

Lemma saveUserMessage_run user cid msg :
  saveUserMessage env user cid msg w
  = (Return tt,
     {| store :=
          if saveUserMessageError env then store w
          else Store.insertMessage (userTurn env user cid msg) (store w);
        trace :=
          trace w ++ InsertMessage (userTurn env user cid msg)
                     :: (if saveUserMessageError env
                         then [ConsoleError "Error saving user message:"] else []) |}).
Proof.
  unfold saveUserMessage, insertMessage, bind, emit, when, modifyStore, ret.
  destruct (saveUserMessageError env); simpl; [rewrite <- app_assoc|]; reflexivity.
Qed.

Lemma saveAssistantMessage_run m :
  saveAssistantMessage env m w = (Return tt, afterAssistantTurn env m w).
Proof.
  unfold saveAssistantMessage, afterAssistantTurn, insertMessage, bind, emit, when,
    modifyStore, ret.
  destruct (saveAssistantMessageError env); simpl; [rewrite <- app_assoc|]; reflexivity.
Qed.

(** The provider is called first; what it answers decides the rest. *)
Lemma callGemini_run style boost history :
  callGemini env style boost history w
  = let call := FetchGemini (geminiMessages style boost history)
                  (if boost then 4096 else 2048) in
    match gemini env with
    | FetchError msg => (Throw msg, logged [call] w)
    | FetchResponse false _ =>
        (Throw "Failed to get response from Gemini",
         logged [call; ConsoleError "Gemini API error:"] w)
    | FetchResponse true None => (Throw "Unexpected token in JSON", logged [call] w)
    | FetchResponse true (Some d) =>
        match candidates d with
        | None | Some [] => (Throw "No response generated from Gemini", logged [call] w)
        | Some (NoContent :: _) =>
            (Throw "Cannot read properties of undefined (reading 'parts')",
             logged [call] w)
        | Some (Text aiResponse :: _) =>
            (Return (aiResponse, default 0 (totalTokenCount d)), logged [call] w)
        end
    end.
Proof.
  unfold callGemini, bind, emit, ret, throw, logged. simpl.
  destruct (gemini env) as [msg|[|] [d|]]; simpl; try reflexivity.
  - destruct (candidates d) as [[|[t|] l]|]; reflexivity.
  - rewrite <- app_assoc. reflexivity.
  - rewrite <- app_assoc. reflexivity.
Qed.

End Phases.

(** ** The handler as a whole *)

Section Handler.
Import Edge.
Variables (env : Env) (req : Request) (w : World).

(** A request that is not authenticated, has no message or conversation, or
    whose history cannot be read, fails with the store untouched and the
    provider not called. *)
Lemma handle_rejected :
  userOf env req = None \/ chatOf req = None \/ messagesError env = true ->
  exists e evs, handle env req w = (Throw e, logged evs w) /\ idle evs.
Proof.
  intros H. unfold handle.
  destruct (userOf env req) as [user|] eqn:Hu.
  2:{ destruct (authenticate_rejected env req w Hu) as (e & evs & Ha & Hevs).
      exists e, evs. unfold bind. rewrite Ha. split; [reflexivity|].
      unfold idle. apply forallb_forall. intros ev Hin.
      rewrite Forall_forall in Hevs.
      apply list_elem_of_In, Hevs in Hin. destruct Hin as [token ->]. reflexivity. }
  rewrite (bind_run _ _ _ _ _ (authenticate_accepted env req w user Hu)).
  destruct (chatOf req) as [[[[msg cid] style] boost]|] eqn:Hc.
  2:{ destruct (readRequest_rejected req (logged [AuthGetUser
          (JS.removeFirst "Bearer " (default "" (authorization req)))] w) Hc) as (e & Hr).
      unfold bind at 1. rewrite Hr. eexists _, _. split; [reflexivity|]. reflexivity. }
  rewrite (bind_run _ _ _ _ _ (readRequest_accepted req _ _ Hc)).
  destruct H as [H | [H | H]]; try discriminate.
  unfold bind at 1. rewrite (getHistory_rejected env _ cid H), logged_logged.
  eexists _, _. split; [reflexivity|]. reflexivity.
Qed.

(** An accepted request saves its user turn; the rest of the run starts
    from there. *)
Lemma handle_accepted user msg cid style boost :
  userOf env req = Some user ->
  chatOf req = Some (msg, cid, style, boost) ->
  messagesError env = false ->
  handle env req w
  = bind (callGemini env style boost (conversationHistory cid msg w))
      (fun answer =>
         let '(aiResponse, tokensUsed) := answer in
         let responseTime := clockResponse env - clockStart env in
         bind (reward env user boost)
           (fun pointsAwarded =>
              bind (saveAssistantMessage env
                      (assistantTurn env user cid aiResponse tokensUsed responseTime
                         pointsAwarded))
                (fun _ =>
                   ret {| response := aiResponse; tokensUsed := tokensUsed;
                          responseTime := responseTime;
                          replyPointsAwarded := pointsAwarded |})))
      (afterUserTurn env req user cid msg w).
Proof.
  intros Hu Hc Hm. unfold handle.
  rewrite (bind_run _ _ _ _ _ (authenticate_accepted env req w user Hu)).
  rewrite (bind_run _ _ _ _ _ (readRequest_accepted req _ _ Hc)).
  rewrite (bind_run _ _ _ _ _ (getHistory_accepted env _ cid Hm)).
  unfold bind at 1. rewrite saveUserMessage_run.
  unfold afterUserTurn, conversationHistory, logged. simpl.
  rewrite <- !app_assoc. reflexivity.
Qed.

(** When the provider answers with a text, the run goes through. *)
Lemma handle_success user msg cid style boost d aiResponse rest :
  userOf env req = Some user ->
  chatOf req = Some (msg, cid, style, boost) ->
  messagesError env = false ->
  gemini env = FetchResponse true (Some d) ->
  candidates d = Some (Text aiResponse :: rest) ->
  exists pointsAwarded w2,
    reward env user boost
      (logged [providerCall cid msg style boost w] (afterUserTurn env req user cid msg w))
    = (Return pointsAwarded, w2)
    /\ handle env req w
       = (Return {| response := aiResponse;
                    tokensUsed := default 0 (totalTokenCount d);
                    responseTime := clockResponse env - clockStart env;
                    replyPointsAwarded := pointsAwarded |},
          afterAssistantTurn env
            (assistantTurn env user cid aiResponse (default 0 (totalTokenCount d))
               (clockResponse env - clockStart env) pointsAwarded) w2).
Proof.
  intros Hu Hc Hm Hg Hd.
  destruct (reward_returns env user boost
              (logged [providerCall cid msg style boost w]
                 (afterUserTurn env req user cid msg w))) as (p & w2 & Hr).
  exists p, w2. split; [exact Hr|].
  rewrite (handle_accepted user msg cid style boost Hu Hc Hm).
  unfold bind at 1. rewrite callGemini_run, Hg, Hd. cbv zeta.
  unfold providerCall in Hr.
  unfold bind at 1. rewrite Hr.
  unfold bind. rewrite saveAssistantMessage_run. reflexivity.
Qed.

(** When the provider does not answer with a text, the run fails after the
    call: nothing is written after the user turn. *)
Lemma handle_no_answer user msg cid style boost :
  userOf env req = Some user ->
  chatOf req = Some (msg, cid, style, boost) ->
  messagesError env = false ->
  (forall d aiResponse rest,
     gemini env = FetchResponse true (Some d) ->
     candidates d <> Some (Text aiResponse :: rest)) ->
  exists e evs,
    handle env req w
    = (Throw e,
       logged (providerCall cid msg style boost w :: evs)
         (afterUserTurn env req user cid msg w))
    /\ idle evs
    /\ (providerFailed (gemini env) -> ProviderError e).
Proof.
  intros Hu Hc Hm Hno.
  rewrite (handle_accepted user msg cid style boost Hu Hc Hm).
  unfold bind at 1. rewrite callGemini_run. cbv zeta.
  fold (providerCall cid msg style boost w).
  unfold providerFailed, ProviderError.
  destruct (gemini env) as [m|[|] [d|]] eqn:Hg.
  - exists m, []. repeat split; [intros []].
  - specialize (Hno d).
    destruct (candidates d) as [[|[t|] l]|] eqn:Hd.
    + eexists _, []. repeat split. auto.
    + exfalso. eapply Hno; reflexivity.
    + eexists _, []. repeat split. intros [?|?]; discriminate.
    + eexists _, []. repeat split. auto.
  - eexists _, []. repeat split. intros [].
  - eexists _, [_]. repeat split. auto.
  - eexists _, [_]. repeat split. auto.
Qed.

End Handler.

(** The two ways the reward block runs. *)
Lemma reward_cases (env : Edge.Env) (uid : string) (boost : bool) (w : Edge.World) :
  ((if Edge.userPointsError env then None else Store.user_points (Edge.store w) !! uid) = None
   /\ Edge.reward env uid boost w = (Edge.Return 1, logged [Edge.SelectUserPoints uid] w))
  \/ (exists userPoints,
        Edge.userPointsError env = false
        /\ Store.user_points (Edge.store w) !! uid = Some userPoints
        /\ let c := Edge.computeReward userPoints (Edge.today env) (Edge.yesterdayStr env)
                      boost in
           Edge.reward env uid boost w
           = (Edge.Return (fst c),
              {| Edge.store :=
                   if Edge.updateUserPointsError env then Edge.store w
                   else Store.updateUserPoints uid (fun _ => snd c) (Edge.store w);
                 Edge.trace :=
                   Edge.trace w
                   ++ [Edge.SelectUserPoints uid; Edge.UpdateUserPoints uid (snd c)] |})).
Proof.
  destruct (if Edge.userPointsError env then None
            else Store.user_points (Edge.store w) !! uid) as [r|] eqn:H.
  - right. exists r.
    destruct (Edge.userPointsError env) eqn:He; [discriminate|].
    repeat split; [exact H|].
    pose proof (reward_row env uid boost w r He H) as Hr.
    destruct (Edge.computeReward r (Edge.today env) (Edge.yesterdayStr env) boost).
    exact Hr.
  - left. split; [reflexivity|]. apply reward_no_row. exact H.
Qed.

(** The points of the reward block are 1 or 6. *)
Lemma reward_points (env : Edge.Env) (uid : string) (boost : bool) (w w' : Edge.World) p :
  Edge.reward env uid boost w = (Edge.Return p, w') -> p = 1 \/ p = 6.
Proof.
  destruct (reward_cases env uid boost w) as [[_ H] | (r & _ & _ & H)];
    cbv zeta in H; rewrite H; intros [= <- _]; [auto|].
  apply computeReward_points.
Qed.

Section Serve.
Import Edge.
Variables (env : Env) (req : Request) (w : World).

(** A preflight request is answered at once. *)
Lemma serve_options :
  method req = "OPTIONS" -> serve env req w = ({| status := 200; payload := BodyNull |}, w).
Proof. intros H. unfold serve. rewrite bool_decide_eq_true_2 by exact H. reflexivity. Qed.

(** A thrown error becomes a reply with status 500. *)
Lemma serve_throw e w' :
  method req <> "OPTIONS" ->
  handle env req w = (Throw e, w') ->
  serve env req w
  = ({| status := 500; payload := BodyError (errorMessage e) |},
     logged [ConsoleError "Error in chat-with-gemini function:"] w').
Proof.
  intros Hm H. unfold serve. rewrite bool_decide_eq_false_2 by exact Hm.
  rewrite H. reflexivity.
Qed.

Lemma serve_return r w' :
  method req <> "OPTIONS" ->
  handle env req w = (Return r, w') ->
  serve env req w
  = ({| status := 200;
        payload := BodyOk (response r) (tokensUsed r) (responseTime r)
                     (replyPointsAwarded r) |}, w').
Proof.
  intros Hm H. unfold serve. rewrite bool_decide_eq_false_2 by exact Hm.
  rewrite H. reflexivity.
Qed.

(** A reply with a response comes from an accepted request that the
    provider answered with a text. *)
Lemma serve_ok_inv aiResponse tokens time p :
  payload (fst (serve env req w)) = BodyOk aiResponse tokens time p ->
  method req <> "OPTIONS"
  /\ exists user msg cid style boost d rest,
       userOf env req = Some user
       /\ chatOf req = Some (msg, cid, style, boost)
       /\ messagesError env = false
       /\ gemini env = FetchResponse true (Some d)
       /\ candidates d = Some (Text aiResponse :: rest).
Proof.
  intros H.
  destruct (decide (method req = "OPTIONS")) as [Ho|Ho].
  { rewrite (serve_options Ho) in H. discriminate. }
  split; [exact Ho|].
  destruct (userOf env req) as [user|] eqn:Hu.
  2:{ destruct handle_rejected with (env := env) (req := req) (w := w)
        as (e & evs & Hh & _); [auto|].
      rewrite (serve_throw e _ Ho Hh) in H. discriminate. }
  destruct (chatOf req) as [[[[msg cid] style] boost]|] eqn:Hc.
  2:{ destruct handle_rejected with (env := env) (req := req) (w := w)
        as (e & evs & Hh & _); [auto|].
      rewrite (serve_throw e _ Ho Hh) in H. discriminate. }
  destruct (messagesError env) eqn:Hm.
  { destruct handle_rejected with (env := env) (req := req) (w := w)
      as (e & evs & Hh & _); [auto|].
    rewrite (serve_throw e _ Ho Hh) in H. discriminate. }
  assert (Hcase :
    (exists d a rest, gemini env = FetchResponse true (Some d)
                      /\ candidates d = Some (Text a :: rest))
    \/ (forall d a rest, gemini env = FetchResponse true (Some d) ->
                         candidates d <> Some (Text a :: rest))).
  { destruct (gemini env) as [m|[|] [d|]]; try (right; intros; discriminate).
    destruct (candidates d) as [[|[t|] l]|] eqn:Hd.
    - right. intros d' a r' [= <-]. rewrite Hd. discriminate.
    - left. eauto.
    - right. intros d' a r' [= <-]. rewrite Hd. discriminate.
    - right. intros d' a r' [= <-]. rewrite Hd. discriminate. }
  destruct Hcase as [(d & a & rest & Hg & Hd) | Hno].
  - destruct (handle_success env req w user msg cid style boost d a rest Hu Hc Hm Hg Hd)
      as (p' & w2 & _ & Hh).
    rewrite (serve_return _ _ Ho Hh) in H. simpl in H. injection H as -> _ _ _.
    exists user, msg, cid, style, boost, d, rest. auto.
  - destruct (handle_no_answer env req w user msg cid style boost Hu Hc Hm Hno)
      as (e & evs & Hh & _).
    rewrite (serve_throw e _ Ho Hh) in H. discriminate.
Qed.

End Serve.

(** Saving a turn leaves the ledger as it is. *)
Lemma afterUserTurn_user_points env req user cid msg w :
  Store.user_points (Edge.store (afterUserTurn env req user cid msg w))
  = Store.user_points (Edge.store w).
Proof. unfold afterUserTurn. simpl. destruct (Edge.saveUserMessageError env); reflexivity. Qed.

Lemma afterAssistantTurn_user_points env m w :
  Store.user_points (Edge.store (afterAssistantTurn env m w))
  = Store.user_points (Edge.store w).
Proof.
  unfold afterAssistantTurn. simpl.
  destruct (Edge.saveAssistantMessageError env); reflexivity.
Qed.

(** ** Replies *)

(** C9.  Whenever the handler replies with a response, the [pointsAwarded]
    of the reply is 1 or 6, and the run asked for exactly one assistant
    turn to be inserted, which carries the reply's text, token count,
    response time and that same number as [points_awarded]; when the store
    takes the insert, it is the last row of [messages]. *)
Theorem points_awarded_one_or_six (env : Edge.Env) (req : Edge.Request) (w : Edge.World)
    (aiResponse : JS.jsstring) (tokens time p : Z) :
  Edge.payload (fst (Edge.serve env req w)) = Edge.BodyOk aiResponse tokens time p ->
  (p = 1 \/ p = 6)
  /\ exists m evs,
       Message.role m = Message.assistant
       /\ Message.content m = aiResponse
       /\ Message.tokens_used m = Some tokens
       /\ Message.response_time_ms m = Some time
       /\ Message.points_awarded m = Some p
       /\ Edge.trace (snd (Edge.serve env req w)) = Edge.trace w ++ evs
       /\ List.filter isAssistantInsert evs = [Edge.InsertMessage m]
       /\ (Edge.saveAssistantMessageError env = false ->
           last (Store.messages (Edge.store (snd (Edge.serve env req w)))) = Some m).
Proof.
  intros H.
  destruct (serve_ok_inv env req w _ _ _ _ H)
    as (Ho & user & msg & cid & style & boost & d & rest & Hu & Hc & Hm & Hg & Hd).
  destruct (handle_success env req w user msg cid style boost d aiResponse rest
              Hu Hc Hm Hg Hd) as (p' & w2 & Hr & Hh).
  rewrite (serve_return env req w _ _ Ho Hh) in H |- *. simpl in H.
  injection H as <- <- <-. split; [exact (reward_points _ _ _ _ _ _ Hr)|].
  exists (Edge.assistantTurn env user cid aiResponse
            (default 0 (Edge.totalTokenCount d))
            (Edge.clockResponse env - Edge.clockStart env) p').
  destruct (reward_cases env user boost
              (logged [providerCall cid msg style boost w]
                 (afterUserTurn env req user cid msg w)))
    as [[_ Hr'] | (r & _ & _ & Hr')]; cbv zeta in Hr'; rewrite Hr' in Hr;
    injection Hr as _ <-; simpl; eexists; repeat split.
  - rewrite <- !app_assoc. reflexivity.
  - destruct (Edge.saveUserMessageError env), (Edge.saveAssistantMessageError env);
      reflexivity.
  - intros He. rewrite He. simpl. apply last_snoc.
  - rewrite <- !app_assoc. reflexivity.
  - destruct (Edge.saveUserMessageError env), (Edge.saveAssistantMessageError env);
      reflexivity.
  - intros He. rewrite He. simpl. apply last_snoc.
Qed.

Lemma points_awarded_one_or_six_witness :
  (6 = 1 \/ 6 = 6)
  /\ exists m evs,
       Message.role m = Message.assistant
       /\ Message.content m = JS.utf16 "hello"
       /\ Message.tokens_used m = Some 12
       /\ Message.response_time_ms m = Some 850
       /\ Message.points_awarded m = Some 6
       /\ Edge.trace (snd (Edge.serve Sample.morning (Sample.request "Hi" false)
                             Sample.streakWorld))
          = Edge.trace Sample.streakWorld ++ evs
       /\ List.filter isAssistantInsert evs = [Edge.InsertMessage m]
       /\ (Edge.saveAssistantMessageError Sample.morning = false ->
           last (Store.messages
                   (Edge.store (snd (Edge.serve Sample.morning (Sample.request "Hi" false)
                                       Sample.streakWorld))))
           = Some m).
Proof.
  apply (points_awarded_one_or_six Sample.morning (Sample.request "Hi" false)
           Sample.streakWorld (JS.utf16 "hello") 12 850 6).
  vm_compute. reflexivity.
Defined.

(** C10.  Whenever the handler replies with a response to a user who has
    no ledger row, the reply reports [pointsAwarded] 1, the ledger table is
    as before (no row is created and nothing is charged, boost or not), and
    the run asked for no ledger update. *)
Theorem no_ledger_row_no_reward (env : Edge.Env) (req : Edge.Request) (w : Edge.World)
    (user : string) (aiResponse : JS.jsstring) (tokens time p : Z) :
  userOf env req = Some user ->
  Store.user_points (Edge.store w) !! user = None ->
  Edge.payload (fst (Edge.serve env req w)) = Edge.BodyOk aiResponse tokens time p ->
  p = 1
  /\ Store.user_points (Edge.store (snd (Edge.serve env req w)))
     = Store.user_points (Edge.store w)
  /\ Store.purchases (Edge.store (snd (Edge.serve env req w)))
     = Store.purchases (Edge.store w)
  /\ exists evs,
       Edge.trace (snd (Edge.serve env req w)) = Edge.trace w ++ evs
       /\ existsb isLedgerUpdate evs = false.
Proof.
  intros Hu Hnone H.
  destruct (serve_ok_inv env req w _ _ _ _ H)
    as (Ho & user' & msg & cid & style & boost & d & rest & Hu' & Hc & Hm & Hg & Hd).
  assert (user' = user) as -> by congruence.
  destruct (handle_success env req w user msg cid style boost d aiResponse rest
              Hu Hc Hm Hg Hd) as (p' & w2 & Hr & Hh).
  rewrite (serve_return env req w _ _ Ho Hh) in H |- *. simpl in H.
  injection H as <- <- <-.
  destruct (reward_cases env user boost
              (logged [providerCall cid msg style boost w]
                 (afterUserTurn env req user cid msg w)))
    as [[_ Hr'] | (r & _ & Hrow & _)].
  - rewrite Hr' in Hr. injection Hr as <- <-. simpl.
    repeat split.
    + destruct (Edge.saveAssistantMessageError env), (Edge.saveUserMessageError env);
        reflexivity.
    + destruct (Edge.saveAssistantMessageError env), (Edge.saveUserMessageError env);
        reflexivity.
    + eexists. split; [rewrite <- !app_assoc; reflexivity|].
      destruct (Edge.saveAssistantMessageError env), (Edge.saveUserMessageError env);
        reflexivity.
  - exfalso. simpl in Hrow.
    change (Store.user_points (Edge.store (afterUserTurn env req user cid msg w))
              !! user = Some r) in Hrow.
    rewrite afterUserTurn_user_points, Hnone in Hrow. discriminate.
Qed.

Lemma no_ledger_row_no_reward_witness :
  1 = 1
  /\ Store.user_points
       (Edge.store (snd (Edge.serve Sample.morning (Sample.request "Hi" true)
                           Sample.freshWorld)))
     = Store.user_points (Edge.store Sample.freshWorld)
  /\ Store.purchases
       (Edge.store (snd (Edge.serve Sample.morning (Sample.request "Hi" true)
                           Sample.freshWorld)))
     = Store.purchases (Edge.store Sample.freshWorld)
  /\ exists evs,
       Edge.trace (snd (Edge.serve Sample.morning (Sample.request "Hi" true)
                         Sample.freshWorld))
       = Edge.trace Sample.freshWorld ++ evs
       /\ existsb isLedgerUpdate evs = false.
Proof.
  apply (no_ledger_row_no_reward Sample.morning (Sample.request "Hi" true)
           Sample.freshWorld "u1" (JS.utf16 "hello") 12 850 1).
  - reflexivity.
  - reflexivity.
  - vm_compute. reflexivity.
Defined.

(** ** Provider failure *)

Lemma idle_no_ledger_update evs : idle evs -> existsb isLedgerUpdate evs = false.
Proof.
  unfold idle. induction evs as [|e evs IH]; simpl; [reflexivity|].
  intros H. apply andb_true_iff in H as [He H]. rewrite (IH H).
  destruct e; simpl in *; try reflexivity; discriminate.
Qed.

Lemma idle_no_assistant_insert evs : idle evs -> existsb isAssistantInsert evs = false.
Proof.
  unfold idle. induction evs as [|e evs IH]; simpl; [reflexivity|].
  intros H. apply andb_true_iff in H as [He H]. rewrite (IH H).
  destruct e; simpl in *; try reflexivity; discriminate.
Qed.

Lemma ProviderError_message e : ProviderError e -> Edge.errorMessage e = e.
Proof. intros [-> | ->]; reflexivity. Qed.

(** C6.  Whenever an accepted request meets a provider that answers with a
    non-success status or with no candidate, the handler replies with status
    500 and one of the two provider errors; the provider was called; no
    assistant turn was inserted and no ledger update was asked for; the
    ledger is as before; and [messages] holds what it held before followed
    by the user turn of this request (when the store took it). *)
Theorem provider_failure_keeps_user_turn (env : Edge.Env) (req : Edge.Request)
    (w : Edge.World) (user cid style : string) (msg : JS.jsstring) (boost : bool) :
  Edge.method req <> "OPTIONS" ->
  userOf env req = Some user ->
  chatOf req = Some (msg, cid, style, boost) ->
  Edge.messagesError env = false ->
  providerFailed (Edge.gemini env) ->
  exists e evs,
    fst (Edge.serve env req w) = {| Edge.status := 500; Edge.payload := Edge.BodyError e |}
    /\ ProviderError e
    /\ Store.messages (Edge.store (snd (Edge.serve env req w)))
       = Store.messages (Edge.store w)
         ++ (if Edge.saveUserMessageError env then []
             else [Edge.userTurn env user cid msg])
    /\ Store.user_points (Edge.store (snd (Edge.serve env req w)))
       = Store.user_points (Edge.store w)
    /\ Edge.trace (snd (Edge.serve env req w)) = Edge.trace w ++ evs
    /\ existsb isProviderCall evs = true
    /\ existsb isAssistantInsert evs = false
    /\ existsb isLedgerUpdate evs = false.
Proof.
  intros Ho Hu Hc Hm Hf.
  assert (Hno : forall d a rest,
            Edge.gemini env = Edge.FetchResponse true (Some d) ->
            Edge.candidates d <> Some (Edge.Text a :: rest)).
  { intros d a rest Hg. unfold providerFailed in Hf. rewrite Hg in Hf.
    destruct Hf as [-> | ->]; discriminate. }
  destruct (handle_no_answer env req w user msg cid style boost Hu Hc Hm Hno)
    as (e & evs & Hh & Hidle & He).
  specialize (He Hf).
  rewrite (serve_throw env req w e _ Ho Hh). simpl.
  rewrite (ProviderError_message e He).
  exists e. eexists. repeat split.
  - exact He.
  - destruct (Edge.saveUserMessageError env); [rewrite app_nil_r|]; reflexivity.
  - destruct (Edge.saveUserMessageError env); reflexivity.
  - rewrite <- !app_assoc. reflexivity.
  - rewrite !existsb_app. simpl. apply orb_true_r.
  - rewrite !existsb_app. simpl.
    rewrite (idle_no_assistant_insert evs Hidle).
    destruct (Edge.saveUserMessageError env); reflexivity.
  - rewrite !existsb_app. simpl.
    rewrite (idle_no_ledger_update evs Hidle).
    destruct (Edge.saveUserMessageError env); reflexivity.
Qed.

Lemma provider_failure_keeps_user_turn_witness :
  exists e evs,
    fst (Edge.serve Sample.silent (Sample.request "Hi" false) Sample.streakWorld)
    = {| Edge.status := 500; Edge.payload := Edge.BodyError e |}
    /\ ProviderError e
    /\ Store.messages (Edge.store (snd (Edge.serve Sample.silent
         (Sample.request "Hi" false) Sample.streakWorld)))
       = Store.messages (Edge.store Sample.streakWorld)
         ++ (if Edge.saveUserMessageError Sample.silent then []
             else [Edge.userTurn Sample.silent "u1" "c1" (JS.utf16 "Hi")])
    /\ Store.user_points (Edge.store (snd (Edge.serve Sample.silent
         (Sample.request "Hi" false) Sample.streakWorld)))
       = Store.user_points (Edge.store Sample.streakWorld)
    /\ Edge.trace (snd (Edge.serve Sample.silent (Sample.request "Hi" false)
                          Sample.streakWorld))
       = Edge.trace Sample.streakWorld ++ evs
    /\ existsb isProviderCall evs = true
    /\ existsb isAssistantInsert evs = false
    /\ existsb isLedgerUpdate evs = false.
Proof.
  apply (provider_failure_keeps_user_turn Sample.silent (Sample.request "Hi" false)
           Sample.streakWorld "u1" "c1" "technical" (JS.utf16 "Hi") false).
  - discriminate.
  - reflexivity.
  - reflexivity.
  - reflexivity.
  - simpl. right. reflexivity.
Defined.

(** ** Boost without balance *)

(** The provider's answer either starts with a text or it does not. *)
Lemma provider_answer_dec (env : Edge.Env) :
  (exists d a rest, Edge.gemini env = Edge.FetchResponse true (Some d)
                    /\ Edge.candidates d = Some (Edge.Text a :: rest))
  \/ (forall d a rest, Edge.gemini env = Edge.FetchResponse true (Some d) ->
                       Edge.candidates d <> Some (Edge.Text a :: rest)).
Proof.
  destruct (Edge.gemini env) as [m|[|] [d|]]; try (right; intros; discriminate).
  destruct (Edge.candidates d) as [[|[t|] l]|] eqn:Hd.
  - right. intros d' a r' [= <-]. rewrite Hd. discriminate.
  - left. eauto.
  - right. intros d' a r' [= <-]. rewrite Hd. discriminate.
  - right. intros d' a r' [= <-]. rewrite Hd. discriminate.
Qed.

(** An accepted request always reaches the provider. *)
Lemma accepted_calls_provider (env : Edge.Env) (req : Edge.Request) (w : Edge.World)
    (user cid style : string) (msg : JS.jsstring) (boost : bool) :
  Edge.method req <> "OPTIONS" ->
  userOf env req = Some user ->
  chatOf req = Some (msg, cid, style, boost) ->
  Edge.messagesError env = false ->
  exists evs,
    Edge.trace (snd (Edge.serve env req w)) = Edge.trace w ++ evs
    /\ In (providerCall cid msg style boost w) evs.
Proof.
  intros Ho Hu Hc Hm.
  destruct (provider_answer_dec env) as [(d & a & rest & Hg & Hd) | Hno].
  - destruct (handle_success env req w user msg cid style boost d a rest Hu Hc Hm Hg Hd)
      as (p & w2 & Hr & Hh).
    rewrite (serve_return env req w _ _ Ho Hh). simpl.
    destruct (reward_cases env user boost
                (logged [providerCall cid msg style boost w]
                   (afterUserTurn env req user cid msg w)))
      as [[_ Hr'] | (r & _ & _ & Hr')]; cbv zeta in Hr'; rewrite Hr' in Hr;
      injection Hr as _ <-; simpl; rewrite <- !app_assoc;
      (eexists; split; [reflexivity|]);
      rewrite !in_app_iff; right; left; left; reflexivity.
  - destruct (handle_no_answer env req w user msg cid style boost Hu Hc Hm Hno)
      as (e & evs & Hh & _).
    rewrite (serve_throw env req w e _ Ho Hh). simpl. rewrite <- !app_assoc.
    eexists; split; [reflexivity|].
    rewrite !in_app_iff. right. left. left. reflexivity.
Qed.

(** C2.  Whenever a boosted request is accepted for a user whose ledger row
    holds fewer than 10 points, the provider is called all the same, with
    the boosted token limit; and when it answers with a text the request
    succeeds with status 200, the ledger update charges the 10 points to
    [points_spent], and the balance written is
    [max(0, total_points + pointsAwarded - 10)]: never negative, and 0
    whenever the sum is below zero. *)
Theorem boost_without_balance_is_served (env : Edge.Env) (req : Edge.Request)
    (w : Edge.World) (user cid style : string) (msg : JS.jsstring)
    (userPoints : UserPoints.t) :
  Edge.method req <> "OPTIONS" ->
  userOf env req = Some user ->
  chatOf req = Some (msg, cid, style, true) ->
  Edge.messagesError env = false ->
  Edge.userPointsError env = false ->
  Store.user_points (Edge.store w) !! user = Some userPoints ->
  UserPoints.total_points userPoints < 10 ->
  (exists evs contents,
     Edge.trace (snd (Edge.serve env req w)) = Edge.trace w ++ evs
     /\ In (Edge.FetchGemini contents 4096) evs)
  /\ forall d aiResponse rest,
       Edge.gemini env = Edge.FetchResponse true (Some d) ->
       Edge.candidates d = Some (Edge.Text aiResponse :: rest) ->
       exists p row evs,
         fst (Edge.serve env req w) = reply env d aiResponse p
         /\ Edge.trace (snd (Edge.serve env req w)) = Edge.trace w ++ evs
         /\ In (Edge.UpdateUserPoints user row) evs
         /\ UserPoints.total_points row
            = Z.max 0 (UserPoints.total_points userPoints + p - 10)
         /\ 0 <= UserPoints.total_points row
         /\ (UserPoints.total_points userPoints + p <= 10 ->
             UserPoints.total_points row = 0)
         /\ UserPoints.points_spent row = UserPoints.points_spent userPoints + 10
         /\ (Edge.updateUserPointsError env = false ->
             Store.user_points (Edge.store (snd (Edge.serve env req w))) !! user
             = Some row).
Proof.
  intros Ho Hu Hc Hm He Hrow Hlt. split.
  - destruct (accepted_calls_provider env req w user cid style msg true Ho Hu Hc Hm)
      as (evs & Ht & Hin).
    exists evs. eexists. split; [exact Ht | exact Hin].
  - intros d aiResponse rest Hg Hd.
    destruct (handle_success env req w user msg cid style true d aiResponse rest
                Hu Hc Hm Hg Hd) as (p & w2 & Hr & Hh).
    rewrite (serve_return env req w _ _ Ho Hh). simpl.
    assert (Hrow1 : Store.user_points
                      (Edge.store (logged [providerCall cid msg style true w]
                                     (afterUserTurn env req user cid msg w))) !! user
                    = Some userPoints).
    { simpl. change (Store.user_points
                       (Edge.store (afterUserTurn env req user cid msg w)) !! user
                     = Some userPoints).
      rewrite afterUserTurn_user_points. exact Hrow. }
    pose proof (reward_row env user true _ userPoints He Hrow1) as Hrr.
    pose proof (computeReward_total userPoints (Edge.today env) (Edge.yesterdayStr env) true)
      as Htot.
    pose proof (computeReward_spent userPoints (Edge.today env) (Edge.yesterdayStr env) true)
      as Hsp.
    destruct (Edge.computeReward userPoints (Edge.today env) (Edge.yesterdayStr env) true)
      as [p0 row] eqn:Hcr.
    rewrite Hrr in Hr. injection Hr as <- <-. simpl in Htot, Hsp.
    exists p0, row. eexists. repeat split.
    + simpl. rewrite <- !app_assoc. reflexivity.
    + rewrite !in_app_iff. right. right. left. right. left. reflexivity.
    + exact Htot.
    + rewrite Htot. lia.
    + rewrite Htot. lia.
    + exact Hsp.
    + intros Hup. rewrite Hup.
      destruct (Edge.saveAssistantMessageError env), (Edge.saveUserMessageError env);
        simpl; rewrite lookup_alter_eq; simpl; rewrite Hrow; reflexivity.
Qed.

Lemma boost_without_balance_is_served_witness :
  (exists evs contents,
     Edge.trace (snd (Edge.serve Sample.morning (Sample.request "Hi" true)
                        Sample.poorWorld))
     = Edge.trace Sample.poorWorld ++ evs
     /\ In (Edge.FetchGemini contents 4096) evs)
  /\ forall d aiResponse rest,
       Edge.gemini Sample.morning = Edge.FetchResponse true (Some d) ->
       Edge.candidates d = Some (Edge.Text aiResponse :: rest) ->
       exists p row evs,
         fst (Edge.serve Sample.morning (Sample.request "Hi" true) Sample.poorWorld)
         = reply Sample.morning d aiResponse p
         /\ Edge.trace (snd (Edge.serve Sample.morning (Sample.request "Hi" true)
                               Sample.poorWorld))
            = Edge.trace Sample.poorWorld ++ evs
         /\ In (Edge.UpdateUserPoints "u1" row) evs
         /\ UserPoints.total_points row
            = Z.max 0 (UserPoints.total_points (Sample.row 3 4 (Some "2024-03-10")) + p - 10)
         /\ 0 <= UserPoints.total_points row
         /\ (UserPoints.total_points (Sample.row 3 4 (Some "2024-03-10")) + p <= 10 ->
             UserPoints.total_points row = 0)
         /\ UserPoints.points_spent row
            = UserPoints.points_spent (Sample.row 3 4 (Some "2024-03-10")) + 10
         /\ (Edge.updateUserPointsError Sample.morning = false ->
             Store.user_points
               (Edge.store (snd (Edge.serve Sample.morning (Sample.request "Hi" true)
                                   Sample.poorWorld))) !! "u1"
             = Some row).
Proof.
  apply (boost_without_balance_is_served Sample.morning (Sample.request "Hi" true)
           Sample.poorWorld "u1" "c1" "technical" (JS.utf16 "Hi")
           (Sample.row 3 4 (Some "2024-03-10"))).
  - discriminate.
  - reflexivity.
  - reflexivity.
  - reflexivity.
  - reflexivity.
  - vm_compute. reflexivity.
  - simpl. lia.
Defined.

(** The scenario of the specification: a boosted request in the technical
    style from a user with 3 points is answered; afterwards the balance is 0
    and 10 points are counted as spent. *)
Example boost_with_three_points :
  fst (Edge.serve Sample.morning (Sample.request "Hi" true) Sample.poorWorld)
  = {| Edge.status := 200; Edge.payload := Edge.BodyOk (JS.utf16 "hello") 12 850 6 |}
  /\ Store.user_points
       (Edge.store (snd (Edge.serve Sample.morning (Sample.request "Hi" true)
                           Sample.poorWorld))) !! "u1"
     = Some {| UserPoints.total_points := 0; UserPoints.points_spent := 10;
               UserPoints.current_streak := 5;
               UserPoints.last_activity_date := Some "2024-03-11" |}.
Proof. vm_compute. split; reflexivity. Qed.

(** ** The ledger never goes negative *)

(** What a request does to the ledger: nothing, or the row of the user is
    replaced by the row of [computeReward]. *)
Lemma serve_ledger (env : Edge.Env) (req : Edge.Request) (w : Edge.World) :
  Store.user_points (Edge.store (snd (Edge.serve env req w)))
  = Store.user_points (Edge.store w)
  \/ exists user userPoints boost,
       Store.user_points (Edge.store w) !! user = Some userPoints
       /\ Store.user_points (Edge.store (snd (Edge.serve env req w)))
          = alter (fun _ => snd (Edge.computeReward userPoints (Edge.today env)
                                   (Edge.yesterdayStr env) boost))
              user (Store.user_points (Edge.store w)).
Proof.
  destruct (decide (Edge.method req = "OPTIONS")) as [Ho|Ho].
  { rewrite (serve_options env req w Ho). left. reflexivity. }
  destruct (userOf env req) as [user|] eqn:Hu.
  2:{ destruct (handle_rejected env req w) as (e & evs & Hh & _); [auto|].
      rewrite (serve_throw env req w e _ Ho Hh). left. reflexivity. }
  destruct (chatOf req) as [[[[msg cid] style] boost]|] eqn:Hc.
  2:{ destruct (handle_rejected env req w) as (e & evs & Hh & _); [auto|].
      rewrite (serve_throw env req w e _ Ho Hh). left. reflexivity. }
  destruct (Edge.messagesError env) eqn:Hm.
  { destruct (handle_rejected env req w) as (e & evs & Hh & _); [auto|].
    rewrite (serve_throw env req w e _ Ho Hh). left. reflexivity. }
  destruct (provider_answer_dec env) as [(d & a & rest & Hg & Hd) | Hno].
  - destruct (handle_success env req w user msg cid style boost d a rest Hu Hc Hm Hg Hd)
      as (p & w2 & Hr & Hh).
    rewrite (serve_return env req w _ _ Ho Hh).
    cbn [snd]. rewrite afterAssistantTurn_user_points.
    destruct (reward_cases env user boost
                (logged [providerCall cid msg style boost w]
                   (afterUserTurn env req user cid msg w)))
      as [[_ Hr'] | (r & _ & Hrow & Hr')]; cbv zeta in Hr'; rewrite Hr' in Hr;
      injection Hr as _ <-.
    + left. exact (afterUserTurn_user_points env req user cid msg w).
    + assert (Hrow0 : Store.user_points (Edge.store w) !! user = Some r).
      { rewrite <- (afterUserTurn_user_points env req user cid msg w). exact Hrow. }
      cbn [Edge.store].
      destruct (Edge.updateUserPointsError env).
      * left. exact (afterUserTurn_user_points env req user cid msg w).
      * right. exists user, r, boost. split; [exact Hrow0|].
        cbn [Store.updateUserPoints Store.user_points].
        f_equal. exact (afterUserTurn_user_points env req user cid msg w).
  - destruct (handle_no_answer env req w user msg cid style boost Hu Hc Hm Hno)
      as (e & evs & Hh & _).
    rewrite (serve_throw env req w e _ Ho Hh). left.
    exact (afterUserTurn_user_points env req user cid msg w).
Qed.

(** What a purchase does to the ledger: nothing, or the balance of the
    user's row becomes the cached balance less the cost, which the guard
    has found to be at most the cached balance. *)
Lemma purchaseItem_ledger purchaseError updateError itemType itemName cost
    (st : PointsDisplay.State) (s : Store.t) :
  Store.user_points
    (snd (fst (PointsDisplay.purchaseItem purchaseError updateError itemType itemName
                 cost st s)))
  = Store.user_points s
  \/ exists uid cached,
       cost <= UserPoints.total_points cached
       /\ Store.user_points
            (snd (fst (PointsDisplay.purchaseItem purchaseError updateError itemType
                         itemName cost st s)))
          = alter
              (fun row =>
                 {| UserPoints.total_points := UserPoints.total_points cached - cost;
                    UserPoints.points_spent := UserPoints.points_spent cached + cost;
                    UserPoints.current_streak := UserPoints.current_streak row;
                    UserPoints.last_activity_date := UserPoints.last_activity_date row |})
              uid (Store.user_points s).
Proof.
  unfold PointsDisplay.purchaseItem.
  destruct (PointsDisplay.user st) as [uid|]; [|left; reflexivity].
  destruct (PointsDisplay.userPoints st) as [cached|]; [|left; reflexivity].
  destruct (UserPoints.total_points cached <? cost) eqn:Hlt; [left; reflexivity|].
  destruct purchaseError; [left; reflexivity|].
  destruct updateError; [left; reflexivity|].
  right. exists uid, cached. split; [|reflexivity].
  apply Z.ltb_ge in Hlt. exact Hlt.
Qed.

(** A row that a step changed has a balance of at least zero. *)
Lemma step_changed_row (a : System.Action) (sys : System.t) (uid : string)
    (row : UserPoints.t) :
  Store.user_points (Edge.store (System.world (System.step a sys))) !! uid = Some row ->
  Store.user_points (Edge.store (System.world sys)) !! uid = Some row
  \/ 0 <= UserPoints.total_points row.
Proof.
  destruct a as [env req | session user error
                | session purchaseError updateError itemType itemName cost]; simpl.
  - destruct (serve_ledger env req (System.world sys)) as [-> | (u & r & b & Hr & ->)];
      [auto|].
    rewrite lookup_alter. case_decide as Hd; [|auto].
    subst u. rewrite Hr. simpl. intros [= <-]. right.
    rewrite computeReward_total. lia.
  - auto.
  - destruct (System.displays sys !! session) as [st|]; [|auto].
    pose proof (purchaseItem_ledger purchaseError updateError itemType itemName cost st
                  (Edge.store (System.world sys))) as H.
    destruct (PointsDisplay.purchaseItem purchaseError updateError itemType itemName
                cost st (Edge.store (System.world sys))) as [[st' s'] toasts].
    simpl in H |- *.
    destruct H as [-> | (u & cached & Hle & ->)]; [auto|].
    rewrite lookup_alter. case_decide as Hd; [|auto].
    destruct (Store.user_points (Edge.store (System.world sys)) !! u) as [old|];
      simpl; [|discriminate].
    intros [= <-]. right. simpl. lia.
Qed.

Lemma step_ledgerNonNegative (a : System.Action) (sys : System.t) :
  ledgerNonNegative (Edge.store (System.world sys)) ->
  ledgerNonNegative (Edge.store (System.world (System.step a sys))).
Proof.
  unfold ledgerNonNegative. intros H uid row Hrow.
  destruct (step_changed_row a sys uid row Hrow) as [Hold | Hge]; [|exact Hge].
  exact (H uid row Hold).
Qed.

(** C1.  The balance the orchestrator writes is
    [max(0, total_points + pointsAwarded - pointsCost)]; whatever the state
    before, a ledger row that a request to the orchestrator or a shop
    purchase has changed holds a balance of at least zero; and so, from a
    ledger without negative balances, no sequence of requests, boosts and
    purchases leads to one. *)
Theorem total_points_never_negative :
  (forall env uid boost w userPoints,
     Edge.userPointsError env = false ->
     Store.user_points (Edge.store w) !! uid = Some userPoints ->
     exists p row w',
       Edge.reward env uid boost w = (Edge.Return p, w')
       /\ Edge.trace w'
          = Edge.trace w ++ [Edge.SelectUserPoints uid; Edge.UpdateUserPoints uid row]
       /\ UserPoints.total_points row
          = Z.max 0 (UserPoints.total_points userPoints + p - Edge.pointsCost boost)
       /\ (Edge.updateUserPointsError env = false ->
           Store.user_points (Edge.store w') !! uid = Some row))
  /\ (forall a sys uid row,
        Store.user_points (Edge.store (System.world (System.step a sys))) !! uid = Some row ->
        Store.user_points (Edge.store (System.world sys)) !! uid = Some row
        \/ 0 <= UserPoints.total_points row)
  /\ (forall actions sys,
        ledgerNonNegative (Edge.store (System.world sys)) ->
        ledgerNonNegative (Edge.store (System.world (System.run actions sys)))).
Proof.
  split; [|split].
  - intros env uid boost w userPoints He Hrow.
    pose proof (reward_row env uid boost w userPoints He Hrow) as Hr.
    pose proof (computeReward_total userPoints (Edge.today env) (Edge.yesterdayStr env)
                  boost) as Htot.
    destruct (Edge.computeReward userPoints (Edge.today env) (Edge.yesterdayStr env) boost)
      as [p row].
    exists p, row. eexists. split; [exact Hr|]. split; [reflexivity|].
    split; [exact Htot|].
    intros Hu. cbn [Edge.store]. rewrite Hu. cbn [Store.updateUserPoints Store.user_points].
    rewrite lookup_alter_eq, Hrow. reflexivity.
  - exact step_changed_row.
  - intros actions. unfold System.run.
    induction actions as [|a actions IH]; intros sys H; simpl; [exact H|].
    apply IH, step_ledgerNonNegative, H.
Qed.

Lemma total_points_never_negative_witness :
  ledgerNonNegative
    (Edge.store (System.world (System.run
       [System.Mount 0 "u1" false;
        System.Request Sample.morning (Sample.request "Hi" true);
        System.Purchase 0 false false "boost" "Response Boost" 10;
        System.Purchase 0 false false "style_pack" "Creative" 5]
       {| System.world := Sample.streakWorld; System.displays := ∅ |}))).
Proof.
  apply (proj2 (proj2 total_points_never_negative)).
  apply map_Forall_singleton. simpl. lia.
Defined.

(** In that run the boosted request leaves 3 points in the store, and the
    purchase made from the balance cached before it writes 7 - 5 = 2. *)
Example ledger_after_stale_purchase :
  Store.user_points
    (Edge.store (System.world (System.run
       [System.Mount 0 "u1" false;
        System.Request Sample.morning (Sample.request "Hi" true);
        System.Purchase 0 false false "boost" "Response Boost" 10;
        System.Purchase 0 false false "style_pack" "Creative" 5]
       {| System.world := Sample.streakWorld; System.displays := ∅ |}))) !! "u1"
  = Some {| UserPoints.total_points := 2; UserPoints.points_spent := 5;
            UserPoints.current_streak := 5;
            UserPoints.last_activity_date := Some "2024-03-11" |}.
Proof. vm_compute. reflexivity. Qed.

(** ** The title of a conversation *)

Lemma substring_prefix (s : JS.jsstring) (n : Z) :
  0 <= n <= JS.length s -> JS.substring s 0 n = firstn (Z.to_nat n) s.
Proof.
  intros H. unfold JS.substring, JS.clamp. unfold JS.length in *.
  replace (Z.min (Z.max 0 0) (Z.of_nat (List.length s))) with 0 by lia.
  replace (Z.min (Z.max n 0) (Z.of_nat (List.length s))) with n by lia.
  replace (Z.min 0 n) with 0 by lia. replace (Z.max 0 n) with n by lia.
  rewrite Z.sub_0_r. reflexivity.
Qed.

Lemma titleOf_short (userMessage : JS.jsstring) :
  JS.length userMessage <= 50 -> ChatInterface.titleOf userMessage = userMessage.
Proof.
  intros H. unfold ChatInterface.titleOf.
  destruct (50 <? JS.length userMessage) eqn:E; [apply Z.ltb_lt in E; lia | reflexivity].
Qed.

Lemma titleOf_long (userMessage : JS.jsstring) :
  50 < JS.length userMessage ->
  ChatInterface.titleOf userMessage = firstn 47 userMessage ++ JS.utf16 "..."
  /\ JS.length (ChatInterface.titleOf userMessage) = 50.
Proof.
  intros H. unfold ChatInterface.titleOf.
  apply Z.ltb_lt in H as E. rewrite E.
  rewrite substring_prefix by lia. change (Z.to_nat 47) with 47%nat.
  split; [reflexivity|].
  unfold JS.length in *. rewrite length_app, length_firstn.
  change (List.length (JS.utf16 "...")) with 3%nat. lia.
Qed.

(** The title [sendMessage] hands to [onUpdateTitle], if any, is [titleOf]
    of the trimmed input. *)
Lemma sendMessage_title env p st w title :
  In (ChatInterface.OnUpdateTitle title) (snd (ChatInterface.sendMessage env p st w)) ->
  ChatInterface.messages st = []
  /\ title = ChatInterface.titleOf (JS.trim (ChatInterface.inputMessage st)).
Proof.
  unfold ChatInterface.sendMessage.
  destruct (JS.trim (ChatInterface.inputMessage st)) as [|c userMessage]; [intros []|].
  destruct (ChatInterface.loading st); [intros []|].
  destruct (ChatInterface.user p); [|intros []].
  destruct (invoke env (ChatInterface.token p) _ w) as [[data|] w']; simpl.
  - destruct (ChatInterface.messages st) as [|m ms]; simpl.
    + intros [[= <-] | Hin]; [auto|].
      destruct data as [| r t rt pts |]; try destruct Hin.
      destruct (1 <? pts); simpl in Hin; [destruct Hin as [Hin|[]]|destruct Hin].
      discriminate.
    + intros Hin. exfalso.
      destruct data as [| r t rt pts |]; try destruct Hin.
      destruct (1 <? pts); simpl in Hin; [destruct Hin as [Hin|[]]|destruct Hin].
      discriminate.
  - intros [Hin|[]]. discriminate.
Qed.

(** C8.  When [sendMessage] is called on a conversation without messages,
    a title it sets is the trimmed message itself when that has at most 50
    code units, and otherwise its first 47 code units followed by three
    dots, 50 code units in all; and it does set this title whenever the
    call to the edge function succeeds, in the store too when the store
    takes the update. *)
Theorem first_message_title (env : Edge.Env) (p : ChatInterface.Props)
    (st : ChatInterface.State) (w : Edge.World) :
  ChatInterface.messages st = [] ->
  let userMessage := JS.trim (ChatInterface.inputMessage st) in
  (forall title,
     In (ChatInterface.OnUpdateTitle title)
        (snd (ChatInterface.sendMessage env p st w)) ->
     (JS.length userMessage <= 50 -> title = userMessage)
     /\ (50 < JS.length userMessage ->
         title = firstn 47 userMessage ++ JS.utf16 "..." /\ JS.length title = 50))
  /\ (forall data w1,
        userMessage <> [] ->
        ChatInterface.loading st = false ->
        ChatInterface.user p <> None ->
        invoke env (ChatInterface.token p)
          (ChatInterface.chatRequest p st userMessage) w = (Some data, w1) ->
        In (ChatInterface.OnUpdateTitle (ChatInterface.titleOf userMessage))
           (snd (ChatInterface.sendMessage env p st w))
        /\ (ChatInterface.updateTitleError p = false ->
            forall c,
              Store.conversations
                (Edge.store (snd (fst (ChatInterface.sendMessage env p st w))))
                !! ChatInterface.conversationId p = Some c ->
              Conversation.title c = ChatInterface.titleOf userMessage)).
Proof.
  intros Hfirst userMessage. split.
  - intros title Hin.
    destruct (sendMessage_title env p st w title Hin) as [_ ->].
    fold userMessage. split.
    + apply titleOf_short.
    + apply titleOf_long.
  - intros data w1 Hne Hl Hu Hinv.
    unfold ChatInterface.sendMessage. fold userMessage.
    destruct userMessage as [|c m] eqn:Hm; [contradiction|].
    rewrite Hl. destruct (ChatInterface.user p) as [u|]; [|contradiction].
    change (ChatInterface.chatRequest p _ (c :: m))
      with (ChatInterface.chatRequest p st (c :: m)).
    rewrite Hinv, Hfirst. simpl. split; [left; reflexivity|].
    intros He cv. unfold ChatInterface.updateConversationTitle. rewrite He. simpl.
    rewrite lookup_alter_eq.
    destruct (Store.conversations (Edge.store w1) !! ChatInterface.conversationId p);
      simpl; [|discriminate].
    intros [= <-]. reflexivity.
Qed.

Lemma first_message_title_witness :
  let userMessage :=
    JS.trim (ChatInterface.inputMessage
               (Sample.chat []
                  " The quick brown fox jumps over the lazy dog and keeps running far ")) in
  (forall title,
     In (ChatInterface.OnUpdateTitle title)
        (snd (ChatInterface.sendMessage Sample.morning Sample.props
                (Sample.chat []
                   " The quick brown fox jumps over the lazy dog and keeps running far ")
                Sample.streakWorld)) ->
     (JS.length userMessage <= 50 -> title = userMessage)
     /\ (50 < JS.length userMessage ->
         title = firstn 47 userMessage ++ JS.utf16 "..." /\ JS.length title = 50))
  /\ (forall data w1,
        userMessage <> [] ->
        ChatInterface.loading
          (Sample.chat []
             " The quick brown fox jumps over the lazy dog and keeps running far ") = false ->
        ChatInterface.user Sample.props <> None ->
        invoke Sample.morning (ChatInterface.token Sample.props)
          (ChatInterface.chatRequest Sample.props
             (Sample.chat []
                " The quick brown fox jumps over the lazy dog and keeps running far ")
             userMessage) Sample.streakWorld = (Some data, w1) ->
        In (ChatInterface.OnUpdateTitle (ChatInterface.titleOf userMessage))
           (snd (ChatInterface.sendMessage Sample.morning Sample.props
                   (Sample.chat []
                      " The quick brown fox jumps over the lazy dog and keeps running far ")
                   Sample.streakWorld))
        /\ (ChatInterface.updateTitleError Sample.props = false ->
            forall c,
              Store.conversations
                (Edge.store (snd (fst (ChatInterface.sendMessage Sample.morning Sample.props
                   (Sample.chat []
                      " The quick brown fox jumps over the lazy dog and keeps running far ")
                   Sample.streakWorld))))
                !! ChatInterface.conversationId Sample.props = Some c ->
              Conversation.title c = ChatInterface.titleOf userMessage)).
Proof.
  apply (first_message_title Sample.morning Sample.props
           (Sample.chat []
              " The quick brown fox jumps over the lazy dog and keeps running far ")
           Sample.streakWorld).
  reflexivity.
Defined.

(** A first message of 65 code units (67 before trimming): the title set,
    in the store too, is its first 47 code units and three dots. *)
Example title_of_long_message :
  snd (ChatInterface.sendMessage Sample.morning Sample.props
         (Sample.chat []
            " The quick brown fox jumps over the lazy dog and keeps running far ")
         Sample.streakWorld)
  = [ChatInterface.OnUpdateTitle
       (JS.utf16 "The quick brown fox jumps over the lazy dog and...");
     ChatInterface.ShowToast (ChatInterface.StreakBonus 6)]
  /\ Conversation.title
       <$> Store.conversations
             (Edge.store (snd (fst (ChatInterface.sendMessage Sample.morning Sample.props
                (Sample.chat []
                   " The quick brown fox jumps over the lazy dog and keeps running far ")
                Sample.streakWorld)))) !! "c1"
     = Some (JS.utf16 "The quick brown fox jumps over the lazy dog and...").
Proof. vm_compute. split; reflexivity. Qed.

Example title_of_short_message :
  ChatInterface.titleOf (JS.utf16 "Hello") = JS.utf16 "Hello".
Proof. reflexivity. Qed.

(** ** Regeneration *)

Lemma removeFirst_Bearer (token : string) :
  JS.removeFirst "Bearer " ("Bearer " +:+ token) = token.
Proof. reflexivity. Qed.

(** The reward block leaves [messages] as it is. *)
Lemma reward_messages (env : Edge.Env) (uid : string) (boost : bool) (w : Edge.World) :
  Store.messages (Edge.store (snd (Edge.reward env uid boost w)))
  = Store.messages (Edge.store w).
Proof.
  destruct (reward_cases env uid boost w) as [[_ H] | (r & _ & _ & H)];
    cbv zeta in H; rewrite H; simpl; [reflexivity|].
  destruct (Edge.updateUserPointsError env); reflexivity.
Qed.

(** What an accepted request adds to [messages]: its user turn, when the
    store takes it, and then at most one assistant turn. *)
Lemma serve_messages_accepted (env : Edge.Env) (req : Edge.Request) (w : Edge.World)
    (user cid style : string) (msg : JS.jsstring) (boost : bool) :
  Edge.method req <> "OPTIONS" ->
  userOf env req = Some user ->
  chatOf req = Some (msg, cid, style, boost) ->
  Edge.messagesError env = false ->
  exists rest,
    Store.messages (Edge.store (snd (Edge.serve env req w)))
    = Store.messages (Edge.store w)
      ++ (if Edge.saveUserMessageError env then [] else [Edge.userTurn env user cid msg])
      ++ rest
    /\ (rest = [] \/ exists a, rest = [a] /\ Message.role a = Message.assistant).
Proof.
  intros Ho Hu Hc Hm.
  destruct (provider_answer_dec env) as [(d & a & rest & Hg & Hd) | Hno].
  - destruct (handle_success env req w user msg cid style boost d a rest Hu Hc Hm Hg Hd)
      as (p & w2 & Hr & Hh).
    rewrite (serve_return env req w _ _ Ho Hh). cbn [snd].
    pose proof (reward_messages env user boost
                  (logged [providerCall cid msg style boost w]
                     (afterUserTurn env req user cid msg w))) as Hmsgs.
    rewrite Hr in Hmsgs. cbn [snd] in Hmsgs.
    unfold afterAssistantTurn. cbn [Edge.store].
    destruct (Edge.saveAssistantMessageError env).
    + exists []. split; [|auto]. rewrite Hmsgs. simpl.
      destruct (Edge.saveUserMessageError env); simpl; rewrite ?app_nil_r; reflexivity.
    + eexists [_]. split.
      * cbn [Store.insertMessage Store.messages]. rewrite Hmsgs. simpl.
        destruct (Edge.saveUserMessageError env); simpl;
          rewrite <- ?app_assoc; reflexivity.
      * right. eexists. split; reflexivity.
  - destruct (handle_no_answer env req w user msg cid style boost Hu Hc Hm Hno)
      as (e & evs & Hh & _).
    rewrite (serve_throw env req w e _ Ho Hh). simpl.
    exists []. split; [|auto].
    destruct (Edge.saveUserMessageError env); simpl; rewrite ?app_nil_r; reflexivity.
Qed.

(** The world after [regenerateResponse] has called the edge function is
    the world after that call: the component itself writes nothing. *)
Lemma regenerateResponse_world env p i st w userMessage :
  ChatInterface.loading st = false ->
  List.nth_error (ChatInterface.messages st) i = Some userMessage ->
  ChatInterface.role userMessage = Message.user ->
  snd (fst (ChatInterface.regenerateResponse env p (S i) st w))
  = snd (invoke env (ChatInterface.token p)
           (ChatInterface.chatRequest p st (ChatInterface.content userMessage)) w).
Proof.
  intros Hl Hn Hr. unfold ChatInterface.regenerateResponse. rewrite Hl, Hn, Hr.
  change (ChatInterface.chatRequest p (ChatInterface.setLoading true st)
            (ChatInterface.content userMessage))
    with (ChatInterface.chatRequest p st (ChatInterface.content userMessage)).
  destruct (invoke env (ChatInterface.token p) _ w) as [[data|] w']; reflexivity.
Qed.

(** C7, as the code has it.  A regeneration calls the edge function exactly
    as a new message does, with the content of the stored user message as
    [message]; so, for an accepted request, [messages] afterwards holds what
    it held before, then a new user turn with that same content (when the
    store takes the insert), then at most the new assistant turn. *)
Theorem regenerate_saves_user_turn_again (env : Edge.Env) (p : ChatInterface.Props)
    (i : nat) (st : ChatInterface.State) (w : Edge.World)
    (userMessage : ChatInterface.Message) (user : string) :
  ChatInterface.loading st = false ->
  List.nth_error (ChatInterface.messages st) i = Some userMessage ->
  ChatInterface.role userMessage = Message.user ->
  Edge.getUser env (ChatInterface.token p) = Some user ->
  ChatInterface.content userMessage <> [] ->
  ChatInterface.conversationId p <> "" ->
  Edge.messagesError env = false ->
  Edge.saveUserMessageError env = false ->
  snd (fst (ChatInterface.regenerateResponse env p (S i) st w))
  = snd (invoke env (ChatInterface.token p)
           (ChatInterface.chatRequest p st (ChatInterface.content userMessage)) w)
  /\ exists rest,
       Store.messages
         (Edge.store (snd (fst (ChatInterface.regenerateResponse env p (S i) st w))))
       = Store.messages (Edge.store w)
         ++ Edge.userTurn env user (ChatInterface.conversationId p)
              (ChatInterface.content userMessage)
            :: rest
       /\ (rest = [] \/ exists a, rest = [a] /\ Message.role a = Message.assistant).
Proof.
  intros Hl Hn Hr Hu Hc Hcid Hm Hs.
  pose proof (regenerateResponse_world env p i st w userMessage Hl Hn Hr) as Hw.
  split; [exact Hw|]. rewrite Hw. unfold invoke.
  set (req := {| Edge.method := "POST";
                 Edge.authorization := Some ("Bearer " +:+ ChatInterface.token p);
                 Edge.body := Some (ChatInterface.chatRequest p st
                                      (ChatInterface.content userMessage)) |}).
  destruct (ChatInterface.content userMessage) as [|c m] eqn:Ec; [contradiction|].
  destruct (ChatInterface.conversationId p) as [|a cid] eqn:Ei; [contradiction|].
  destruct (serve_messages_accepted env req w user (String a cid)
              (ChatInterface.style st) (c :: m) (ChatInterface.boost st))
    as (rest & Hmsgs & Hrest).
  - discriminate.
  - unfold userOf, req. cbn [Edge.authorization]. rewrite removeFirst_Bearer. exact Hu.
  - unfold chatOf, req, ChatInterface.chatRequest. cbn. rewrite ?Ec, ?Ei. reflexivity.
  - exact Hm.
  - rewrite Hs in Hmsgs. exists rest. split; [|exact Hrest].
    destruct (Edge.serve env req w) as [r w']. exact Hmsgs.
Qed.

Lemma regenerate_saves_user_turn_again_witness :
  snd (fst (ChatInterface.regenerateResponse Sample.morning Sample.props 1
              (Sample.chat Sample.exchange "") Sample.talkedWorld))
  = snd (invoke Sample.morning (ChatInterface.token Sample.props)
           (ChatInterface.chatRequest Sample.props (Sample.chat Sample.exchange "")
              (ChatInterface.content
                 (ChatInterface.ofRow (Sample.turn "m1" Message.user "Hi"))))
           Sample.talkedWorld)
  /\ exists rest,
       Store.messages
         (Edge.store (snd (fst (ChatInterface.regenerateResponse Sample.morning
            Sample.props 1 (Sample.chat Sample.exchange "") Sample.talkedWorld))))
       = Store.messages (Edge.store Sample.talkedWorld)
         ++ Edge.userTurn Sample.morning "u1" (ChatInterface.conversationId Sample.props)
              (ChatInterface.content
                 (ChatInterface.ofRow (Sample.turn "m1" Message.user "Hi")))
            :: rest
       /\ (rest = [] \/ exists a, rest = [a] /\ Message.role a = Message.assistant).
Proof.
  apply (regenerate_saves_user_turn_again Sample.morning Sample.props 0
           (Sample.chat Sample.exchange "") Sample.talkedWorld
           (ChatInterface.ofRow (Sample.turn "m1" Message.user "Hi")) "u1").
  - reflexivity.
  - reflexivity.
  - reflexivity.
  - reflexivity.
  - discriminate.
  - discriminate.
  - reflexivity.
  - reflexivity.
Defined.

(** C7, as stated, fails.  Conversation [c1] holds the user turn "Hi" and
    its answer; regenerating the answer leaves four rows in [messages], the
    third being a second user turn "Hi": the user turns of the store are not
    what they were. *)
Lemma regenerate_duplicates_user_turn :
  Store.messages
    (Edge.store (snd (fst (ChatInterface.regenerateResponse Sample.morning Sample.props 1
                             (Sample.chat Sample.exchange "") Sample.talkedWorld))))
  = [Sample.turn "m1" Message.user "Hi";
     Sample.turn "m2" Message.assistant "hello";
     Sample.turn "m3" Message.user "Hi";
     {| Message.id := "m4"; Message.conversation_id := "c1"; Message.user_id := "u1";
        Message.content := JS.utf16 "hello"; Message.role := Message.assistant;
        Message.tokens_used := Some 12; Message.response_time_ms := Some 850;
        Message.points_awarded := Some 6 |}]
  /\ ~ regenerationAddsNoUserTurn Sample.morning Sample.props 1
         (Sample.chat Sample.exchange "") Sample.talkedWorld.
Proof.
  split.
  - vm_compute. reflexivity.
  - unfold regenerationAddsNoUserTurn. vm_compute. discriminate.
Qed.

(** * Further properties of the code *)

(** ** Requests the handler turns away *)

(** X1.  A request that is not a preflight and is turned away before its
    user turn is saved (its token belongs to no user, its body lacks the
    message or the conversation id, or the history cannot be read) gets a
    reply with status 500 and an error text; the store is left exactly as it
    was, and the run neither wrote to the store nor called the provider. *)
Theorem rejected_request_changes_nothing (env : Edge.Env) (req : Edge.Request)
    (w : Edge.World) :
  Edge.method req <> "OPTIONS" ->
  userOf env req = None \/ chatOf req = None \/ Edge.messagesError env = true ->
  exists error evs,
    fst (Edge.serve env req w)
    = {| Edge.status := 500; Edge.payload := Edge.BodyError error |}
    /\ Edge.store (snd (Edge.serve env req w)) = Edge.store w
    /\ Edge.trace (snd (Edge.serve env req w)) = Edge.trace w ++ evs
    /\ idle evs.
Proof.
  intros Ho Hrej.
  destruct (handle_rejected env req w Hrej) as (e & evs & Hh & Hidle).
  rewrite (serve_throw env req w e _ Ho Hh).
  exists (Edge.errorMessage e), (evs ++ [Edge.ConsoleError "Error in chat-with-gemini function:"]).
  repeat split.
  - simpl. rewrite app_assoc. reflexivity.
  - unfold idle in *. rewrite forallb_app, Hidle. reflexivity.
Qed.

Lemma rejected_request_changes_nothing_witness :
  exists error evs,
    fst (Edge.serve Sample.morning Scenario.stranger Sample.streakWorld)
    = {| Edge.status := 500; Edge.payload := Edge.BodyError error |}
    /\ Edge.store (snd (Edge.serve Sample.morning Scenario.stranger Sample.streakWorld))
       = Edge.store Sample.streakWorld
    /\ Edge.trace (snd (Edge.serve Sample.morning Scenario.stranger Sample.streakWorld))
       = Edge.trace Sample.streakWorld ++ evs
    /\ idle evs.
Proof.
  apply (rejected_request_changes_nothing Sample.morning Scenario.stranger
           Sample.streakWorld).
  - discriminate.
  - left. reflexivity.
Defined.

(** X2.  The checks come in the order of the code.  An authorization
    header whose token belongs to no user gives the error [Unauthorized],
    whatever the body holds; for a signed-in user, a body without a message
    or without a conversation id gives [Message and conversation ID are
    required]; for a signed-in user and a complete body, a history that
    cannot be read gives [Failed to fetch conversation history]. *)
Theorem errors_in_order (env : Edge.Env) (req : Edge.Request) (w : Edge.World) :
  Edge.method req <> "OPTIONS" ->
  (forall h, Edge.authorization req = Some h ->
     Edge.getUser env (JS.removeFirst "Bearer " h) = None ->
     Edge.payload (fst (Edge.serve env req w)) = Edge.BodyError "Unauthorized")
  /\ (forall user chat, userOf env req = Some user ->
        Edge.body req = Some chat -> chatOf req = None ->
        Edge.payload (fst (Edge.serve env req w))
        = Edge.BodyError "Message and conversation ID are required")
  /\ (forall user, userOf env req = Some user -> chatOf req <> None ->
        Edge.messagesError env = true ->
        Edge.payload (fst (Edge.serve env req w))
        = Edge.BodyError "Failed to fetch conversation history").
Proof.
  intros Ho. unfold Edge.serve. rewrite bool_decide_eq_false_2 by exact Ho.
  split; [|split].
  - intros h Hh Hg.
    unfold Edge.handle, Edge.authenticate, Edge.bind, Edge.emit, Edge.ret, Edge.throw.
    rewrite Hh. simpl. rewrite Hg. reflexivity.
  - intros user chat Hu Hb Hc.
    unfold Edge.handle.
    rewrite (bind_run _ _ _ _ _ (authenticate_accepted env req w user Hu)).
    unfold Edge.bind at 1, Edge.readRequest, Edge.bind, Edge.ret, Edge.throw.
    unfold chatOf in Hc. rewrite Hb in Hc |- *. simpl.
    destruct (Edge.message chat) as [[|c m]|]; simpl; try reflexivity.
    destruct (Edge.conversationId chat) as [[|a cid]|]; simpl; try reflexivity.
    discriminate.
  - intros user Hu Hc Hm.
    destruct (chatOf req) as [[[[msg cid] style] boost]|] eqn:Ec; [|contradiction].
    unfold Edge.handle.
    rewrite (bind_run _ _ _ _ _ (authenticate_accepted env req w user Hu)).
    rewrite (bind_run _ _ _ _ _ (readRequest_accepted req _ _ Ec)).
    unfold Edge.bind at 1. rewrite (getHistory_rejected env _ cid Hm). reflexivity.
Qed.

Lemma errors_in_order_witness :
  (forall h, Edge.authorization Scenario.stranger = Some h ->
     Edge.getUser Sample.morning (JS.removeFirst "Bearer " h) = None ->
     Edge.payload (fst (Edge.serve Sample.morning Scenario.stranger Sample.streakWorld))
     = Edge.BodyError "Unauthorized")
  /\ (forall user chat, userOf Sample.morning Scenario.stranger = Some user ->
        Edge.body Scenario.stranger = Some chat -> chatOf Scenario.stranger = None ->
        Edge.payload (fst (Edge.serve Sample.morning Scenario.stranger Sample.streakWorld))
        = Edge.BodyError "Message and conversation ID are required")
  /\ (forall user, userOf Sample.morning Scenario.stranger = Some user ->
        chatOf Scenario.stranger <> None ->
        Edge.messagesError Sample.morning = true ->
        Edge.payload (fst (Edge.serve Sample.morning Scenario.stranger Sample.streakWorld))
        = Edge.BodyError "Failed to fetch conversation history").
Proof.
  apply (errors_in_order Sample.morning Scenario.stranger Sample.streakWorld).
  discriminate.
Defined.

(** ** What a request does to the store *)

(** The store after an accepted request, table by table. *)
Lemma serve_store_accepted (env : Edge.Env) (req : Edge.Request) (w : Edge.World)
    (user cid style : string) (msg : JS.jsstring) (boost : bool) :
  Edge.method req <> "OPTIONS" ->
  userOf env req = Some user ->
  chatOf req = Some (msg, cid, style, boost) ->
  Edge.messagesError env = false ->
  exists rest,
    Store.messages (Edge.store (snd (Edge.serve env req w)))
    = Store.messages (Edge.store w)
      ++ (if Edge.saveUserMessageError env then []
          else [Edge.userTurn env user cid msg])
      ++ rest
    /\ (rest = []
        \/ exists text tokens time p,
             rest = [Edge.assistantTurn env user cid text tokens time p])
    /\ Store.purchases (Edge.store (snd (Edge.serve env req w)))
       = Store.purchases (Edge.store w)
    /\ Store.conversations (Edge.store (snd (Edge.serve env req w)))
       = Store.conversations (Edge.store w)
    /\ (Store.user_points (Edge.store (snd (Edge.serve env req w)))
        = Store.user_points (Edge.store w)
        \/ exists r,
             Store.user_points (Edge.store w) !! user = Some r
             /\ Store.user_points (Edge.store (snd (Edge.serve env req w)))
                = alter (fun _ => snd (Edge.computeReward r (Edge.today env)
                                         (Edge.yesterdayStr env) boost))
                    user (Store.user_points (Edge.store w))).
Proof.
  intros Ho Hu Hc Hm.
  destruct (provider_answer_dec env) as [(d & a & cands & Hg & Hd) | Hno].
  - destruct (handle_success env req w user msg cid style boost d a cands Hu Hc Hm Hg Hd)
      as (p & w2 & Hr & Hh).
    rewrite (serve_return env req w _ _ Ho Hh). cbn [snd].
    exists (if Edge.saveAssistantMessageError env then []
            else [Edge.assistantTurn env user cid a (default 0 (Edge.totalTokenCount d))
                    (Edge.clockResponse env - Edge.clockStart env) p]).
    destruct (reward_cases env user boost
                (logged [providerCall cid msg style boost w]
                   (afterUserTurn env req user cid msg w)))
      as [[_ Hr'] | (r & _ & Hrow & Hr')]; cbv zeta in Hr'; rewrite Hr' in Hr;
      injection Hr as _ <-.
    + repeat split.
      * unfold afterAssistantTurn, afterUserTurn, logged. cbn.
        destruct (Edge.saveAssistantMessageError env), (Edge.saveUserMessageError env);
          cbn; rewrite ?app_nil_r, <- ?app_assoc; reflexivity.
      * destruct (Edge.saveAssistantMessageError env); [left; reflexivity|right; eauto].
      * unfold afterAssistantTurn, afterUserTurn, logged. cbn.
        destruct (Edge.saveAssistantMessageError env), (Edge.saveUserMessageError env);
          reflexivity.
      * unfold afterAssistantTurn, afterUserTurn, logged. cbn.
        destruct (Edge.saveAssistantMessageError env), (Edge.saveUserMessageError env);
          reflexivity.
      * left. unfold afterAssistantTurn, afterUserTurn, logged. cbn.
        destruct (Edge.saveAssistantMessageError env), (Edge.saveUserMessageError env);
          reflexivity.
    + assert (Hrow0 : Store.user_points (Edge.store w) !! user = Some r).
      { rewrite <- (afterUserTurn_user_points env req user cid msg w). exact Hrow. }
      repeat split.
      * unfold afterAssistantTurn, afterUserTurn, logged. cbn.
        destruct (Edge.saveAssistantMessageError env), (Edge.updateUserPointsError env),
          (Edge.saveUserMessageError env);
          cbn; rewrite ?app_nil_r, <- ?app_assoc; reflexivity.
      * destruct (Edge.saveAssistantMessageError env); [left; reflexivity|right; eauto].
      * unfold afterAssistantTurn, afterUserTurn, logged. cbn.
        destruct (Edge.saveAssistantMessageError env), (Edge.updateUserPointsError env),
          (Edge.saveUserMessageError env); reflexivity.
      * unfold afterAssistantTurn, afterUserTurn, logged. cbn.
        destruct (Edge.saveAssistantMessageError env), (Edge.updateUserPointsError env),
          (Edge.saveUserMessageError env); reflexivity.
      * unfold afterAssistantTurn, afterUserTurn, logged. cbn.
        destruct (Edge.updateUserPointsError env);
          [left | right; exists r; split; [exact Hrow0|]];
          destruct (Edge.saveAssistantMessageError env), (Edge.saveUserMessageError env);
          reflexivity.
  - destruct (handle_no_answer env req w user msg cid style boost Hu Hc Hm Hno)
      as (e & evs & Hh & _).
    rewrite (serve_throw env req w e _ Ho Hh).
    exists []. unfold afterUserTurn, logged. cbn.
    repeat split; try (left; reflexivity);
      destruct (Edge.saveUserMessageError env); cbn; rewrite ?app_nil_r; try reflexivity.
    all: left; reflexivity.
Qed.

(** A request that is a preflight or is turned away leaves the store as it is. *)
Lemma serve_store_rejected (env : Edge.Env) (req : Edge.Request) (w : Edge.World) :
  Edge.method req = "OPTIONS" \/ userOf env req = None \/ chatOf req = None
  \/ Edge.messagesError env = true ->
  Edge.store (snd (Edge.serve env req w)) = Edge.store w.
Proof.
  intros H.
  destruct (decide (Edge.method req = "OPTIONS")) as [Ho|Ho].
  { rewrite (serve_options env req w Ho). reflexivity. }
  destruct H as [H|H]; [contradiction|].
  destruct (handle_rejected env req w H) as (e & evs & Hh & _).
  rewrite (serve_throw env req w e _ Ho Hh). reflexivity.
Qed.

(** Every request is a preflight, is turned away, or is accepted. *)
Lemma request_cases (env : Edge.Env) (req : Edge.Request) :
  (Edge.method req = "OPTIONS" \/ userOf env req = None \/ chatOf req = None
   \/ Edge.messagesError env = true)
  \/ (Edge.method req <> "OPTIONS"
      /\ exists user msg cid style boost,
           userOf env req = Some user /\ chatOf req = Some (msg, cid, style, boost)
           /\ Edge.messagesError env = false).
Proof.
  destruct (decide (Edge.method req = "OPTIONS")) as [Ho|Ho]; [auto|].
  destruct (userOf env req) as [user|]; [|auto].
  destruct (chatOf req) as [[[[msg cid] style] boost]|]; [|auto].
  destruct (Edge.messagesError env); [auto|].
  right. split; [exact Ho|]. eauto 10.
Qed.

(** X3.  Whatever the request and whatever fails, a run of the handler only
    appends to [messages]: at most two rows, each with the authenticated
    user and the conversation id of the request; [purchases] and
    [conversations] are left as they are. *)
Theorem messages_only_grow (env : Edge.Env) (req : Edge.Request) (w : Edge.World) :
  exists added,
    Store.messages (Edge.store (snd (Edge.serve env req w)))
    = Store.messages (Edge.store w) ++ added
    /\ (List.length added <= 2)%nat
    /\ (forall m, In m added ->
          userOf env req = Some (Message.user_id m)
          /\ exists msg style boost,
               chatOf req = Some (msg, Message.conversation_id m, style, boost))
    /\ Store.purchases (Edge.store (snd (Edge.serve env req w)))
       = Store.purchases (Edge.store w)
    /\ Store.conversations (Edge.store (snd (Edge.serve env req w)))
       = Store.conversations (Edge.store w).
Proof.
  destruct (request_cases env req)
    as [Hrej | (Ho & user & msg & cid & style & boost & Hu & Hc & Hm)].
  - rewrite (serve_store_rejected env req w Hrej). exists [].
    rewrite app_nil_r. split; [reflexivity|]. split; [simpl; lia|].
    split; [intros m []|]. split; reflexivity.
  - destruct (serve_store_accepted env req w user cid style msg boost Ho Hu Hc Hm)
      as (rest & Hmsgs & Hrest & Hp & Hcv & _).
    eexists. split; [exact Hmsgs|]. split; [|split; [|split; assumption]].
    + rewrite length_app.
      destruct Hrest as [-> | (t & k & tm & p & ->)];
        destruct (Edge.saveUserMessageError env); simpl; lia.
    + intros m Hin. apply in_app_or in Hin.
      assert (Hm' : m = Edge.userTurn env user cid msg
                    \/ exists t k tm p, m = Edge.assistantTurn env user cid t k tm p).
      { destruct Hin as [Hin|Hin].
        - destruct (Edge.saveUserMessageError env); [destruct Hin|].
          destruct Hin as [<-|[]]. auto.
        - destruct Hrest as [-> | (t & k & tm & p0 & ->)]; [destruct Hin|].
          destruct Hin as [<-|[]]. right. eauto. }
      destruct Hm' as [-> | (t & k & tm & p & ->)]; simpl; split; eauto.
Qed.

(** X4.  A run of the handler neither adds nor removes a ledger row, and
    leaves the row of every user other than the authenticated one as it
    is. *)
Theorem ledger_of_others_untouched (env : Edge.Env) (req : Edge.Request)
    (w : Edge.World) :
  dom (Store.user_points (Edge.store (snd (Edge.serve env req w))))
  = dom (Store.user_points (Edge.store w))
  /\ forall uid,
       userOf env req <> Some uid ->
       Store.user_points (Edge.store (snd (Edge.serve env req w))) !! uid
       = Store.user_points (Edge.store w) !! uid.
Proof.
  destruct (request_cases env req)
    as [Hrej | (Ho & user & msg & cid & style & boost & Hu & Hc & Hm)].
  - rewrite (serve_store_rejected env req w Hrej). auto.
  - destruct (serve_store_accepted env req w user cid style msg boost Ho Hu Hc Hm)
      as (rest & _ & _ & _ & _ & [-> | (r & Hr & ->)]); [auto|].
    split.
    + apply dom_alter_L.
    + intros uid Hne. apply lookup_alter_ne. congruence.
Qed.

(** X5.  A run of the handler never lowers [points_spent].  A ledger row
    is either left as it is, or it is the row of the authenticated user: its
    [last_activity_date] is then today's date, and its [points_spent] has
    grown by 10 for a boosted request and by 0 otherwise. *)
Theorem request_never_refunds (env : Edge.Env) (req : Edge.Request) (w : Edge.World)
    (uid : string) (r r' : UserPoints.t) :
  Store.user_points (Edge.store w) !! uid = Some r ->
  Store.user_points (Edge.store (snd (Edge.serve env req w))) !! uid = Some r' ->
  UserPoints.points_spent r <= UserPoints.points_spent r'
  /\ (r' = r
      \/ (userOf env req = Some uid
          /\ UserPoints.last_activity_date r' = Some (Edge.today env)
          /\ exists boost,
               (exists msg cid style, chatOf req = Some (msg, cid, style, boost))
               /\ UserPoints.points_spent r'
                  = UserPoints.points_spent r + (if boost then 10 else 0))).
Proof.
  intros Hr Hr'.
  destruct (request_cases env req)
    as [Hrej | (Ho & user & msg & cid & style & boost & Hu & Hc & Hm)].
  - rewrite (serve_store_rejected env req w Hrej), Hr in Hr'.
    injection Hr' as <-. split; [lia | auto].
  - destruct (serve_store_accepted env req w user cid style msg boost Ho Hu Hc Hm)
      as (rest & _ & _ & _ & _ & [Heq | (r0 & Hr0 & Heq)]); rewrite Heq in Hr'.
    + rewrite Hr in Hr'. injection Hr' as <-. split; [lia | auto].
    + rewrite lookup_alter in Hr'. case_decide as Hd.
      * subst uid. rewrite Hr0 in Hr', Hr. injection Hr as ->. simpl in Hr'.
        injection Hr' as <-.
        rewrite computeReward_spent. unfold Edge.pointsCost.
        split; [destruct boost; lia|]. right. split; [exact Hu|]. split.
        -- unfold Edge.computeReward.
           destruct (Edge.streakBonus r (Edge.today env) (Edge.yesterdayStr env) 1).
           reflexivity.
        -- exists boost. split; [eauto|reflexivity].
      * rewrite Hr in Hr'. injection Hr' as <-. split; [lia | auto].
Qed.

Lemma request_never_refunds_witness :
  UserPoints.points_spent (Sample.row 7 4 (Some "2024-03-10"))
  <= UserPoints.points_spent
       {| UserPoints.total_points := 3; UserPoints.points_spent := 10;
          UserPoints.current_streak := 5;
          UserPoints.last_activity_date := Some "2024-03-11" |}
  /\ ({| UserPoints.total_points := 3; UserPoints.points_spent := 10;
         UserPoints.current_streak := 5;
         UserPoints.last_activity_date := Some "2024-03-11" |}
      = Sample.row 7 4 (Some "2024-03-10")
      \/ (userOf Sample.morning (Sample.request "Hi" true) = Some "u1"
          /\ UserPoints.last_activity_date
               {| UserPoints.total_points := 3; UserPoints.points_spent := 10;
                  UserPoints.current_streak := 5;
                  UserPoints.last_activity_date := Some "2024-03-11" |}
             = Some (Edge.today Sample.morning)
          /\ exists boost,
               (exists msg cid style,
                  chatOf (Sample.request "Hi" true) = Some (msg, cid, style, boost))
               /\ UserPoints.points_spent
                    {| UserPoints.total_points := 3; UserPoints.points_spent := 10;
                       UserPoints.current_streak := 5;
                       UserPoints.last_activity_date := Some "2024-03-11" |}
                  = UserPoints.points_spent (Sample.row 7 4 (Some "2024-03-10"))
                    + (if boost then 10 else 0))).
Proof.
  apply (request_never_refunds Sample.morning (Sample.request "Hi" true)
           Sample.streakWorld "u1").
  - vm_compute. reflexivity.
  - vm_compute. reflexivity.
Defined.

(** ** The call to the provider *)

(** The one call to the provider in the trace of an accepted request, with
    what [geminiMessages] puts into it. *)
Lemma provider_call_in_trace (env : Edge.Env) (req : Edge.Request)
    (w : Edge.World) (user cid style : string) (msg : JS.jsstring) (boost : bool) :
  Edge.method req <> "OPTIONS" ->
  userOf env req = Some user ->
  chatOf req = Some (msg, cid, style, boost) ->
  Edge.messagesError env = false ->
  exists before after,
    Edge.trace (snd (Edge.serve env req w))
    = Edge.trace w ++ before
      ++ Edge.FetchGemini
           (("user", JS.utf16 (Edge.systemPrompt style boost))
            :: List.map (fun m => (Edge.geminiRole (Message.role m), Message.content m))
                 (List.filter (fun m => bool_decide (Message.conversation_id m = cid))
                    (Store.messages (Edge.store w)))
            ++ [("user", msg)])
           (if boost then 4096 else 2048)
         :: after
    /\ existsb isProviderCall before = false
    /\ existsb isProviderCall after = false.
Proof.
  intros Ho Hu Hc Hm.
  assert (Hcall : providerCall cid msg style boost w
                  = Edge.FetchGemini
                      (("user", JS.utf16 (Edge.systemPrompt style boost))
                       :: List.map (fun m => (Edge.geminiRole (Message.role m),
                                              Message.content m))
                            (List.filter
                               (fun m => bool_decide (Message.conversation_id m = cid))
                               (Store.messages (Edge.store w)))
                       ++ [("user", msg)])
                      (if boost then 4096 else 2048)).
  { unfold providerCall, Edge.geminiMessages, conversationHistory, Store.selectMessages.
    rewrite List.map_app, List.map_map. reflexivity. }
  rewrite <- Hcall. clear Hcall.
  set (pc := providerCall cid msg style boost w).
  set (before :=
         [Edge.AuthGetUser (JS.removeFirst "Bearer " (default "" (Edge.authorization req)));
          Edge.SelectMessages cid; Edge.InsertMessage (Edge.userTurn env user cid msg)]
         ++ (if Edge.saveUserMessageError env
             then [Edge.ConsoleError "Error saving user message:"] else [])).
  assert (Hbefore : existsb isProviderCall before = false).
  { subst before. destruct (Edge.saveUserMessageError env); reflexivity. }
  exists before.
  destruct (provider_answer_dec env) as [(d & a & rest & Hg & Hd) | Hno].
  - destruct (handle_success env req w user msg cid style boost d a rest Hu Hc Hm Hg Hd)
      as (p & w2 & Hr & Hh).
    rewrite (serve_return env req w _ _ Ho Hh). cbn [snd].
    destruct (reward_cases env user boost
                (logged [providerCall cid msg style boost w]
                   (afterUserTurn env req user cid msg w)))
      as [[_ Hr'] | (r & _ & _ & Hr')]; cbv zeta in Hr'; rewrite Hr' in Hr;
      injection Hr as <- <-; unfold afterAssistantTurn, afterUserTurn, logged;
      cbn [Edge.trace Edge.store]; fold pc; fold before.
    + exists ([Edge.SelectUserPoints user]
              ++ Edge.InsertMessage
                   (Edge.assistantTurn env user cid a (default 0 (Edge.totalTokenCount d))
                      (Edge.clockResponse env - Edge.clockStart env) 1)
                 :: (if Edge.saveAssistantMessageError env
                     then [Edge.ConsoleError "Error saving assistant message:"] else [])).
      split; [rewrite <- !app_assoc; reflexivity|]. split; [exact Hbefore|].
      destruct (Edge.saveAssistantMessageError env); reflexivity.
    + eexists ([Edge.SelectUserPoints user; Edge.UpdateUserPoints user _]
               ++ Edge.InsertMessage _
                  :: (if Edge.saveAssistantMessageError env
                      then [Edge.ConsoleError "Error saving assistant message:"] else [])).
      split; [rewrite <- !app_assoc; reflexivity|]. split; [exact Hbefore|].
      destruct (Edge.saveAssistantMessageError env); reflexivity.
  - destruct (handle_no_answer env req w user msg cid style boost Hu Hc Hm Hno)
      as (e & evs & Hh & Hidle & _).
    rewrite (serve_throw env req w e _ Ho Hh).
    unfold afterUserTurn, logged; cbn [snd Edge.trace Edge.store]. fold pc. fold before.
    exists (evs ++ [Edge.ConsoleError "Error in chat-with-gemini function:"]).
    split; [rewrite <- !app_assoc; reflexivity|]. split; [exact Hbefore|].
    rewrite existsb_app. cbn. rewrite orb_false_r.
    unfold idle in Hidle. clear -Hidle.
    induction evs as [|ev evs IH]; [reflexivity|].
    cbn in Hidle |- *. apply andb_true_iff in Hidle as [Hev Hidle].
    apply andb_true_iff in Hev as [_ Hev]. apply negb_true_iff in Hev.
    rewrite Hev. apply IH, Hidle.
Qed.

(** X6.  An accepted request calls the provider exactly once.  The call
    carries the system prompt as a first user turn: the text of the style
    (one text each for creative, professional, casual and technical, the
    default text for any other style), with the boost sentence appended when
    boost is set.  Then come the turns of the conversation stored before the
    request, in order, user turns under the role [user] and assistant turns
    under the role [model], then the new message as a user turn.  The output
    limit is 4096 tokens with boost and 2048 without. *)
Theorem provider_called_once_with_history (env : Edge.Env) (req : Edge.Request)
    (w : Edge.World) (user cid style : string) (msg : JS.jsstring) (boost : bool) :
  Edge.method req <> "OPTIONS" ->
  userOf env req = Some user ->
  chatOf req = Some (msg, cid, style, boost) ->
  Edge.messagesError env = false ->
  exists stylePrompt before after,
    (style = "creative" ->
     stylePrompt = "You are a creative and imaginative AI assistant. Respond with flair, creativity, and engaging storytelling elements.")
    /\ (style = "professional" ->
        stylePrompt = "You are a professional AI assistant. Provide formal, structured, and business-appropriate responses.")
    /\ (style = "casual" ->
        stylePrompt = "You are a casual and friendly AI assistant. Use a relaxed, conversational tone with occasional humor.")
    /\ (style = "technical" ->
        stylePrompt = "You are a technical expert AI assistant. Provide detailed, precise, and technically accurate responses.")
    /\ (style <> "creative" -> style <> "professional" -> style <> "casual" ->
        style <> "technical" ->
        stylePrompt = "You are a helpful AI assistant powered by Gemini 2.5 Flash. Provide accurate, helpful, and engaging responses.")
    /\ Edge.trace (snd (Edge.serve env req w))
       = Edge.trace w ++ before
         ++ Edge.FetchGemini
              (("user",
                JS.utf16
                  (if boost then
                     stylePrompt +:+ " This is a boosted request - provide an especially detailed and comprehensive response."
                   else stylePrompt))
               :: List.map
                    (fun m =>
                       (match Message.role m with
                        | Message.user => "user"
                        | Message.assistant => "model"
                        end, Message.content m))
                    (List.filter (fun m => bool_decide (Message.conversation_id m = cid))
                       (Store.messages (Edge.store w)))
               ++ [("user", msg)])
              (if boost then 4096 else 2048)
            :: after
    /\ existsb isProviderCall before = false
    /\ existsb isProviderCall after = false.
Proof.
  intros Ho Hu Hc Hm.
  destruct (provider_call_in_trace env req w user cid style msg boost Ho Hu Hc Hm)
    as (before & after & Htrace & Hbefore & Hafter).
  exists (Edge.systemPromptOf style), before, after.
  split; [intros ->; reflexivity|].
  split; [intros ->; reflexivity|].
  split; [intros ->; reflexivity|].
  split; [intros ->; reflexivity|].
  split.
  { intros H1 H2 H3 H4. unfold Edge.systemPromptOf.
    rewrite !bool_decide_eq_false_2 by assumption. reflexivity. }
  split; [exact Htrace|]. split; assumption.
Qed.

Lemma provider_called_once_with_history_witness :
  exists stylePrompt before after,
    ("technical" = "creative" ->
     stylePrompt = "You are a creative and imaginative AI assistant. Respond with flair, creativity, and engaging storytelling elements.")
    /\ ("technical" = "professional" ->
        stylePrompt = "You are a professional AI assistant. Provide formal, structured, and business-appropriate responses.")
    /\ ("technical" = "casual" ->
        stylePrompt = "You are a casual and friendly AI assistant. Use a relaxed, conversational tone with occasional humor.")
    /\ ("technical" = "technical" ->
        stylePrompt = "You are a technical expert AI assistant. Provide detailed, precise, and technically accurate responses.")
    /\ ("technical" <> "creative" -> "technical" <> "professional" ->
        "technical" <> "casual" -> "technical" <> "technical" ->
        stylePrompt = "You are a helpful AI assistant powered by Gemini 2.5 Flash. Provide accurate, helpful, and engaging responses.")
    /\ Edge.trace (snd (Edge.serve Sample.morning (Sample.request "More" true)
                          Sample.talkedWorld))
       = Edge.trace Sample.talkedWorld ++ before
         ++ Edge.FetchGemini
              (("user",
                JS.utf16
                  (if true then
                     stylePrompt +:+ " This is a boosted request - provide an especially detailed and comprehensive response."
                   else stylePrompt))
               :: List.map
                    (fun m =>
                       (match Message.role m with
                        | Message.user => "user"
                        | Message.assistant => "model"
                        end, Message.content m))
                    (List.filter (fun m => bool_decide (Message.conversation_id m = "c1"))
                       (Store.messages (Edge.store Sample.talkedWorld)))
               ++ [("user", JS.utf16 "More")])
              (if true then 4096 else 2048)
            :: after
    /\ existsb isProviderCall before = false
    /\ existsb isProviderCall after = false.
Proof.
  apply (provider_called_once_with_history Sample.morning (Sample.request "More" true)
           Sample.talkedWorld "u1" "c1" "technical" (JS.utf16 "More") true).
  - discriminate.
  - reflexivity.
  - reflexivity.
  - reflexivity.
Defined.

(** The call of a boosted second message in the technical style, after one
    stored exchange. *)
Example call_of_boosted_second_message :
  In (Edge.FetchGemini
        [("user",
          JS.utf16 "You are a technical expert AI assistant. Provide detailed, precise, and technically accurate responses. This is a boosted request - provide an especially detailed and comprehensive response.");
         ("user", JS.utf16 "Hi");
         ("model", JS.utf16 "hello");
         ("user", JS.utf16 "More")]
        4096)
     (Edge.trace (snd (Edge.serve Sample.morning (Sample.request "More" true)
                         Sample.talkedWorld))).
Proof. vm_compute. auto 10. Qed.

(** ** Writes that fail *)

(** The reply is made from the result of the [try] block. *)
Lemma serve_reply (env : Edge.Env) (req : Edge.Request) (w : Edge.World) :
  fst (Edge.serve env req w)
  = if bool_decide (Edge.method req = "OPTIONS") then
      {| Edge.status := 200; Edge.payload := Edge.BodyNull |}
    else
      match fst (Edge.handle env req w) with
      | Edge.Return r =>
          {| Edge.status := 200;
             Edge.payload := Edge.BodyOk (Edge.response r) (Edge.tokensUsed r)
                               (Edge.responseTime r) (Edge.replyPointsAwarded r) |}
      | Edge.Throw e =>
          {| Edge.status := 500; Edge.payload := Edge.BodyError (Edge.errorMessage e) |}
      end.
Proof.
  unfold Edge.serve. case_bool_decide; [reflexivity|].
  destruct (Edge.handle env req w) as [[r|e] w']; reflexivity.
Qed.

Lemma handle_accepted_result (env : Edge.Env) (req : Edge.Request) (w : Edge.World)
    user msg cid style boost :
  userOf env req = Some user ->
  chatOf req = Some (msg, cid, style, boost) ->
  Edge.messagesError env = false ->
  fst (Edge.handle env req w)
  = resultOf env (Store.user_points (Edge.store w) !! user) boost.
Proof.
  intros Hu Hc Hm.
  rewrite (handle_accepted env req w user msg cid style boost Hu Hc Hm).
  unfold Edge.bind at 1. rewrite callGemini_run. cbv zeta.
  unfold resultOf.
  destruct (Edge.gemini env) as [m|[|] [d|]]; try reflexivity.
  destruct (Edge.candidates d) as [[|[t|] l]|]; try reflexivity.
  unfold Edge.bind at 1.
  destruct (reward_cases env user boost
              (logged [Edge.FetchGemini
                         (Edge.geminiMessages style boost (conversationHistory cid msg w))
                         (if boost then 4096 else 2048)]
                 (afterUserTurn env req user cid msg w)))
    as [[Hn Hr] | (r & He & Hrow & Hr)].
  - rewrite Hr. unfold Edge.bind. rewrite saveAssistantMessage_run. cbn [fst].
    cbn [logged Edge.store] in Hn. rewrite afterUserTurn_user_points in Hn.
    unfold pointsFor. rewrite Hn. reflexivity.
  - cbv zeta in Hr. rewrite Hr. unfold Edge.bind. rewrite saveAssistantMessage_run.
    cbn [fst].
    cbn [logged Edge.store] in Hrow. rewrite afterUserTurn_user_points in Hrow.
    unfold pointsFor. rewrite He, Hrow. reflexivity.
Qed.

Lemma handle_result_writes (env : Edge.Env) (a b c : bool) (req : Edge.Request)
    (w : Edge.World) :
  fst (Edge.handle (withWrites env a b c) req w) = fst (Edge.handle env req w).
Proof.
  destruct (userOf env req) as [user|] eqn:Hu.
  2:{ destruct (authenticate_rejected env req w Hu) as (e & evs & Ha & _).
      unfold Edge.handle, Edge.bind.
      change (Edge.authenticate (withWrites env a b c) req w)
        with (Edge.authenticate env req w).
      rewrite Ha. reflexivity. }
  destruct (chatOf req) as [[[[msg cid] style] boost]|] eqn:Hc.
  2:{ unfold Edge.handle.
      rewrite (bind_run _ _ _ _ _ (authenticate_accepted (withWrites env a b c) req w user Hu)).
      rewrite (bind_run _ _ _ _ _ (authenticate_accepted env req w user Hu)).
      destruct (readRequest_rejected req
                  (logged [Edge.AuthGetUser (JS.removeFirst "Bearer "
                     (default "" (Edge.authorization req)))] w) Hc) as (e & Hr).
      unfold Edge.bind. rewrite Hr. reflexivity. }
  destruct (Edge.messagesError env) eqn:Hm.
  { unfold Edge.handle.
    rewrite (bind_run _ _ _ _ _ (authenticate_accepted (withWrites env a b c) req w user Hu)).
    rewrite (bind_run _ _ _ _ _ (authenticate_accepted env req w user Hu)).
    rewrite !(bind_run _ _ _ _ _ (readRequest_accepted req _ _ Hc)).
    unfold Edge.bind.
    rewrite (getHistory_rejected (withWrites env a b c) _ cid Hm).
    rewrite (getHistory_rejected env _ cid Hm). reflexivity. }
  rewrite (handle_accepted_result (withWrites env a b c) req w user msg cid style boost
             Hu Hc Hm).
  rewrite (handle_accepted_result env req w user msg cid style boost Hu Hc Hm).
  unfold resultOf, pointsFor, Edge.today, Edge.yesterdayStr.
  destruct env.
  cbn [withWrites Edge.gemini Edge.userPointsError Edge.clockToday Edge.clockYesterday
       Edge.clockResponse Edge.clockStart].
  reflexivity.
Qed.

(** X7.  The reply does not depend on whether the writes of a run fail:
    with the insert of the user turn, the update of the ledger row and the
    insert of the assistant turn each refused or not by the store, the
    status and the body of the reply, the points it reports included, are
    the same. *)
Theorem write_failures_do_not_change_reply (env : Edge.Env) (a b c : bool)
    (req : Edge.Request) (w : Edge.World) :
  fst (Edge.serve (withWrites env a b c) req w) = fst (Edge.serve env req w).
Proof. rewrite !serve_reply, handle_result_writes. reflexivity. Qed.

(** ** One request after another *)

Lemma serve_ok_row (env : Edge.Env) (req : Edge.Request) (w : Edge.World)
    user msg cid style boost r a t tm p :
  userOf env req = Some user ->
  chatOf req = Some (msg, cid, style, boost) ->
  Store.user_points (Edge.store w) !! user = Some r ->
  Edge.payload (fst (Edge.serve env req w)) = Edge.BodyOk a t tm p ->
  p = pointsFor env (Some r) boost
  /\ Store.user_points (Edge.store (snd (Edge.serve env req w))) !! user
     = Some (rowAfter env r boost).
Proof.
  intros Hu Hc Hrow H.
  destruct (serve_ok_inv env req w a t tm p H)
    as (Ho & user' & msg' & cid' & style' & boost' & d & rest & Hu' & Hc' & Hm & Hg & Hd).
  rewrite Hu in Hu'. injection Hu' as <-.
  rewrite Hc in Hc'. injection Hc' as <- <- <- <-.
  destruct (handle_success env req w user msg cid style boost d a rest Hu Hc Hm Hg Hd)
    as (p0 & w2 & Hr & Hh).
  rewrite (serve_return env req w _ _ Ho Hh) in H |- *.
  cbn [fst snd Edge.payload Edge.replyPointsAwarded] in H |- *.
  injection H as _ _ ->.
  rewrite afterAssistantTurn_user_points.
  unfold pointsFor, rowAfter.
  destruct (reward_cases env user boost
              (logged [providerCall cid msg style boost w]
                 (afterUserTurn env req user cid msg w)))
    as [[Hn Hr'] | (r' & He & Hrow' & Hr')].
  - rewrite Hr' in Hr. injection Hr as <- <-.
    unfold logged in Hn |- *. cbn [Edge.store] in Hn |- *.
    rewrite afterUserTurn_user_points in Hn. rewrite afterUserTurn_user_points.
    rewrite Hrow in Hn |- *.
    destruct (Edge.userPointsError env); [|discriminate]. split; reflexivity.
  - cbv zeta in Hr'. rewrite Hr' in Hr. injection Hr as <- <-.
    unfold logged in Hrow' |- *. cbn [Edge.store] in Hrow' |- *.
    rewrite afterUserTurn_user_points in Hrow'. rewrite Hrow in Hrow'.
    injection Hrow' as <-. rewrite He. split; [reflexivity|].
    cbn [orb].
    destruct (Edge.updateUserPointsError env).
    + destruct (Edge.saveUserMessageError env); exact Hrow.
    + unfold Store.updateUserPoints. cbn [Store.user_points].
      rewrite lookup_alter_eq.
      destruct (Edge.saveUserMessageError env); cbn [Store.insertMessage Store.user_points];
        rewrite Hrow; reflexivity.
Qed.

Lemma computeReward_date r t y b :
  UserPoints.last_activity_date (snd (Edge.computeReward r t y b)) = Some t.
Proof. unfold Edge.computeReward. destruct (Edge.streakBonus r t y 1). reflexivity. Qed.

Lemma computeReward_same_day r t y b :
  UserPoints.last_activity_date r = Some t -> y <> t ->
  fst (Edge.computeReward r t y b) = 1
  /\ UserPoints.current_streak (snd (Edge.computeReward r t y b))
     = UserPoints.current_streak r.
Proof.
  intros Hl Hy. unfold Edge.computeReward, Edge.streakBonus.
  rewrite Hl.
  rewrite (proj2 (sameDate_false (Some t) y)) by congruence.
  rewrite (proj2 (sameDate_true (Some t) t)) by reflexivity.
  split; reflexivity.
Qed.

Lemma computeReward_next_day r t y b :
  UserPoints.last_activity_date r = Some y ->
  fst (Edge.computeReward r t y b) = 6
  /\ UserPoints.current_streak (snd (Edge.computeReward r t y b))
     = UserPoints.current_streak r + 1.
Proof.
  intros Hl. unfold Edge.computeReward, Edge.streakBonus.
  rewrite Hl.
  rewrite (proj2 (sameDate_true (Some y) y)) by reflexivity.
  split; reflexivity.
Qed.

Lemma computeReward_gap r t y b :
  UserPoints.last_activity_date r <> Some y ->
  UserPoints.last_activity_date r <> Some t ->
  fst (Edge.computeReward r t y b) = 1
  /\ UserPoints.current_streak (snd (Edge.computeReward r t y b)) = 1.
Proof.
  intros Hy Ht. unfold Edge.computeReward, Edge.streakBonus.
  rewrite (proj2 (sameDate_false _ y) Hy), (proj2 (sameDate_false _ t) Ht).
  split; reflexivity.
Qed.

(** Two requests of one user that both get a response, the first with a
    ledger that can be read and written: the second finds the row the first
    wrote, dated with the first one's [today]. *)
Lemma two_requests (env1 env2 : Edge.Env) (req1 req2 : Edge.Request) (w : Edge.World)
    uid r a1 t1 tm1 p1 a2 t2 tm2 p2 :
  userOf env1 req1 = Some uid -> userOf env2 req2 = Some uid ->
  Store.user_points (Edge.store w) !! uid = Some r ->
  Edge.userPointsError env1 = false -> Edge.updateUserPointsError env1 = false ->
  Edge.payload (fst (Edge.serve env1 req1 w)) = Edge.BodyOk a1 t1 tm1 p1 ->
  Edge.payload (fst (Edge.serve env2 req2 (snd (Edge.serve env1 req1 w))))
  = Edge.BodyOk a2 t2 tm2 p2 ->
  exists r1 boost2,
    UserPoints.last_activity_date r1 = Some (Edge.today env1)
    /\ Store.user_points (Edge.store (snd (Edge.serve env1 req1 w))) !! uid = Some r1
    /\ p2 = pointsFor env2 (Some r1) boost2
    /\ Store.user_points
         (Edge.store (snd (Edge.serve env2 req2 (snd (Edge.serve env1 req1 w))))) !! uid
       = Some (rowAfter env2 r1 boost2).
Proof.
  intros Hu1 Hu2 Hrow He1 Hup1 H1 H2.
  destruct (serve_ok_inv env1 req1 w a1 t1 tm1 p1 H1)
    as (_ & u1 & msg1 & cid1 & style1 & boost1 & _ & _ & Hu1' & Hc1 & _).
  destruct (serve_ok_row env1 req1 w uid msg1 cid1 style1 boost1 r a1 t1 tm1 p1
              Hu1 Hc1 Hrow H1) as [_ Hrow1].
  unfold rowAfter in Hrow1. rewrite He1, Hup1 in Hrow1. cbn [orb] in Hrow1.
  destruct (serve_ok_inv env2 req2 _ a2 t2 tm2 p2 H2)
    as (_ & u2 & msg2 & cid2 & style2 & boost2 & _ & _ & Hu2' & Hc2 & _).
  destruct (serve_ok_row env2 req2 _ uid msg2 cid2 style2 boost2 _ a2 t2 tm2 p2
              Hu2 Hc2 Hrow1 H2) as [Hp2 Hrow2].
  eexists _, boost2. split; [apply computeReward_date|].
  split; [exact Hrow1|]. split; [exact Hp2 | exact Hrow2].
Qed.

(** X8.  Two requests of one user that both get a response, the first one
    reading and writing the user's ledger row.  When the second takes
    [today] on the UTC day of the first, and its [yesterday] on that day
    too, its reply reports 1 point, and the streak in the ledger stays the
    one the first request left. *)
Theorem second_request_same_day (env1 env2 : Edge.Env) (req1 req2 : Edge.Request)
    (w : Edge.World) uid r a1 t1 tm1 p1 a2 t2 tm2 p2 :
  userOf env1 req1 = Some uid -> userOf env2 req2 = Some uid ->
  Store.user_points (Edge.store w) !! uid = Some r ->
  Edge.userPointsError env1 = false -> Edge.updateUserPointsError env1 = false ->
  Edge.payload (fst (Edge.serve env1 req1 w)) = Edge.BodyOk a1 t1 tm1 p1 ->
  Edge.payload (fst (Edge.serve env2 req2 (snd (Edge.serve env1 req1 w))))
  = Edge.BodyOk a2 t2 tm2 p2 ->
  JS.validTime (Edge.clockToday env2) -> JS.validTime (Edge.clockYesterday env2) ->
  JS.Day (Edge.clockToday env2) = JS.Day (Edge.clockToday env1) ->
  JS.Day (Edge.clockYesterday env2) = JS.Day (Edge.clockToday env2) ->
  Edge.payload (fst (Edge.serve env2 req2 (snd (Edge.serve env1 req1 w))))
  = Edge.BodyOk a2 t2 tm2 1
  /\ exists r1 r2,
       Store.user_points (Edge.store (snd (Edge.serve env1 req1 w))) !! uid = Some r1
       /\ Store.user_points
            (Edge.store (snd (Edge.serve env2 req2 (snd (Edge.serve env1 req1 w))))) !! uid
          = Some r2
       /\ UserPoints.current_streak r2 = UserPoints.current_streak r1.
Proof.
  intros Hu1 Hu2 Hrow He1 Hup1 H1 H2 Vt Vy Hday Hsame.
  destruct (two_requests env1 env2 req1 req2 w uid r a1 t1 tm1 p1 a2 t2 tm2 p2
              Hu1 Hu2 Hrow He1 Hup1 H1 H2) as (r1 & boost2 & Hl & Hrow1 & Hp2 & Hrow2).
  assert (Ht : Edge.today env1 = Edge.today env2).
  { rewrite !today_isoDate, Hday. reflexivity. }
  rewrite Ht in Hl.
  pose proof (yesterdayStr_not_today env2 Vt Vy (eq_sym Hsame)) as Hy.
  destruct (computeReward_same_day r1 _ _ boost2 Hl Hy) as [Hp Hs].
  split.
  - rewrite H2, Hp2. f_equal.
    unfold pointsFor. destruct (Edge.userPointsError env2); [reflexivity | exact Hp].
  - exists r1, (rowAfter env2 r1 boost2). split; [exact Hrow1|]. split; [exact Hrow2|].
    unfold rowAfter.
    destruct (Edge.userPointsError env2 || Edge.updateUserPointsError env2);
      [reflexivity | exact Hs].
Qed.

Lemma second_request_same_day_witness :
  Edge.payload
    (fst (Edge.serve Scenario.afternoon (Sample.request "More" false)
            (snd (Edge.serve Sample.morning (Sample.request "Hi" false)
                    Sample.streakWorld))))
  = Edge.BodyOk (JS.utf16 "again") 12 850 1
  /\ exists r1 r2,
       Store.user_points
         (Edge.store (snd (Edge.serve Sample.morning (Sample.request "Hi" false)
                             Sample.streakWorld))) !! "u1" = Some r1
       /\ Store.user_points
            (Edge.store (snd (Edge.serve Scenario.afternoon (Sample.request "More" false)
               (snd (Edge.serve Sample.morning (Sample.request "Hi" false)
                       Sample.streakWorld))))) !! "u1"
          = Some r2
       /\ UserPoints.current_streak r2 = UserPoints.current_streak r1.
Proof.
  apply (second_request_same_day Sample.morning Scenario.afternoon
           (Sample.request "Hi" false) (Sample.request "More" false) Sample.streakWorld
           "u1" (Sample.row 7 4 (Some "2024-03-10"))
           (JS.utf16 "hello") 12 850 6 (JS.utf16 "again") 12 850 1).
  - reflexivity.
  - reflexivity.
  - vm_compute. reflexivity.
  - reflexivity.
  - reflexivity.
  - vm_compute. reflexivity.
  - vm_compute. reflexivity.
  - unfold JS.validTime. simpl. lia.
  - unfold JS.validTime. simpl. lia.
  - vm_compute. reflexivity.
  - vm_compute. reflexivity.
Defined.

(** X9.  Two requests of one user that both get a response, each reading
    and writing the user's ledger row.  When the second takes [yesterday] on
    the UTC day after the one on which the first took [today], its reply
    reports 6 points, and the streak in the ledger is one above the one the
    first request left. *)
Theorem next_day_request_earns_bonus (env1 env2 : Edge.Env) (req1 req2 : Edge.Request)
    (w : Edge.World) uid r a1 t1 tm1 p1 a2 t2 tm2 p2 :
  userOf env1 req1 = Some uid -> userOf env2 req2 = Some uid ->
  Store.user_points (Edge.store w) !! uid = Some r ->
  Edge.userPointsError env1 = false -> Edge.updateUserPointsError env1 = false ->
  Edge.userPointsError env2 = false -> Edge.updateUserPointsError env2 = false ->
  Edge.payload (fst (Edge.serve env1 req1 w)) = Edge.BodyOk a1 t1 tm1 p1 ->
  Edge.payload (fst (Edge.serve env2 req2 (snd (Edge.serve env1 req1 w))))
  = Edge.BodyOk a2 t2 tm2 p2 ->
  JS.Day (Edge.clockYesterday env2) = JS.Day (Edge.clockToday env1) + 1 ->
  Edge.payload (fst (Edge.serve env2 req2 (snd (Edge.serve env1 req1 w))))
  = Edge.BodyOk a2 t2 tm2 6
  /\ exists r1 r2,
       Store.user_points (Edge.store (snd (Edge.serve env1 req1 w))) !! uid = Some r1
       /\ Store.user_points
            (Edge.store (snd (Edge.serve env2 req2 (snd (Edge.serve env1 req1 w))))) !! uid
          = Some r2
       /\ UserPoints.current_streak r2 = UserPoints.current_streak r1 + 1.
Proof.
  intros Hu1 Hu2 Hrow He1 Hup1 He2 Hup2 H1 H2 Hday.
  destruct (two_requests env1 env2 req1 req2 w uid r a1 t1 tm1 p1 a2 t2 tm2 p2
              Hu1 Hu2 Hrow He1 Hup1 H1 H2) as (r1 & boost2 & Hl & Hrow1 & Hp2 & Hrow2).
  assert (Hy : Edge.today env1 = Edge.yesterdayStr env2).
  { rewrite today_isoDate, yesterdayStr_isoDate, Hday. f_equal. lia. }
  rewrite Hy in Hl.
  destruct (computeReward_next_day r1 (Edge.today env2) _ boost2 Hl) as [Hp Hs].
  split.
  - rewrite H2, Hp2. f_equal. unfold pointsFor. rewrite He2. exact Hp.
  - exists r1, (rowAfter env2 r1 boost2). split; [exact Hrow1|]. split; [exact Hrow2|].
    unfold rowAfter. rewrite He2, Hup2. exact Hs.
Qed.

Lemma next_day_request_earns_bonus_witness :
  Edge.payload
    (fst (Edge.serve Scenario.nextMorning (Sample.request "More" false)
            (snd (Edge.serve Sample.morning (Sample.request "Hi" false)
                    Sample.streakWorld))))
  = Edge.BodyOk (JS.utf16 "again") 12 850 6
  /\ exists r1 r2,
       Store.user_points
         (Edge.store (snd (Edge.serve Sample.morning (Sample.request "Hi" false)
                             Sample.streakWorld))) !! "u1" = Some r1
       /\ Store.user_points
            (Edge.store (snd (Edge.serve Scenario.nextMorning (Sample.request "More" false)
               (snd (Edge.serve Sample.morning (Sample.request "Hi" false)
                       Sample.streakWorld))))) !! "u1"
          = Some r2
       /\ UserPoints.current_streak r2 = UserPoints.current_streak r1 + 1.
Proof.
  apply (next_day_request_earns_bonus Sample.morning Scenario.nextMorning
           (Sample.request "Hi" false) (Sample.request "More" false) Sample.streakWorld
           "u1" (Sample.row 7 4 (Some "2024-03-10"))
           (JS.utf16 "hello") 12 850 6 (JS.utf16 "again") 12 850 6).
  - reflexivity.
  - reflexivity.
  - vm_compute. reflexivity.
  - reflexivity.
  - reflexivity.
  - reflexivity.
  - reflexivity.
  - vm_compute. reflexivity.
  - vm_compute. reflexivity.
  - vm_compute. reflexivity.
Defined.

(** X10.  Two requests of one user that both get a response, each reading
    and writing the user's ledger row.  When the second takes [today] two
    UTC days or more after the first took its own, and [yesterday] no
    earlier than [today], its reply reports 1 point and the streak in the
    ledger is 1. *)
Theorem request_after_gap_restarts_streak (env1 env2 : Edge.Env)
    (req1 req2 : Edge.Request) (w : Edge.World) uid r a1 t1 tm1 p1 a2 t2 tm2 p2 :
  userOf env1 req1 = Some uid -> userOf env2 req2 = Some uid ->
  Store.user_points (Edge.store w) !! uid = Some r ->
  Edge.userPointsError env1 = false -> Edge.updateUserPointsError env1 = false ->
  Edge.userPointsError env2 = false -> Edge.updateUserPointsError env2 = false ->
  Edge.payload (fst (Edge.serve env1 req1 w)) = Edge.BodyOk a1 t1 tm1 p1 ->
  Edge.payload (fst (Edge.serve env2 req2 (snd (Edge.serve env1 req1 w))))
  = Edge.BodyOk a2 t2 tm2 p2 ->
  JS.validTime (Edge.clockToday env1) ->
  JS.validTime (Edge.clockToday env2) -> JS.validTime (Edge.clockYesterday env2) ->
  Edge.clockToday env2 <= Edge.clockYesterday env2 ->
  JS.Day (Edge.clockToday env1) + 2 <= JS.Day (Edge.clockToday env2) ->
  Edge.payload (fst (Edge.serve env2 req2 (snd (Edge.serve env1 req1 w))))
  = Edge.BodyOk a2 t2 tm2 1
  /\ exists r2,
       Store.user_points
         (Edge.store (snd (Edge.serve env2 req2 (snd (Edge.serve env1 req1 w))))) !! uid
       = Some r2
       /\ UserPoints.current_streak r2 = 1.
Proof.
  intros Hu1 Hu2 Hrow He1 Hup1 He2 Hup2 H1 H2 V1 Vt Vy Hle Hgap.
  destruct (two_requests env1 env2 req1 req2 w uid r a1 t1 tm1 p1 a2 t2 tm2 p2
              Hu1 Hu2 Hrow He1 Hup1 H1 H2) as (r1 & boost2 & Hl & Hrow1 & Hp2 & Hrow2).
  assert (Hd : -100000001 <= JS.Day (Edge.clockToday env1)
               <= JS.Day (Edge.clockToday env2) - 2).
  { split; [|lia]. unfold JS.validTime, JS.Day, JS.msPerDay in *.
    Z.div_mod_to_equations. lia. }
  destruct (gap_of_two_days env2 _ Vt Vy Hle Hd) as [Hnt Hny].
  rewrite <- today_isoDate in Hnt, Hny. rewrite <- Hl in Hnt, Hny.
  rewrite <- today_isoDate in Hnt. rewrite <- yesterdayStr_isoDate in Hny.
  destruct (computeReward_gap r1 (Edge.today env2) (Edge.yesterdayStr env2) boost2 Hny Hnt)
    as [Hp Hs].
  split.
  - rewrite H2, Hp2. f_equal. unfold pointsFor. rewrite He2. exact Hp.
  - exists (rowAfter env2 r1 boost2). split; [exact Hrow2|].
    unfold rowAfter. rewrite He2, Hup2. exact Hs.
Qed.

Lemma request_after_gap_restarts_streak_witness :
  Edge.payload
    (fst (Edge.serve Scenario.nextWeek (Sample.request "More" false)
            (snd (Edge.serve Sample.morning (Sample.request "Hi" false)
                    Sample.streakWorld))))
  = Edge.BodyOk (JS.utf16 "again") 12 850 1
  /\ exists r2,
       Store.user_points
         (Edge.store (snd (Edge.serve Scenario.nextWeek (Sample.request "More" false)
            (snd (Edge.serve Sample.morning (Sample.request "Hi" false)
                    Sample.streakWorld))))) !! "u1"
       = Some r2
       /\ UserPoints.current_streak r2 = 1.
Proof.
  apply (request_after_gap_restarts_streak Sample.morning Scenario.nextWeek
           (Sample.request "Hi" false) (Sample.request "More" false) Sample.streakWorld
           "u1" (Sample.row 7 4 (Some "2024-03-10"))
           (JS.utf16 "hello") 12 850 6 (JS.utf16 "again") 12 850 1).
  - reflexivity.
  - reflexivity.
  - vm_compute. reflexivity.
  - reflexivity.
  - reflexivity.
  - reflexivity.
  - reflexivity.
  - vm_compute. reflexivity.
  - vm_compute. reflexivity.
  - unfold JS.validTime. simpl. lia.
  - unfold JS.validTime. simpl. lia.
  - unfold JS.validTime. simpl. lia.
  - simpl. lia.
  - vm_compute. discriminate.
Defined.

(** ** The shop *)

(** X11.  A purchase made while the cached ledger row is the stored one
    keeps the two in step.  When it succeeds, the cost was at most the cached
    balance, the stored and the cached row both have the balance lowered and
    [points_spent] raised by the cost, streak and date untouched, and one
    row for the item is appended to [purchases]; in every other outcome the
    ledger and the component are left as they are. *)
Theorem purchase_keeps_cache_in_step (purchaseError updateError : bool)
    (itemType itemName : string) (cost : Z) (st : PointsDisplay.State) (s : Store.t)
    (uid : string) (cached : UserPoints.t) :
  PointsDisplay.user st = Some uid ->
  PointsDisplay.userPoints st = Some cached ->
  Store.user_points s !! uid = Some cached ->
  let '(st', s', toasts) :=
    PointsDisplay.purchaseItem purchaseError updateError itemType itemName cost st s in
  cacheInStep st' s'
  /\ (toasts = [PointsDisplay.PurchaseSuccessful itemName cost] ->
      cost <= UserPoints.total_points cached
      /\ Store.user_points s' !! uid = Some (charged cached cost)
      /\ PointsDisplay.userPoints st' = Some (charged cached cost)
      /\ Store.purchases s'
         = Store.purchases s
           ++ [{| Purchase.user_id := uid; Purchase.item_type := itemType;
                  Purchase.item_name := itemName; Purchase.points_cost := cost |}])
  /\ (toasts <> [PointsDisplay.PurchaseSuccessful itemName cost] ->
      Store.user_points s' = Store.user_points s /\ st' = st).
Proof.
  intros Hu Hc Hrow. unfold PointsDisplay.purchaseItem. rewrite Hu, Hc.
  assert (Hstep : cacheInStep st s) by (unfold cacheInStep; rewrite Hu, Hc; exact Hrow).
  destruct (UserPoints.total_points cached <? cost) eqn:Hlt.
  { split; [exact Hstep|]. split; [discriminate | auto]. }
  apply Z.ltb_ge in Hlt.
  destruct purchaseError.
  { split; [exact Hstep|]. split; [discriminate | auto]. }
  destruct updateError.
  { split; [|split; [discriminate | auto]].
    unfold cacheInStep. rewrite Hu, Hc. exact Hrow. }
  assert (Hnew : Store.user_points
                   (Store.updateUserPoints uid
                      (fun row =>
                         {| UserPoints.total_points := UserPoints.total_points cached - cost;
                            UserPoints.points_spent := UserPoints.points_spent cached + cost;
                            UserPoints.current_streak := UserPoints.current_streak row;
                            UserPoints.last_activity_date :=
                              UserPoints.last_activity_date row |})
                      (Store.insertPurchase
                         {| Purchase.user_id := uid; Purchase.item_type := itemType;
                            Purchase.item_name := itemName; Purchase.points_cost := cost |}
                         s)) !! uid
                 = Some (charged cached cost)).
  { unfold Store.updateUserPoints, Store.insertPurchase. cbn [Store.user_points].
    rewrite lookup_alter_eq, Hrow. reflexivity. }
  split; [|split].
  - unfold cacheInStep. cbn [PointsDisplay.user PointsDisplay.userPoints].
    rewrite ?Hu. exact Hnew.
  - intros _. split; [exact Hlt|]. split; [exact Hnew|]. split; reflexivity.
  - intros H. exfalso. apply H. reflexivity.
Qed.

Lemma purchase_keeps_cache_in_step_witness :
  let '(st', s', toasts) :=
    PointsDisplay.purchaseItem false false "style_pack" "Creative" 5 Shop.loaded
      (Edge.store Sample.streakWorld) in
  cacheInStep st' s'
  /\ (toasts = [PointsDisplay.PurchaseSuccessful "Creative" 5] ->
      5 <= UserPoints.total_points (Sample.row 7 4 (Some "2024-03-10"))
      /\ Store.user_points s' !! "u1"
         = Some (charged (Sample.row 7 4 (Some "2024-03-10")) 5)
      /\ PointsDisplay.userPoints st'
         = Some (charged (Sample.row 7 4 (Some "2024-03-10")) 5)
      /\ Store.purchases s'
         = Store.purchases (Edge.store Sample.streakWorld)
           ++ [{| Purchase.user_id := "u1"; Purchase.item_type := "style_pack";
                  Purchase.item_name := "Creative"; Purchase.points_cost := 5 |}])
  /\ (toasts <> [PointsDisplay.PurchaseSuccessful "Creative" 5] ->
      Store.user_points s' = Store.user_points (Edge.store Sample.streakWorld)
      /\ st' = Shop.loaded).
Proof.
  apply (purchase_keeps_cache_in_step false false "style_pack" "Creative" 5 Shop.loaded
           (Edge.store Sample.streakWorld) "u1" (Sample.row 7 4 (Some "2024-03-10"))).
  - reflexivity.
  - vm_compute. reflexivity.
  - vm_compute. reflexivity.
Defined.

(** A request leaves every ledger row in place. *)
Lemma serve_row_stays (env : Edge.Env) (req : Edge.Request) (w : Edge.World)
    (uid : string) (r : UserPoints.t) :
  Store.user_points (Edge.store w) !! uid = Some r ->
  exists r', Store.user_points (Edge.store (snd (Edge.serve env req w))) !! uid = Some r'.
Proof.
  intros Hrow.
  destruct (serve_ledger env req w) as [-> | (u & ru & b & Hr & ->)].
  - exists r. exact Hrow.
  - rewrite lookup_alter. case_decide as Hd.
    + subst u. rewrite Hr. eexists. reflexivity.
    + exists r. exact Hrow.
Qed.

(** X12.  A purchase is charged to the balance the shop has loaded, not to
    the stored one.  When a request reaches the handler between the load and
    a purchase whose cost the loaded balance covers, the stored balance
    afterwards is the loaded balance less the cost, and [points_spent] the
    loaded one plus the cost, whatever the request awarded or charged. *)
Theorem purchase_overwrites_awards (sys : System.t) (session : nat) (uid : string)
    (r : UserPoints.t) (env : Edge.Env) (req : Edge.Request)
    (itemType itemName : string) (cost : Z) :
  Store.user_points (Edge.store (System.world sys)) !! uid = Some r ->
  cost <= UserPoints.total_points r ->
  exists r',
    Store.user_points
      (Edge.store (System.world (System.run
         [System.Mount session uid false;
          System.Request env req;
          System.Purchase session false false itemType itemName cost] sys))) !! uid
    = Some r'
    /\ UserPoints.total_points r' = UserPoints.total_points r - cost
    /\ UserPoints.points_spent r' = UserPoints.points_spent r + cost.
Proof.
  intros Hrow Hcost.
  destruct (serve_row_stays env req (System.world sys) uid r Hrow) as (r1 & Hr1).
  unfold System.run. cbn [fold_left System.step System.world System.displays].
  rewrite lookup_insert_eq.
  unfold PointsDisplay.loadUserPoints. cbn [PointsDisplay.user PointsDisplay.userPoints].
  rewrite Hrow.
  unfold PointsDisplay.purchaseItem. cbn [PointsDisplay.user PointsDisplay.userPoints].
  destruct (UserPoints.total_points r <? cost) eqn:Hlt; [apply Z.ltb_lt in Hlt; lia|].
  cbn [System.world Edge.store].
  unfold Store.updateUserPoints, Store.insertPurchase. cbn [Store.user_points].
  rewrite lookup_alter_eq, Hr1. cbn [fmap option_fmap option_map].
  eexists. split; [reflexivity|]. split; reflexivity.
Qed.

Lemma purchase_overwrites_awards_witness :
  exists r',
    Store.user_points
      (Edge.store (System.world (System.run
         [System.Mount 0 "u1" false;
          System.Request Sample.morning (Sample.request "Hi" false);
          System.Purchase 0 false false "style_pack" "Creative" 5] Shop.start))) !! "u1"
    = Some r'
    /\ UserPoints.total_points r'
       = UserPoints.total_points (Sample.row 7 4 (Some "2024-03-10")) - 5
    /\ UserPoints.points_spent r'
       = UserPoints.points_spent (Sample.row 7 4 (Some "2024-03-10")) + 5.
Proof.
  apply (purchase_overwrites_awards Shop.start 0 "u1" (Sample.row 7 4 (Some "2024-03-10"))
           Sample.morning (Sample.request "Hi" false) "style_pack" "Creative" 5).
  - vm_compute. reflexivity.
  - simpl. lia.
Defined.

(** X13.  When the store takes the insert into [purchases] and refuses the
    update of the ledger, the purchase stays recorded and nothing is
    charged: [purchases] has the new row, the ledger and the cached row are
    as before, and the user is told that the purchase failed. *)
Theorem purchase_recorded_but_not_charged (itemType itemName : string) (cost : Z)
    (st : PointsDisplay.State) (s : Store.t) (uid : string) (cached : UserPoints.t) :
  PointsDisplay.user st = Some uid ->
  PointsDisplay.userPoints st = Some cached ->
  cost <= UserPoints.total_points cached ->
  let '(st', s', toasts) :=
    PointsDisplay.purchaseItem false true itemType itemName cost st s in
  Store.purchases s'
  = Store.purchases s
    ++ [{| Purchase.user_id := uid; Purchase.item_type := itemType;
           Purchase.item_name := itemName; Purchase.points_cost := cost |}]
  /\ Store.user_points s' = Store.user_points s
  /\ st' = st
  /\ toasts = [PointsDisplay.PurchaseFailed].
Proof.
  intros Hu Hc Hcost. unfold PointsDisplay.purchaseItem. rewrite Hu, Hc.
  destruct (UserPoints.total_points cached <? cost) eqn:Hlt; [apply Z.ltb_lt in Hlt; lia|].
  repeat split.
Qed.

Lemma purchase_recorded_but_not_charged_witness :
  let '(st', s', toasts) :=
    PointsDisplay.purchaseItem false true "style_pack" "Creative" 5 Shop.loaded
      (Edge.store Sample.streakWorld) in
  Store.purchases s'
  = Store.purchases (Edge.store Sample.streakWorld)
    ++ [{| Purchase.user_id := "u1"; Purchase.item_type := "style_pack";
           Purchase.item_name := "Creative"; Purchase.points_cost := 5 |}]
  /\ Store.user_points s' = Store.user_points (Edge.store Sample.streakWorld)
  /\ st' = Shop.loaded
  /\ toasts = [PointsDisplay.PurchaseFailed].
Proof.
  apply (purchase_recorded_but_not_charged "style_pack" "Creative" 5 Shop.loaded
           (Edge.store Sample.streakWorld) "u1" (Sample.row 7 4 (Some "2024-03-10"))).
  - reflexivity.
  - vm_compute. reflexivity.
  - simpl. lia.
Defined.

(** ** The chat *)

Lemma trimStart_blank (s : JS.jsstring) :
  forallb JS.isWhiteSpace s = true -> JS.trimStart s = [].
Proof.
  induction s as [|c s IH]; [reflexivity|].
  cbn [forallb JS.trimStart]. intros H. apply andb_true_iff in H as [Hc Hs].
  rewrite Hc. exact (IH Hs).
Qed.

(** X14.  An input made of white space only is not sent: [sendMessage]
    leaves the component and the store as they are, and calls nothing. *)
Theorem blank_message_is_not_sent (env : Edge.Env) (p : ChatInterface.Props)
    (st : ChatInterface.State) (w : Edge.World) :
  forallb JS.isWhiteSpace (ChatInterface.inputMessage st) = true ->
  ChatInterface.sendMessage env p st w = (st, w, []).
Proof.
  intros H. unfold ChatInterface.sendMessage, JS.trim.
  rewrite (trimStart_blank _ H). reflexivity.
Qed.

Lemma blank_message_is_not_sent_witness :
  ChatInterface.sendMessage Sample.morning Sample.props (Sample.chat [] "  ")
    Sample.streakWorld
  = (Sample.chat [] "  ", Sample.streakWorld, []).
Proof.
  apply (blank_message_is_not_sent Sample.morning Sample.props (Sample.chat [] "  ")
           Sample.streakWorld).
  reflexivity.
Defined.

Lemma invoke_post (env : Edge.Env) (token : string) (chat : Edge.ChatRequest)
    (w : Edge.World) :
  invoke env token chat w
  = (if bool_decide (Edge.status (fst (Edge.serve env (post token chat) w)) = 200)
     then Some (Edge.payload (fst (Edge.serve env (post token chat) w))) else None,
     snd (Edge.serve env (post token chat) w)).
Proof.
  unfold invoke. fold (post token chat).
  destruct (Edge.serve env (post token chat) w) as [r w']. reflexivity.
Qed.




(** X16.  When the edge function answers a sent message with an error
    status, the temporary message is removed again: the component shows the
    messages it showed before, the typed text is not put back into the
    input, the boost stays as chosen, and the failure toast is shown. *)
Theorem failed_send_shows_no_new_message (env : Edge.Env) (p : ChatInterface.Props)
    (st : ChatInterface.State) (w : Edge.World) (c : N) (m : JS.jsstring) (u : string) :
  JS.trim (ChatInterface.inputMessage st) = c :: m ->
  ChatInterface.loading st = false ->
  ChatInterface.user p = Some u ->
  Forall (fun msg => ChatInterface.id msg <> "temp") (ChatInterface.messages st) ->
  Edge.status (fst (Edge.serve env
     (post (ChatInterface.token p) (ChatInterface.chatRequest p st (c :: m))) w)) <> 200 ->
  ChatInterface.sendMessage env p st w
  = ({| ChatInterface.messages := ChatInterface.messages st;
        ChatInterface.inputMessage := [];
        ChatInterface.loading := false;
        ChatInterface.boost := ChatInterface.boost st;
        ChatInterface.style := ChatInterface.style st |},
     snd (Edge.serve env
            (post (ChatInterface.token p) (ChatInterface.chatRequest p st (c :: m))) w),
     [ChatInterface.ShowToast ChatInterface.SendFailed]).
Proof.
  intros Ht Hl Hu Hids Hs.
  unfold ChatInterface.sendMessage. rewrite Ht, Hl, Hu.
  change (ChatInterface.chatRequest p
            (ChatInterface.setMessages _
               (ChatInterface.setLoading true (ChatInterface.setInputMessage [] st)))
            (c :: m))
    with (ChatInterface.chatRequest p st (c :: m)).
  rewrite invoke_post, (bool_decide_eq_false_2 _ Hs).
  assert (Hf : List.filter (fun msg => negb (ChatInterface.isTemp msg))
                 (ChatInterface.messages st
                  ++ [{| ChatInterface.id := "temp"; ChatInterface.content := c :: m;
                         ChatInterface.role := Message.user;
                         ChatInterface.tokens_used := None;
                         ChatInterface.response_time_ms := None;
                         ChatInterface.points_awarded := None |}])
               = ChatInterface.messages st).
  { rewrite List.filter_app. cbn [List.filter].
    unfold ChatInterface.isTemp at 2. cbn [ChatInterface.id].
    rewrite bool_decide_eq_true_2 by reflexivity. cbn [negb]. rewrite app_nil_r.
    induction Hids as [|x l Hx _ IH]; [reflexivity|].
    cbn [List.filter]. unfold ChatInterface.isTemp at 1.
    rewrite (bool_decide_eq_false_2 _ Hx). cbn [negb]. f_equal. exact IH. }
  unfold ChatInterface.setLoading, ChatInterface.setMessages,
    ChatInterface.setInputMessage.
  cbn [ChatInterface.messages ChatInterface.inputMessage ChatInterface.loading
       ChatInterface.boost ChatInterface.style].
  rewrite Hf. reflexivity.
Qed.

Lemma failed_send_shows_no_new_message_witness :
  ChatInterface.sendMessage Sample.silent Sample.props (Sample.chat Sample.exchange "Hi")
    Sample.talkedWorld
  = ({| ChatInterface.messages :=
          ChatInterface.messages (Sample.chat Sample.exchange "Hi");
        ChatInterface.inputMessage := [];
        ChatInterface.loading := false;
        ChatInterface.boost := ChatInterface.boost (Sample.chat Sample.exchange "Hi");
        ChatInterface.style := ChatInterface.style (Sample.chat Sample.exchange "Hi") |},
     snd (Edge.serve Sample.silent
            (post (ChatInterface.token Sample.props)
               (ChatInterface.chatRequest Sample.props (Sample.chat Sample.exchange "Hi")
                  (72%N :: [105%N])))
            Sample.talkedWorld),
     [ChatInterface.ShowToast ChatInterface.SendFailed]).
Proof.
  apply (failed_send_shows_no_new_message Sample.silent Sample.props
           (Sample.chat Sample.exchange "Hi") Sample.talkedWorld 72%N [105%N] "u1").
  - reflexivity.
  - reflexivity.
  - reflexivity.
  - repeat constructor; discriminate.
  - vm_compute. discriminate.
Defined.

(** ** The layout *)

Lemma filter_isNot_ids (cid : string) (cs : list ChatLayout.Conversation) :
  ~ In cid (List.map ChatLayout.id (List.filter (ChatLayout.isNot cid) cs)).
Proof.
  induction cs as [|c cs IH]; [intros []|].
  cbn [List.filter]. unfold ChatLayout.isNot at 1.
  case_bool_decide as Hc; cbn [negb]; [exact IH|].
  cbn [List.map In]. intros [H|H]; [congruence | exact (IH H)].
Qed.

Lemma filter_isNot_keeps (cid : string) (cs : list ChatLayout.Conversation) c :
  In c cs -> ChatLayout.id c <> cid -> In c (List.filter (ChatLayout.isNot cid) cs).
Proof.
  intros Hin Hne. apply List.filter_In. split; [exact Hin|].
  unfold ChatLayout.isNot. rewrite bool_decide_eq_false_2 by exact Hne. reflexivity.
Qed.

Lemma map_id_retitle (cid : string) (title : JS.jsstring)
    (cs : list ChatLayout.Conversation) :
  List.map ChatLayout.id (List.map (ChatLayout.retitle cid title) cs)
  = List.map ChatLayout.id cs.
Proof.
  rewrite List.map_map. apply List.map_ext. intros c.
  unfold ChatLayout.retitle. case_bool_decide; reflexivity.
Qed.

(** X17.  After a conversation is deleted it is neither in the list nor in
    the store, while every other conversation of the list stays listed and
    every other stored conversation stays stored; this also holds when a new
    conversation, with an id of its own, is created in its place. *)
Theorem deleted_conversation_is_gone (user : option string) (cid : string)
    (inserted : option ChatLayout.Inserted) (st : ChatLayout.State) (s : Store.t) :
  (forall i, inserted = Some i -> ChatLayout.newId i <> cid) ->
  let '(st', s') := ChatLayout.deleteConversation user cid false inserted st s in
  ~ In cid (List.map ChatLayout.id (ChatLayout.conversations st'))
  /\ Store.conversations s' !! cid = None
  /\ (forall c, In c (ChatLayout.conversations st) -> ChatLayout.id c <> cid ->
                In c (ChatLayout.conversations st'))
  /\ (forall k, k <> cid -> Store.conversations s !! k <> None ->
                Store.conversations s' !! k <> None).
Proof.
  intros Hnew. unfold ChatLayout.deleteConversation.
  assert (Hdel : forall k, k <> cid ->
            Store.conversations (ChatLayout.deleteConversationRow cid s) !! k
            = Store.conversations s !! k).
  { intros k Hk. unfold ChatLayout.deleteConversationRow. cbn [Store.conversations].
    apply lookup_delete_ne. congruence. }
  assert (Hgone : Store.conversations (ChatLayout.deleteConversationRow cid s) !! cid
                  = None).
  { unfold ChatLayout.deleteConversationRow. cbn [Store.conversations].
    apply lookup_delete_eq. }
  case_bool_decide as Hact.
  2:{ cbn [ChatLayout.setConversations ChatLayout.conversations].
      split; [apply filter_isNot_ids|]. split; [exact Hgone|].
      split; [intros c; apply filter_isNot_keeps|].
      intros k Hk. rewrite (Hdel k Hk). auto. }
  destruct (List.filter (ChatLayout.isNot cid) (ChatLayout.conversations st))
    as [|c0 rest] eqn:Hf.
  - unfold ChatLayout.createNewConversation.
    destruct user as [uid|]; [destruct inserted as [i|]|].
    + cbn [ChatLayout.setConversations ChatLayout.setActiveConversationId
           ChatLayout.conversations ChatLayout.id List.map].
      pose proof (Hnew i eq_refl) as Hi.
      split; [intros [H|[]]; congruence|].
      unfold ChatLayout.insertConversation. cbn [Store.conversations ChatLayout.id].
      split; [rewrite lookup_insert_ne by exact Hi; exact Hgone|].
      split.
      * intros c Hin Hne. exfalso.
        pose proof (filter_isNot_keeps cid _ c Hin Hne) as H. rewrite Hf in H. exact H.
      * intros k Hk Hsome. destruct (decide (ChatLayout.newId i = k)) as [->|Hik].
        -- rewrite lookup_insert_eq. discriminate.
        -- rewrite lookup_insert_ne by exact Hik. rewrite (Hdel k Hk). exact Hsome.
    + cbn [ChatLayout.setConversations ChatLayout.conversations List.map].
      split; [intros []|]. split; [exact Hgone|]. split.
      * intros c Hin Hne. exfalso.
        pose proof (filter_isNot_keeps cid _ c Hin Hne) as H. rewrite Hf in H. exact H.
      * intros k Hk. rewrite (Hdel k Hk). auto.
    + cbn [ChatLayout.setConversations ChatLayout.conversations List.map].
      split; [intros []|]. split; [exact Hgone|]. split.
      * intros c Hin Hne. exfalso.
        pose proof (filter_isNot_keeps cid _ c Hin Hne) as H. rewrite Hf in H. exact H.
      * intros k Hk. rewrite (Hdel k Hk). auto.
  - cbn [ChatLayout.setConversations ChatLayout.setActiveConversationId
         ChatLayout.conversations].
    rewrite <- Hf.
    split; [apply filter_isNot_ids|]. split; [exact Hgone|].
    split; [intros c; apply filter_isNot_keeps|].
    intros k Hk. rewrite (Hdel k Hk). auto.
Qed.

Lemma deleted_conversation_is_gone_witness :
  let '(st', s') :=
    ChatLayout.deleteConversation (Some "u1") "c1" false (Some Layout.inserted)
      Layout.pair (Edge.store Sample.streakWorld) in
  ~ In "c1" (List.map ChatLayout.id (ChatLayout.conversations st'))
  /\ Store.conversations s' !! "c1" = None
  /\ (forall c, In c (ChatLayout.conversations Layout.pair) -> ChatLayout.id c <> "c1" ->
                In c (ChatLayout.conversations st'))
  /\ (forall k, k <> "c1" ->
                Store.conversations (Edge.store Sample.streakWorld) !! k <> None ->
                Store.conversations s' !! k <> None).
Proof.
  apply (deleted_conversation_is_gone (Some "u1") "c1" (Some Layout.inserted)
           Layout.pair (Edge.store Sample.streakWorld)).
  intros i [= <-]. discriminate.
Defined.

(** X18.  The active conversation stays one of the listed ones.  Creating a
    conversation, renaming one and selecting a listed one keep it so;
    deleting keeps it so when another conversation is left or a new one is
    created; loading keeps it so unless the user has no conversation, none
    can be created, and a conversation was active before. *)
Theorem active_conversation_stays_listed (user : option string) (cid : string)
    (title : JS.jsstring) (optTitle : option JS.jsstring) (error : bool)
    (selected : option (list ChatLayout.Conversation))
    (inserted : option ChatLayout.Inserted) (st : ChatLayout.State) (s : Store.t) :
  activeListed st ->
  activeListed (fst (fst (ChatLayout.createNewConversation user optTitle inserted st s)))
  /\ activeListed (fst (ChatLayout.updateConversationTitle cid title error st s))
  /\ (In cid (List.map ChatLayout.id (ChatLayout.conversations st)) ->
      activeListed (ChatLayout.selectConversation cid st))
  /\ ((exists c, In c (ChatLayout.conversations st) /\ ChatLayout.id c <> cid)
      \/ (user <> None /\ inserted <> None) ->
      activeListed (fst (ChatLayout.deleteConversation user cid error inserted st s)))
  /\ (selected <> Some [] \/ inserted <> None
      \/ ChatLayout.activeConversationId st = None ->
      activeListed (fst (ChatLayout.loadConversations user selected inserted st s))).
Proof.
  intros Hst.
  assert (Hcreate : forall st0,
            user <> None -> inserted <> None ->
            activeListed
              (fst (fst (ChatLayout.createNewConversation user None inserted st0 s)))).
  { intros st0 Hu Hi. unfold ChatLayout.createNewConversation.
    destruct user as [uid|]; [|congruence]. destruct inserted as [i|]; [|congruence].
    unfold activeListed. cbn. auto. }
  split; [|split; [|split; [|split]]].
  - unfold ChatLayout.createNewConversation.
    destruct user as [uid|]; [|exact Hst]. destruct inserted as [i|]; [|exact Hst].
    unfold activeListed. cbn. auto.
  - unfold ChatLayout.updateConversationTitle. destruct error; [exact Hst|].
    unfold activeListed in *. cbn [fst ChatLayout.setConversations
      ChatLayout.activeConversationId ChatLayout.conversations].
    rewrite map_id_retitle. exact Hst.
  - intros Hin. unfold activeListed, ChatLayout.selectConversation. cbn. exact Hin.
  - intros Hcase. unfold ChatLayout.deleteConversation. destruct error; [exact Hst|].
    case_bool_decide as Hact.
    + destruct (List.filter (ChatLayout.isNot cid) (ChatLayout.conversations st))
        as [|c0 rest] eqn:Hf.
      * destruct Hcase as [(c & Hin & Hne) | [Hu Hi]].
        -- exfalso. pose proof (filter_isNot_keeps cid _ c Hin Hne) as H.
           rewrite Hf in H. exact H.
        -- unfold ChatLayout.createNewConversation.
           destruct user as [uid|]; [|congruence].
           destruct inserted as [i|]; [|congruence].
           unfold activeListed. cbn. auto.
      * unfold activeListed. cbn. auto.
    + unfold activeListed in *.
      cbn [fst ChatLayout.setConversations ChatLayout.activeConversationId
           ChatLayout.conversations].
      destruct (ChatLayout.activeConversationId st) as [a|]; [|exact I].
      apply List.in_map_iff in Hst as (c & Hid & Hin).
      apply List.in_map_iff. exists c. split; [exact Hid|].
      apply filter_isNot_keeps; [exact Hin|]. congruence.
  - intros Hcase. unfold ChatLayout.loadConversations.
    destruct user as [uid|]; [|exact Hst].
    destruct selected as [[|c rest]|].
    + unfold ChatLayout.createNewConversation.
      destruct inserted as [i|].
      * unfold activeListed. cbn. auto.
      * destruct Hcase as [H | [H | H]]; try congruence.
        unfold activeListed. cbn. rewrite H. exact I.
    + unfold activeListed. cbn. auto.
    + exact Hst.
Qed.

Lemma active_conversation_stays_listed_witness :
  activeListed
    (fst (fst (ChatLayout.createNewConversation (Some "u1") None (Some Layout.inserted)
                 Layout.pair (Edge.store Sample.streakWorld))))
  /\ activeListed
       (fst (ChatLayout.updateConversationTitle "c1" (JS.utf16 "Hi") false Layout.pair
               (Edge.store Sample.streakWorld)))
  /\ (In "c1" (List.map ChatLayout.id (ChatLayout.conversations Layout.pair)) ->
      activeListed (ChatLayout.selectConversation "c1" Layout.pair))
  /\ ((exists c, In c (ChatLayout.conversations Layout.pair) /\ ChatLayout.id c <> "c1")
      \/ (Some "u1" <> None /\ Some Layout.inserted <> None) ->
      activeListed
        (fst (ChatLayout.deleteConversation (Some "u1") "c1" false (Some Layout.inserted)
                Layout.pair (Edge.store Sample.streakWorld))))
  /\ (Some [Layout.conv "c0" "Old"] <> Some [] \/ Some Layout.inserted <> None
      \/ ChatLayout.activeConversationId Layout.pair = None ->
      activeListed
        (fst (ChatLayout.loadConversations (Some "u1") (Some [Layout.conv "c0" "Old"])
                (Some Layout.inserted) Layout.pair (Edge.store Sample.streakWorld)))).
Proof.
  apply (active_conversation_stays_listed (Some "u1") "c1" (JS.utf16 "Hi") None false
           (Some [Layout.conv "c0" "Old"]) (Some Layout.inserted) Layout.pair
           (Edge.store Sample.streakWorld)).
  unfold activeListed. simpl. auto.
Defined.

(** X19.  When the active conversation is the only one listed, it is
    deleted, and no new conversation can be created, the list is empty and
    the deleted conversation is still the active one. *)
Theorem deleting_the_last_conversation_can_leave_it_active (user : option string)
    (cid : string) (inserted : option ChatLayout.Inserted) (st : ChatLayout.State)
    (s : Store.t) :
  ChatLayout.activeConversationId st = Some cid ->
  Forall (fun c => ChatLayout.id c = cid) (ChatLayout.conversations st) ->
  user = None \/ inserted = None ->
  let '(st', s') := ChatLayout.deleteConversation user cid false inserted st s in
  ChatLayout.conversations st' = []
  /\ ChatLayout.activeConversationId st' = Some cid
  /\ Store.conversations s' !! cid = None.
Proof.
  intros Hact Hall Hfail. unfold ChatLayout.deleteConversation.
  rewrite (bool_decide_eq_true_2 _ Hact).
  assert (Hf : List.filter (ChatLayout.isNot cid) (ChatLayout.conversations st) = []).
  { induction Hall as [|c l Hc _ IH]; [reflexivity|].
    cbn [List.filter]. unfold ChatLayout.isNot at 1.
    rewrite (bool_decide_eq_true_2 _ Hc). exact IH. }
  rewrite Hf. unfold ChatLayout.createNewConversation.
  assert (Hgone : Store.conversations (ChatLayout.deleteConversationRow cid s) !! cid
                  = None).
  { unfold ChatLayout.deleteConversationRow. cbn [Store.conversations].
    apply lookup_delete_eq. }
  destruct user as [uid|]; [destruct inserted as [i|]|].
  - destruct Hfail; discriminate.
  - cbn. auto.
  - cbn. auto.
Qed.

Lemma deleting_the_last_conversation_can_leave_it_active_witness :
  let '(st', s') :=
    ChatLayout.deleteConversation (Some "u1") "c1" false None Layout.single
      (Edge.store Sample.streakWorld) in
  ChatLayout.conversations st' = []
  /\ ChatLayout.activeConversationId st' = Some "c1"
  /\ Store.conversations s' !! "c1" = None.
Proof.
  apply (deleting_the_last_conversation_can_leave_it_active (Some "u1") "c1" None
           Layout.single (Edge.store Sample.streakWorld)).
  - reflexivity.
  - repeat constructor.
  - right. reflexivity.
Defined.

(** X20.  Renaming a conversation leaves the ids and the order of the list,
    every other listed conversation and the active conversation as they
    are; in the list and in the store the conversation has the new title,
    and no other stored conversation, no message and no ledger row
    changes. *)
Theorem renaming_changes_the_title_only (cid : string) (title : JS.jsstring)
    (st : ChatLayout.State) (s : Store.t) :
  let '(st', s') := ChatLayout.updateConversationTitle cid title false st s in
  List.map ChatLayout.id (ChatLayout.conversations st')
  = List.map ChatLayout.id (ChatLayout.conversations st)
  /\ (forall c', In c' (ChatLayout.conversations st') ->
        if bool_decide (ChatLayout.id c' = cid) then ChatLayout.title c' = title
        else In c' (ChatLayout.conversations st))
  /\ ChatLayout.activeConversationId st' = ChatLayout.activeConversationId st
  /\ Store.conversations s' !! cid
     = (fun c => {| Conversation.user_id := Conversation.user_id c;
                    Conversation.title := title |}) <$> Store.conversations s !! cid
  /\ (forall k, k <> cid -> Store.conversations s' !! k = Store.conversations s !! k)
  /\ Store.messages s' = Store.messages s
  /\ Store.user_points s' = Store.user_points s.
Proof.
  unfold ChatLayout.updateConversationTitle.
  cbn [ChatLayout.setConversations ChatLayout.conversations
       ChatLayout.activeConversationId].
  split; [apply map_id_retitle|]. split.
  { intros c' Hin. apply List.in_map_iff in Hin as (c & <- & Hin).
    unfold ChatLayout.retitle.
    destruct (decide (ChatLayout.id c = cid)) as [Hc|Hc].
    - rewrite (bool_decide_eq_true_2 _ Hc). cbn [ChatLayout.id ChatLayout.title].
      rewrite (bool_decide_eq_true_2 _ Hc). reflexivity.
    - rewrite !(bool_decide_eq_false_2 _ Hc). exact Hin. }
  split; [reflexivity|].
  unfold Store.updateTitle. cbn [Store.conversations Store.messages Store.user_points].
  split; [apply lookup_alter_eq|]. split; [|split; reflexivity].
  intros k Hk. apply lookup_alter_ne. congruence.
Qed.

(** X21.  Loading for a signed-in user ends the loading state.  When the
    store returns conversations, the list shows them, the first becomes the
    active one and the store is untouched; when it returns none, a
    conversation titled [New Conversation] is created for the user, listed
    alone and made active. *)
Theorem first_load_opens_a_conversation (uid : string)
    (data : list ChatLayout.Conversation) (i : ChatLayout.Inserted)
    (st : ChatLayout.State) (s : Store.t) :
  let '(st', s') :=
    ChatLayout.loadConversations (Some uid) (Some data) (Some i) st s in
  ChatLayout.loading st' = false
  /\ match data with
     | c :: _ =>
         ChatLayout.conversations st' = data
         /\ ChatLayout.activeConversationId st' = Some (ChatLayout.id c)
         /\ s' = s
     | [] =>
         ChatLayout.conversations st'
         = [{| ChatLayout.id := ChatLayout.newId i;
               ChatLayout.title := JS.utf16 "New Conversation";
               ChatLayout.created_at := ChatLayout.newCreatedAt i;
               ChatLayout.updated_at := ChatLayout.newUpdatedAt i |}]
         /\ ChatLayout.activeConversationId st' = Some (ChatLayout.newId i)
         /\ Store.conversations s' !! ChatLayout.newId i
            = Some {| Conversation.user_id := uid;
                      Conversation.title := JS.utf16 "New Conversation" |}
     end.
Proof.
  unfold ChatLayout.loadConversations. destruct data as [|c rest].
  - unfold ChatLayout.createNewConversation, ChatLayout.insertConversation.
    cbn. rewrite lookup_insert_eq. auto.
  - cbn. auto.
Qed.

(** ** The streak of an active user *)

Lemma computeReward_streak r t y b :
  (UserPoints.last_activity_date r <> None -> 1 <= UserPoints.current_streak r) ->
  1 <= UserPoints.current_streak (snd (Edge.computeReward r t y b)).
Proof.
  intros H. unfold Edge.computeReward, Edge.streakBonus.
  destruct (Edge.sameDate (UserPoints.last_activity_date r) y) eqn:Ey.
  - apply sameDate_true in Ey. cbn [snd UserPoints.current_streak].
    assert (1 <= UserPoints.current_streak r) by (apply H; congruence). lia.
  - destruct (Edge.sameDate (UserPoints.last_activity_date r) t) eqn:Et.
    + apply sameDate_true in Et. cbn [snd UserPoints.current_streak].
      apply H. congruence.
    + cbn [snd UserPoints.current_streak]. lia.
Qed.

Lemma step_streakStarted (a : System.Action) (sys : System.t) :
  streakStarted (Edge.store (System.world sys)) ->
  streakStarted (Edge.store (System.world (System.step a sys))).
Proof.
  unfold streakStarted. intros H uid row.
  destruct a as [env req | session user error
                | session purchaseError updateError itemType itemName cost];
    cbn [System.step System.world].
  - destruct (serve_ledger env req (System.world sys)) as [-> | (u & r & b & Hr & ->)];
      [apply H|].
    rewrite lookup_alter. case_decide as Hd; [|apply H].
    subst u. rewrite Hr. cbn [fmap option_fmap option_map]. intros [= <-] _.
    apply computeReward_streak. exact (H uid r Hr).
  - apply H.
  - destruct (System.displays sys !! session) as [st|]; [|apply H].
    pose proof (purchaseItem_ledger purchaseError updateError itemType itemName cost st
                  (Edge.store (System.world sys))) as Hp.
    destruct (PointsDisplay.purchaseItem purchaseError updateError itemType itemName cost
                st (Edge.store (System.world sys))) as [[st' s'] toasts].
    cbn [fst snd System.world Edge.store] in Hp |- *.
    destruct Hp as [-> | (u & cached & _ & ->)]; [apply H|].
    rewrite lookup_alter. case_decide as Hd; [|apply H].
    subst u. destruct (Store.user_points (Edge.store (System.world sys)) !! uid)
      as [r|] eqn:Hr; [|discriminate].
    cbn [fmap option_fmap option_map]. intros [= <-].
    cbn [UserPoints.last_activity_date UserPoints.current_streak].
    exact (H uid r Hr).
Qed.

(** X22.  Over any sequence of requests to the handler, shop loads and
    purchases, a ledger in which every row with a date of last activity has
    a streak of at least one day stays such a ledger. *)
Theorem streak_of_active_user_is_positive (actions : list System.Action)
    (sys : System.t) :
  streakStarted (Edge.store (System.world sys)) ->
  streakStarted (Edge.store (System.world (System.run actions sys))).
Proof.
  unfold System.run. revert sys.
  induction actions as [|a actions IH]; intros sys H; [exact H|].
  cbn [fold_left]. apply IH, step_streakStarted, H.
Qed.

Lemma streak_of_active_user_is_positive_witness :
  streakStarted
    (Edge.store (System.world (System.run
       [System.Mount 0 "u1" false;
        System.Request Sample.morning (Sample.request "Hi" true);
        System.Purchase 0 false false "style_pack" "Creative" 5] Shop.start))).
Proof.
  apply (streak_of_active_user_is_positive
           [System.Mount 0 "u1" false;
            System.Request Sample.morning (Sample.request "Hi" true);
            System.Purchase 0 false false "style_pack" "Creative" 5] Shop.start).
  unfold streakStarted. intros uid row Hrow _.
  change (Store.user_points (Edge.store (System.world Shop.start)))
    with ({[ "u1" := Sample.row 7 4 (Some "2024-03-10") ]} : gmap string UserPoints.t)
    in Hrow.
  apply lookup_singleton_Some in Hrow as [_ <-]. simpl. lia.
Defined.
